(** * JK financial dashboard: the extraction pipeline and the consolidation
    transform, embedded from [backend/scripts/extract_financial_data.py] and
    [backend/app.py].

    Conventions of the embedding.
    - Python [str] values are [string]s over ASCII; [lower], [strip], [split],
      [in] and the regular expressions used by the code are defined below on
      that alphabet.
    - Python numbers are exact rationals [Q]: binary64 rounding and overflow
      are outside the model.  Equality of numbers is [Qeq].
    - A Python exception is the [Raise] branch of [result]; [try ... except
      Exception] is [catch].
    - [self.data] is a record of optional fields, a field being [None] when
      the key is absent from the dict. *)

From Stdlib Require Import String Ascii List ZArith QArith Qround Qabs Lia Bool.
From Stdlib Require Import Numbers.DecimalString Numbers.DecimalPos.
From Stdlib Require Import Sorting.Sorted Permutation.
Import ListNotations.
Open Scope Z_scope.
Open Scope string_scope.

(* ------------------------------------------------------------------ *)
(** * Exceptions *)

Inductive exn : Type :=
| IndexError
| KeyError
| ValueError
| TypeError
| BackendError.   (* anything raised by PyPDF2, camelot or tabula *)

Inductive result (A : Type) : Type :=
| Ok (a : A)
| Raise (e : exn).
Arguments Ok {A} a.
Arguments Raise {A} e.

Definition bind {A B} (m : result A) (f : A -> result B) : result B :=
  match m with
  | Ok a => f a
  | Raise e => Raise e
  end.

(** [try: m except Exception: h] *)
Definition catch {A} (m : result A) (h : exn -> A) : A :=
  match m with
  | Ok a => a
  | Raise e => h e
  end.

Declare Scope result_scope.
Delimit Scope result_scope with result.
Notation "x <- m ;; k" := (bind m (fun x => k))
  (at level 61, m at next level, right associativity) : result_scope.
Open Scope result_scope.

Definition is_ok {A} (m : result A) : bool :=
  match m with Ok _ => true | Raise _ => false end.

(* ------------------------------------------------------------------ *)
(** * Python strings *)

Module PyStr.

Definition code (c : ascii) : nat := nat_of_ascii c.

Definition is_digit (c : ascii) : bool :=
  (48 <=? code c)%nat && (code c <=? 57)%nat.

Definition is_upper (c : ascii) : bool :=
  (65 <=? code c)%nat && (code c <=? 90)%nat.

Definition is_lower (c : ascii) : bool :=
  (97 <=? code c)%nat && (code c <=? 122)%nat.

(** [\w] on ASCII *)
Definition is_word (c : ascii) : bool :=
  is_digit c || is_upper c || is_lower c || (c =? "_")%char.

(** the characters removed by [str.strip()] *)
Definition is_space (c : ascii) : bool :=
  ((9 <=? code c)%nat && (code c <=? 13)%nat)
  || ((28 <=? code c)%nat && (code c <=? 32)%nat).

Definition digit_val (c : ascii) : Z := Z.of_nat (code c) - 48.

Definition lower_char (c : ascii) : ascii :=
  if is_upper c then ascii_of_nat (code c + 32) else c.

Fixpoint map_str (f : ascii -> ascii) (s : string) : string :=
  match s with
  | "" => ""
  | String c s' => String (f c) (map_str f s')
  end.

(** [s.lower()] *)
Definition lower (s : string) : string := map_str lower_char s.

Fixpoint filter_str (p : ascii -> bool) (s : string) : string :=
  match s with
  | "" => ""
  | String c s' => if p c then String c (filter_str p s') else filter_str p s'
  end.

Fixpoint forallb_str (p : ascii -> bool) (s : string) : bool :=
  match s with
  | "" => true
  | String c s' => p c && forallb_str p s'
  end.

Fixpoint existsb_str (p : ascii -> bool) (s : string) : bool :=
  match s with
  | "" => false
  | String c s' => p c || existsb_str p s'
  end.

(** [s.replace(c, '')] for a one-character [c] *)
Definition remove_char (c : ascii) (s : string) : string :=
  filter_str (fun d => negb (d =? c)%char) s.

(** [s.startswith(sub)] *)
Fixpoint starts_with (sub s : string) : bool :=
  match sub, s with
  | "", _ => true
  | String a sub', String b s' => (a =? b)%char && starts_with sub' s'
  | String _ _, "" => false
  end.

(** [sub in s] *)
Fixpoint contains (sub s : string) : bool :=
  if starts_with sub s then true
  else match s with
       | "" => false
       | String _ s' => contains sub s'
       end.

Fixpoint take (n : nat) (s : string) : string :=
  match n, s with
  | S n', String c s' => String c (take n' s')
  | _, _ => ""
  end.

Fixpoint drop (n : nat) (s : string) : string :=
  match n, s with
  | S n', String _ s' => drop n' s'
  | _, _ => s
  end.

(** number of leading characters in the class [p] *)
Fixpoint span (p : ascii -> bool) (s : string) : nat :=
  match s with
  | String c s' => if p c then S (span p s') else 0%nat
  | "" => 0%nat
  end.

Definition lstrip (s : string) : string := drop (span is_space s) s.

Fixpoint rstrip (s : string) : string :=
  match s with
  | "" => ""
  | String c s' =>
      let r := rstrip s' in
      if is_space c && (r =? "") then "" else String c r
  end.

(** [s.strip()] *)
Definition strip (s : string) : string := rstrip (lstrip s).

(** [s.split(sep)] for a one-character separator *)
Fixpoint split (sep : ascii) (s : string) : list string :=
  match s with
  | "" => [""]
  | String c s' =>
      if (c =? sep)%char then "" :: split sep s'
      else match split sep s' with
           | [] => [String c ""]
           | w :: ws => String c w :: ws
           end
  end.

(** [sep.join(l)] *)
Definition join (sep : string) (l : list string) : string := String.concat sep l.

(** value of a run of decimal digits, most significant first *)
Fixpoint digits_value (acc : Z) (s : string) : Z :=
  match s with
  | "" => acc
  | String c s' => digits_value (10 * acc + digit_val c) s'
  end.

(** body of an integer literal: digits, single underscores between them *)
Fixpoint int_body (after_digit : bool) (acc : Z) (s : string) : option Z :=
  match s with
  | "" => if after_digit then Some acc else None
  | String c s' =>
      if is_digit c then int_body true (10 * acc + digit_val c) s'
      else if (c =? "_")%char && after_digit then int_body false acc s'
      else None
  end.

(** [int(s)] for a [str] argument *)
Definition py_int (s : string) : result Z :=
  let t := strip s in
  let r := match t with
           | String c b =>
               if (c =? "-")%char then option_map Z.opp (int_body false 0 b)
               else if (c =? "+")%char then int_body false 0 b
               else int_body false 0 t
           | "" => None
           end in
  match r with
  | Some z => Ok z
  | None => Raise ValueError
  end.

(** [str(z)] for an [int] *)
Definition str_of_Z (z : Z) : string := NilEmpty.string_of_int (Z.to_int z).

(** [str(n)] for a non-negative [int] *)
Definition str_of_nat (n : nat) : string := str_of_Z (Z.of_nat n).

End PyStr.
Import PyStr.

(* ------------------------------------------------------------------ *)
(** * The regular expressions of the code

    Every pattern the extractor searches with is a sequence of greedy,
    bounded repetitions of a character class.  [match_here] is the
    backtracking matcher of Python's [re] on such sequences: each item first
    takes as many characters as it can and gives them back one at a time
    while the rest of the pattern fails. *)

Module Re.

Record item : Type := Item {
  cls : ascii -> bool;
  lo : nat;
  hi : option nat
}.

Definition one (p : ascii -> bool) : item := Item p 1 (Some 1%nat).
Definition opt (p : ascii -> bool) : item := Item p 0 (Some 1%nat).
Definition star (p : ascii -> bool) : item := Item p 0 None.
Definition plus (p : ascii -> bool) : item := Item p 1 None.
Definition rep (p : ascii -> bool) (m n : nat) : item := Item p m (Some n).
Definition at_least (p : ascii -> bool) (m : nat) : item := Item p m None.
Definition chr (c : ascii) : item := one (fun d => (d =? c)%char).

Fixpoint lit (s : string) : list item :=
  match s with
  | "" => []
  | String c s' => chr c :: lit s'
  end.

(** tries the continuation [k] after [n], [n-1], ..., [lo] characters *)
Fixpoint backtrack (k : string -> option nat) (s : string) (lo n : nat)
  : option nat :=
  match k (drop n s) with
  | Some m => Some (n + m)%nat
  | None =>
      match n with
      | O => None
      | S n' => if (lo <=? n')%nat then backtrack k s lo n' else None
      end
  end.

(** length of the match of the pattern at the start of [s] *)
Fixpoint match_here (its : list item) (s : string) : option nat :=
  match its with
  | [] => Some 0%nat
  | it :: rest =>
      let avail := span (cls it) s in
      let nmax := match hi it with
                  | Some h => Nat.min h avail
                  | None => avail
                  end in
      if (lo it <=? nmax)%nat then backtrack (match_here rest) s (lo it) nmax
      else None
  end.

(** [re.search(pattern, s)]: the leftmost match, as [group(0)] *)
Fixpoint search (its : list item) (s : string) : option string :=
  match match_here its s with
  | Some n => Some (take n s)
  | None =>
      match s with
      | "" => None
      | String _ s' => search its s'
      end
  end.

Definition found (its : list item) (s : string) : bool :=
  match search its s with Some _ => true | None => false end.

End Re.

(* ------------------------------------------------------------------ *)
(** * NumericNormalizer: [_clean_numeric_value] *)

(** [[^\d.-]] is removed: these characters are kept *)
Definition numeric_char (c : ascii) : bool :=
  is_digit c || (c =? ".")%char || (c =? "-")%char.

Definition is_sign (c : ascii) : bool := (c =? "-")%char || (c =? "+")%char.

Definition is_dot (c : ascii) : bool := (c =? ".")%char.

(** the pattern [[-+]?\d+\.?\d*], searched as one group *)
Definition number_re : list Re.item :=
  [Re.opt is_sign; Re.plus is_digit; Re.opt is_dot; Re.star is_digit].

(** [float(m)] on decimal literals: an optional sign, digits, and an optional
    point followed by digits.  The argument of [float] in
    [_clean_numeric_value] is a match of [number_re], so no other literal
    (exponent, [inf], [nan]) reaches it; those are [ValueError] here. *)
Definition pow10 (k : nat) : positive := Z.to_pos (10 ^ Z.of_nat k).

Definition magnitude (body : string) : option Q :=
  let n := span is_digit body in
  match drop n body with
  | "" => if (n =? 0)%nat then None else Some (digits_value 0 (take n body) # 1)
  | String c fr =>
      if (c =? ".")%char
         && forallb_str is_digit fr
         && negb ((n =? 0)%nat && (String.length fr =? 0)%nat)
      then Some (Qred (digits_value 0 (take n body ++ fr)
                       # pow10 (String.length fr)))
      else None
  end.

Definition float_of_decimal (m : string) : option Q :=
  match m with
  | String c r =>
      if (c =? "-")%char then option_map Qopp (magnitude r)
      else if (c =? "+")%char then magnitude r
      else magnitude m
  | "" => None
  end.

(** [_clean_numeric_value(self, value_str)] for a [str] argument
    ([pd.isna] of a [str] is [False]). *)
Definition _clean_numeric_value (value_str : string) : option Q :=
  if (value_str =? "") || (value_str =? "nan") then None
  else
    let negative := contains "(" value_str && contains ")" value_str in
    let value_str :=
      if negative then remove_char ")" (remove_char "(" value_str)
      else value_str in
    let value_str := filter_str numeric_char value_str in
    match Re.search number_re value_str with
    | Some m =>
        match float_of_decimal m with
        | Some value => Some (if negative then Qopp value else value)
        | None => None
        end
    | None => None
    end.

(** a present value, up to equality of rationals *)
Definition value_is (o : option Q) (q : Q) : Prop :=
  exists v, o = Some v /\ Qeq v q.


(* ------------------------------------------------------------------ *)
(** * Numbers: rounding and formatting *)

(** rounding to the nearest integer, ties to the even one *)
Definition round_half_even (x : Q) : Z :=
  let f := Qfloor x in
  match Qcompare (x - inject_Z f) (1 # 2) with
  | Lt => f
  | Gt => f + 1
  | Eq => if Z.even f then f else f + 1
  end.

(** [round(x, 2)] *)
Definition round2 (x : Q) : Q := Qred (round_half_even (x * 100) # 100).

(** [int(x)] of a number: truncation toward zero *)
Definition py_trunc (x : Q) : Z :=
  if Qle_bool 0 x then Qfloor x else Qceiling x.

(** [f"{x:.2f}"] *)
Definition format_2f (x : Q) : string :=
  let n := round_half_even (Qabs x * 100) in
  (if Qle_bool 0 x then "" else "-")
  ++ str_of_Z (n / 100) ++ "."
  ++ (if (n mod 100 <? 10)%Z then "0" else "") ++ str_of_Z (n mod 100).

(* ------------------------------------------------------------------ *)
(** * Dictionaries and sorting

    A [dict] whose iteration order matters is an association list in
    insertion order; assigning to a key that is present keeps its place. *)

Section Dict.
Context {K V : Type} (eqb : K -> K -> bool).

Fixpoint dict_get (k : K) (d : list (K * V)) : option V :=
  match d with
  | [] => None
  | (k', v) :: d' => if eqb k' k then Some v else dict_get k d'
  end.

Fixpoint dict_set (k : K) (v : V) (d : list (K * V)) : list (K * V) :=
  match d with
  | [] => [(k, v)]
  | (k', v') :: d' =>
      if eqb k' k then (k, v) :: d' else (k', v') :: dict_set k v d'
  end.

End Dict.

Section Sorting.
Context {A : Type}.

(** [sorted(l, key=key)]: stable, ascending *)
Fixpoint insert_asc (key : A -> Z) (x : A) (l : list A) : list A :=
  match l with
  | [] => [x]
  | y :: l' =>
      if (key y <? key x)%Z then y :: insert_asc key x l' else x :: l
  end.

Definition sorted_asc (key : A -> Z) (l : list A) : list A :=
  fold_right (insert_asc key) [] l.

(** [sorted(l, key=key, reverse=True)]: stable, descending *)
Fixpoint insert_desc (key : A -> Q) (x : A) (l : list A) : list A :=
  match l with
  | [] => [x]
  | y :: l' =>
      if Qle_bool (key y) (key x) then x :: l else y :: insert_desc key x l'
  end.

Definition sorted_desc (key : A -> Q) (l : list A) : list A :=
  fold_right (insert_desc key) [] l.

End Sorting.

(* ------------------------------------------------------------------ *)
(** * The metric keys of a record *)

Inductive metric : Type :=
| total_revenue
| cost_of_sales
| operating_expenses
| gross_profit
| gross_profit_margin
| earnings_per_share
| net_asset_per_share
| selling_distribution_expenses
| administrative_expenses
| other_operating_expenses.

Definition metric_eqb (a b : metric) : bool :=
  match a, b with
  | total_revenue, total_revenue
  | cost_of_sales, cost_of_sales
  | operating_expenses, operating_expenses
  | gross_profit, gross_profit
  | gross_profit_margin, gross_profit_margin
  | earnings_per_share, earnings_per_share
  | net_asset_per_share, net_asset_per_share
  | selling_distribution_expenses, selling_distribution_expenses
  | administrative_expenses, administrative_expenses
  | other_operating_expenses, other_operating_expenses => true
  | _, _ => false
  end.


(* ------------------------------------------------------------------ *)
(** * [app.py]: the consolidation transform and the data loader *)

Module App.

(** a JSON scalar *)
Inductive jval : Type :=
| JNull
| JNum (q : Q)
| JStr (s : string).

(** [a == b] *)
Definition jval_eqb (a b : jval) : bool :=
  match a, b with
  | JNull, JNull => true
  | JNum p, JNum q => Qeq_bool p q
  | JStr s, JStr t => (s =? t)
  | _, _ => false
  end.

(** ** The persisted consolidated form

    [financial_data] maps a fiscal-period key to the metrics of the period.
    An absent key of a dict is [None]; [value] is a number or JSON [null];
    a shareholder's [percentage], when present, is a number. *)

Record metric_json : Type := {
  value : option Q;
  formatted : option string
}.

Record rights_json : Type := {
  rj_ratio : option jval;
  rj_issue_price : option jval
}.

Record holder_json : Type := {
  hj_percentage : option Q;
  hj_shares : option Q
}.

Record year_json : Type := {
  yj_metrics : metric -> option metric_json;
  yj_right_issues : option rights_json;
  yj_top_shareholders : option (list (string * holder_json))
}.

Record consolidated_json : Type := {
  financial_data : option (list (string * year_json))
}.

(** ** The dataset served to the API layer *)

Record right_issue : Type := {
  ri_year : Z;
  ri_ratio : jval;
  ri_issuePrice : option Q;
  ri_description : string
}.

Record shareholder : Type := {
  sh_name : string;
  sh_percentage : Q;
  sh_shares : option Q
}.

Record event : Type := {
  title : string;
  description : string;
  impact : string;
  date : string
}.

Record financials : Type := {
  revenue : option Q;
  revenueFormatted : option string;
  costOfSales : option Q;
  costOfSalesFormatted : option string;
  operatingExpenses : option Q;
  operatingExpensesFormatted : option string;
  grossProfit : option Q;
  grossProfitFormatted : option string;
  grossProfitMargin : option Q;
  grossProfitMarginFormatted : option string;
  eps : option Q;
  epsFormatted : option string;
  netAssetPerShare : option Q;
  netAssetPerShareFormatted : option string;
  outstandingShares : Q;
  netProfit : Q;
  netProfitFormatted : string;
  totalAssets : option Q;        (* only the CSV loader sets these two *)
  totalLiabilities : option Q
}.

Record yearly : Type := {
  year : Z;
  y_industryGroups : list string;
  y_financials : financials;
  events : list event
}.

Record dataset : Type := {
  industryGroups : list string;
  yearlyData : list yearly;
  rightIssues : list right_issue;
  topShareholders : list (Z * list shareholder)
}.

Definition industry_groups : list string :=
  ["Transportation"; "Leisure"; "Consumer Foods & Retail";
   "Financial Services"; "Property"; "Information Technology"].

(** [estimate_share_count(year_data)] *)
Definition truthy (x : option Q) : bool :=
  match x with
  | Some q => negb (Qeq_bool q 0)
  | None => false
  end.

Fixpoint first_estimate (l : list (string * holder_json)) : option Q :=
  match l with
  | [] => None
  | (_, data) :: l' =>
      match hj_percentage data, hj_shares data with
      | Some p, Some s =>
          if truthy (Some p) && truthy (Some s) then Some (s / p * 100)%Q
          else first_estimate l'
      | _, _ => first_estimate l'
      end
  end.

Definition estimate_share_count (year_data : year_json) : Q :=
  let default_shares := 1385000000%Q in
  match yj_top_shareholders year_data with
  | None => default_shares
  | Some l =>
      match first_estimate l with
      | Some n => n
      | None => default_shares
      end
  end.

(** [get_events_for_year(year)] *)
Definition get_events_for_year (y : Z) : list event :=
  if (y =? 2019)%Z then
    [ {| title := "Easter Sunday Attacks";
         description := "Impact on tourism and leisure sectors";
         impact := "negative"; date := "2019-04-21" |} ]
  else if (y =? 2020)%Z then
    [ {| title := "COVID-19 Pandemic";
         description := "Global lockdowns affecting operations";
         impact := "negative"; date := "2020-03-15" |};
      {| title := "Government Relief";
         description := "Tax relief measures announced";
         impact := "positive"; date := "2020-06-10" |} ]
  else if (y =? 2021)%Z then
    [ {| title := "Vaccination Programs";
         description := "Improved business sentiment";
         impact := "positive"; date := "2021-04-05" |} ]
  else if (y =? 2022)%Z then
    [ {| title := "Economic Crisis";
         description := "Sri Lanka economic crisis";
         impact := "negative"; date := "2022-03-31" |} ]
  else if (y =? 2023)%Z then
    [ {| title := "Tourism Resurgence";
         description := "Strong recovery in tourism sector";
         impact := "positive"; date := "2023-02-10" |} ]
  else if (y =? 2024)%Z then
    [ {| title := "Economic Recovery";
         description := "Continued economic recovery and growth";
         impact := "positive"; date := "2024-01-15" |};
      {| title := "Digital Transformation";
         description :=
           "Acceleration of digital initiatives across all sectors";
         impact := "positive"; date := "2024-03-20" |} ]
  else [].

(** [get_sample_right_issues_data()] *)
Definition get_sample_right_issues_data : list right_issue :=
  [ {| ri_year := 2023; ri_ratio := JStr "4:1"; ri_issuePrice := Some 175%Q;
       ri_description := "Rights issue for expansion" |};
    {| ri_year := 2020; ri_ratio := JStr "3:1"; ri_issuePrice := Some 160%Q;
       ri_description := "Rights issue for debt restructuring" |};
    {| ri_year := 2018; ri_ratio := JStr "5:2"; ri_issuePrice := Some 140%Q;
       ri_description := "Rights issue for acquisitions" |};
    {| ri_year := 2015; ri_ratio := JStr "2:1"; ri_issuePrice := Some 120%Q;
       ri_description := "Rights issue for capital investment" |} ].

(** the two display years of a fiscal-period key: [year_str.split('-')],
    [int(fiscal_years[0])], [int(fiscal_years[1])] *)
Definition display_years (year_str : string) : result (list Z) :=
  let fiscal_years := split "-" year_str in
  start_year <- py_int (hd "" fiscal_years) ;;
  end_year <- match nth_error fiscal_years 1 with
              | Some s => py_int s
              | None => Raise IndexError
              end ;;
  Ok [start_year; end_year].

(** the duplicate check and [append] on [rightIssues] *)
Definition add_right_issue (r : right_issue) (l : list right_issue)
  : list right_issue :=
  if existsb (fun item => (ri_year item =? ri_year r)%Z
                          && jval_eqb (ri_ratio item) (ri_ratio r)) l
  then l else l ++ [r].

(** the duplicate check and [append] on [yearlyData] *)
Definition add_yearly (y : yearly) (l : list yearly) : list yearly :=
  if existsb (fun item => (year item =? year y)%Z) l then l else l ++ [y].

Definition with_yearlyData (d : dataset) (l : list yearly) : dataset :=
  {| industryGroups := industryGroups d; yearlyData := l;
     rightIssues := rightIssues d; topShareholders := topShareholders d |}.

Definition with_rightIssues (d : dataset) (l : list right_issue) : dataset :=
  {| industryGroups := industryGroups d; yearlyData := yearlyData d;
     rightIssues := l; topShareholders := topShareholders d |}.

Definition with_topShareholders (d : dataset) (l : list (Z * list shareholder))
  : dataset :=
  {| industryGroups := industryGroups d; yearlyData := yearlyData d;
     rightIssues := rightIssues d; topShareholders := l |}.

Definition empty_dataset : dataset :=
  {| industryGroups := industry_groups; yearlyData := [];
     rightIssues := []; topShareholders := [] |}.

Section Transform.

(** [float(s)] for a [str] argument: the conversion of the library *)
Variable float_str : string -> result Q.

(** [float(v)] *)
Definition py_float (v : jval) : result Q :=
  match v with
  | JNum q => Ok q
  | JStr s => float_str s
  | JNull => Raise TypeError
  end.

Definition get_or (default : jval) (o : option jval) : jval :=
  match o with Some v => v | None => default end.

(** lines 75-86 *)
Definition process_right_issues (display_year : Z) (year_data : year_json)
    (transformed : dataset) : result dataset :=
  match yj_right_issues year_data with
  | None => Ok transformed
  | Some right_issues =>
      if negb (jval_eqb (get_or JNull (rj_ratio right_issues)) (JStr "N/A"))
      then
        issuePrice <-
          (if negb (jval_eqb (get_or JNull (rj_issue_price right_issues))
                      (JStr "N/A"))
           then q <- py_float (get_or (JNum 0) (rj_issue_price right_issues)) ;;
                Ok (Some q)
           else Ok None) ;;
        let right_issue_data :=
          {| ri_year := display_year;
             ri_ratio := get_or (JStr "N/A") (rj_ratio right_issues);
             ri_issuePrice := issuePrice;
             ri_description := "Rights issue" |} in
        Ok (with_rightIssues transformed
              (add_right_issue right_issue_data (rightIssues transformed)))
      else Ok transformed
  end.

(** lines 89-104 *)
Definition shareholder_of (entry : string * holder_json) : shareholder :=
  {| sh_name := fst entry;
     sh_percentage := match hj_percentage (snd entry) with
                      | Some p => p
                      | None => 0%Q
                      end;
     sh_shares := hj_shares (snd entry) |}.

Definition process_top_shareholders (display_year : Z) (year_data : year_json)
    (transformed : dataset) : dataset :=
  match yj_top_shareholders year_data with
  | None => transformed
  | Some l =>
      let shareholders_list := sorted_desc sh_percentage (map shareholder_of l) in
      with_topShareholders transformed
        (dict_set Z.eqb display_year shareholders_list
           (topShareholders transformed))
  end.

(** [year_data[k]]: [KeyError] when the key is absent *)
Definition metric_of (year_data : year_json) (k : metric) : result metric_json :=
  match yj_metrics year_data k with
  | Some e => Ok e
  | None => Raise KeyError
  end.

(** lines 107-130 *)
Definition build_financials (year_data : year_json) : result financials :=
  rev <- metric_of year_data total_revenue ;;
  cos <- metric_of year_data cost_of_sales ;;
  opex <- metric_of year_data operating_expenses ;;
  gp <- metric_of year_data gross_profit ;;
  gpm <- metric_of year_data gross_profit_margin ;;
  e <- metric_of year_data earnings_per_share ;;
  nav <- metric_of year_data net_asset_per_share ;;
  let shares := estimate_share_count year_data in
  match value e with
  | None => Raise TypeError
  | Some eps_value =>
      let net := (eps_value * shares)%Q in
      Ok {| revenue := value rev; revenueFormatted := formatted rev;
            costOfSales := value cos; costOfSalesFormatted := formatted cos;
            operatingExpenses := value opex;
            operatingExpensesFormatted := formatted opex;
            grossProfit := value gp; grossProfitFormatted := formatted gp;
            grossProfitMargin := value gpm;
            grossProfitMarginFormatted := formatted gpm;
            eps := value e; epsFormatted := formatted e;
            netAssetPerShare := value nav;
            netAssetPerShareFormatted := formatted nav;
            outstandingShares := shares;
            netProfit := net;
            netProfitFormatted :=
              "LKR " ++ format_2f (net / 1000000)%Q ++ " Mn";
            totalAssets := None; totalLiabilities := None |}
  end.

(** the body of the loop over the display years, lines 74-142 *)
Definition process_display_year (year_data : year_json) (transformed : dataset)
    (display_year : Z) : result dataset :=
  transformed <- process_right_issues display_year year_data transformed ;;
  let transformed := process_top_shareholders display_year year_data transformed in
  fin <- build_financials year_data ;;
  let yearly_data :=
    {| year := display_year;
       y_industryGroups := industryGroups transformed;
       y_financials := fin;
       events := get_events_for_year display_year |} in
  Ok (with_yearlyData transformed
        (add_yearly yearly_data (yearlyData transformed))).

(** a [for] loop whose body may raise *)
Fixpoint for_each {A S : Type} (body : S -> A -> result S) (l : list A) (s : S)
  : result S :=
  match l with
  | [] => Ok s
  | x :: l' => s' <- body s x ;; for_each body l' s'
  end.

(** the body of the loop over the fiscal periods, lines 66-142 *)
Definition process_period (transformed : dataset) (item : string * year_json)
  : result dataset :=
  years <- display_years (fst item) ;;
  for_each (process_display_year (snd item)) years transformed.

(** [transform_consolidated_data(consolidated_data)] *)
Definition transform_consolidated_data (consolidated_data : consolidated_json)
  : result dataset :=
  let items := match financial_data consolidated_data with
               | Some d => d
               | None => []
               end in
  transformed <- for_each process_period items empty_dataset ;;
  Ok (with_yearlyData transformed (sorted_asc year (yearlyData transformed))).

End Transform.

(** ** The CSV loader and the cache

    What [os.listdir], [os.path.exists] and [pd.read_csv] return is given by
    the environment.  A file that does not exist is [None]; a read that
    raises is [Raise]. *)

Record csv_env : Type := {
  listdir : result (list string);
  (** rows [(Metric, Value)] of [financial_metrics_<y>.csv]; the [Value]
      column is numeric *)
  metrics_csv : string -> option (result (list (string * Q)));
  (** rows [(Attribute, Value)] of [rights_issues_<y>.csv] *)
  rights_csv : string -> option (result (list (string * jval)));
  (** rows [(Shareholder, Percentage, Number of Shares)] of
      [top_shareholders_<y>.csv], a cell being [None] when it is missing *)
  shareholders_csv :
    string -> option (result (list (string * option Q * option Q)))
}.

Record files : Type := {
  (** [consolidated_financial_data.json]: [open] and [json.load] *)
  json_file : option (result consolidated_json);
  csv : csv_env
}.

(** [data_cache] *)
Record cache : Type := {
  all_data : option dataset;
  raw_json_data : option consolidated_json
}.

Definition empty_cache : cache := {| all_data := None; raw_json_data := None |}.

Section Loader.

Variable float_str : string -> result Q.

(** [f.split('_')[-1].split('.')[0]] *)
Definition year_of_filename (f : string) : string :=
  hd "" (split "." (last (split "_" f) "")).

(** [row['Metric'].lower().replace(' ', '_')] *)
Definition metric_name (s : string) : string :=
  map_str (fun c => if (c =? " ")%char then "_"%char else c) (lower s).

Definition metrics_dict_of (rows : list (string * Q)) : list (string * Q) :=
  fold_left (fun d row => dict_set String.eqb (metric_name (fst row)) (snd row) d)
    rows [].

Definition rights_dict_of (rows : list (string * jval)) : list (string * jval) :=
  fold_left (fun d row => dict_set String.eqb (lower (fst row)) (snd row) d)
    rows [].

(** [float(metrics_dict.get(k, 0))] *)
Definition metric_float (metrics_dict : list (string * Q)) (k : string) : Q :=
  match dict_get String.eqb k metrics_dict with
  | Some q => q
  | None => 0%Q
  end.

Definition format_currency (v : Q) : string :=
  "LKR " ++ format_2f (v / 1000000)%Q ++ " Mn".

Definition format_percentage (v : Q) : string := format_2f v ++ "%".

(** lines 270-287 *)
Definition csv_right_issues (year_str : string) (display_year : Z)
    (e : csv_env) (all : dataset) : result dataset :=
  match rights_csv e year_str with
  | None => Ok all
  | Some read =>
      rights_df <- read ;;
      let rights_dict := rights_dict_of rights_df in
      let get k := dict_get String.eqb k rights_dict in
      if negb (jval_eqb (get_or JNull (get "ratio")) (JStr "N/A"))
      then
        issuePrice <-
          (if negb (jval_eqb (get_or JNull (get "issue_price")) (JStr "N/A"))
           then q <- py_float float_str (get_or (JNum 0) (get "issue_price")) ;;
                Ok (Some q)
           else Ok None) ;;
        let rights_data :=
          {| ri_year := display_year;
             ri_ratio := get_or (JStr "N/A") (get "ratio");
             ri_issuePrice := issuePrice;
             ri_description := "Rights issue" |} in
        Ok (with_rightIssues all (add_right_issue rights_data (rightIssues all)))
      else Ok all
  end.

(** lines 290-313 *)
Definition csv_shareholder_of (row : string * option Q * option Q) : shareholder :=
  let '(name, pct, shares) := row in
  {| sh_name := name;
     sh_percentage := match pct with Some p => p | None => 0%Q end;
     sh_shares := shares |}.

Definition csv_top_shareholders (year_str : string) (display_year : Z)
    (e : csv_env) (all : dataset) : dataset :=
  match shareholders_csv e year_str with
  | None => all
  | Some read =>
      let shareholders_list :=
        catch (rows <- read ;;
               Ok (sorted_desc sh_percentage (map csv_shareholder_of rows)))
              (fun _ => []) in
      with_topShareholders all
        (dict_set Z.eqb display_year shareholders_list (topShareholders all))
  end.

(** lines 316-368 *)
Definition csv_yearly (metrics_dict : list (string * Q)) (display_year : Z)
  : yearly :=
  let revenue := metric_float metrics_dict "total_revenue" in
  let cost_of_sales := metric_float metrics_dict "cost_of_sales" in
  let op_expenses := metric_float metrics_dict "operating_expenses" in
  let gross_profit := metric_float metrics_dict "gross_profit" in
  let gross_margin := metric_float metrics_dict "gross_profit_margin" in
  let eps := metric_float metrics_dict "earnings_per_share" in
  let net_asset_per_share := metric_float metrics_dict "net_asset_per_share" in
  let shares_outstanding := 1322000000%Q in
  {| year := display_year;
     y_industryGroups := industry_groups;
     y_financials :=
       {| revenue := Some revenue;
          revenueFormatted := Some (format_currency revenue);
          costOfSales := Some cost_of_sales;
          costOfSalesFormatted := Some (format_currency cost_of_sales);
          operatingExpenses := Some op_expenses;
          operatingExpensesFormatted := Some (format_currency op_expenses);
          grossProfit := Some gross_profit;
          grossProfitFormatted := Some (format_currency gross_profit);
          grossProfitMargin := Some gross_margin;
          grossProfitMarginFormatted := Some (format_percentage gross_margin);
          eps := Some eps;
          epsFormatted := Some (format_2f eps);
          netAssetPerShare := Some net_asset_per_share;
          netAssetPerShareFormatted := Some (format_2f net_asset_per_share);
          outstandingShares := shares_outstanding;
          netProfit := (eps * shares_outstanding)%Q;
          netProfitFormatted := format_currency (eps * shares_outstanding)%Q;
          totalAssets := Some 0%Q;
          totalLiabilities := Some 0%Q |};
     events := get_events_for_year display_year |}.

(** the body of the loop over the display years, lines 268-372 *)
Definition csv_display_year (e : csv_env) (year_str : string)
    (metrics_dict : list (string * Q)) (all : dataset) (display_year : Z)
  : result dataset :=
  all <- csv_right_issues year_str display_year e all ;;
  let all := csv_top_shareholders year_str display_year e all in
  Ok (with_yearlyData all
        (add_yearly (csv_yearly metrics_dict display_year) (yearlyData all))).

(** the body of the loop over the years, lines 250-372 *)
Definition csv_period (e : csv_env) (all : dataset) (year_str : string)
  : result dataset :=
  years <- display_years year_str ;;
  match metrics_csv e year_str with
  | None => Ok all
  | Some read =>
      metrics_df <- read ;;
      for_each (csv_display_year e year_str (metrics_dict_of metrics_df))
        years all
  end.

(** [load_from_csv_files()]: the result and the cache it leaves *)
Definition load_from_csv_files (fs : files) (c : cache) : result dataset * cache :=
  let e := csv fs in
  let computed :=
    names <- listdir e ;;
    let financial_files := filter (starts_with "financial_metrics_") names in
    let years := map year_of_filename financial_files in
    all <- for_each (csv_period e) years empty_dataset ;;
    let all := with_yearlyData all (sorted_asc year (yearlyData all)) in
    Ok (match rightIssues all with
        | [] => with_rightIssues all get_sample_right_issues_data
        | _ :: _ => all
        end) in
  match computed with
  | Ok all =>
      (Ok all, {| all_data := Some all; raw_json_data := raw_json_data c |})
  | Raise x => (Raise x, c)
  end.

(** [load_all_financial_data()]: the result and the cache it leaves *)
Definition load_all_financial_data (fs : files) (c : cache)
  : result dataset * cache :=
  match all_data c with
  | Some d => (Ok d, c)
  | None =>
      match json_file fs with
      | None => load_from_csv_files fs c
      | Some read =>
          let attempt :=
            consolidated_data <- read ;;
            transformed_data <-
              transform_consolidated_data float_str consolidated_data ;;
            Ok (transformed_data, consolidated_data) in
          match attempt with
          | Ok (transformed_data, consolidated_data) =>
              (Ok transformed_data,
               {| all_data := Some transformed_data;
                  raw_json_data := Some consolidated_data |})
          | Raise _ => load_from_csv_files fs c
          end
      end
  end.

End Loader.

End App.

(* ------------------------------------------------------------------ *)
(** * [app.py]: the API routes and the forecasting helpers

    A route is the function of its request arguments and of the dataset that
    [load_all_financial_data()] returned to it. *)

Module Api.
Import App.

(** what a route returns: a JSON body with status 200, or an error status *)
Inductive response (A : Type) : Type :=
| Status200 (body : A)
| Status400
| Status404.
Arguments Status200 {A} body.
Arguments Status400 {A}.
Arguments Status404 {A}.

(** [clear_cache()]: [data_cache.clear()] *)
Definition clear_cache (c : cache) : cache := empty_cache.

(** ** The routes filtered by years and industry groups *)

(** [arg.split(',') if arg else None] *)
Definition arg_list (arg : option string) : option (list string) :=
  match arg with
  | Some s => if (s =? "") then None else Some (split "," s)
  | None => None
  end.

(** [x in l] for a list of strings *)
Definition mem (x : string) (l : list string) : bool :=
  existsb (String.eqb x) l.

(** [if years_list and year_str not in years_list: continue] *)
Definition skipped_by_years (years_list : option (list string))
    (item : yearly) : bool :=
  match years_list with
  | Some ((_ :: _) as l) => negb (mem (str_of_Z (year item)) l)
  | _ => false
  end.

(** [if industry_groups_list and not any(group in item['industryGroups']
    for group in industry_groups_list): continue] *)
Definition skipped_by_groups (industry_groups_list : option (list string))
    (item : yearly) : bool :=
  match industry_groups_list with
  | Some ((_ :: _) as l) =>
      negb (existsb (fun group => mem group (y_industryGroups item)) l)
  | _ => false
  end.

(** the items for which the loop of a filtered route reaches [append] *)
Definition selected (years industry_groups : option string)
    (all_data : dataset) : list yearly :=
  let years_list := arg_list years in
  let industry_groups_list := arg_list industry_groups in
  filter (fun item => negb (skipped_by_years years_list item)
                      && negb (skipped_by_groups industry_groups_list item))
    (yearlyData all_data).

Record revenue_row : Type := {
  rr_year : Z;
  rr_revenue : option Q;
  rr_currency : string
}.

(** [get_revenue_data()] *)
Definition get_revenue_data (years industry_groups : option string)
    (all_data : dataset) : list revenue_row :=
  map (fun item => {| rr_year := year item;
                      rr_revenue := revenue (y_financials item);
                      rr_currency := "LKR" |})
    (selected years industry_groups all_data).

Record cost_row : Type := {
  cr_year : Z;
  cr_costOfSales : option Q;
  cr_operatingExpenses : option Q;
  cr_currency : string
}.

(** [get_cost_vs_expenses()] *)
Definition get_cost_vs_expenses (years industry_groups : option string)
    (all_data : dataset) : list cost_row :=
  map (fun item => {| cr_year := year item;
                      cr_costOfSales := costOfSales (y_financials item);
                      cr_operatingExpenses :=
                        operatingExpenses (y_financials item);
                      cr_currency := "LKR" |})
    (selected years industry_groups all_data).

(** [get_gross_profit_margin()]: rows of [year] and [grossProfitMargin] *)
Definition get_gross_profit_margin (years industry_groups : option string)
    (all_data : dataset) : list (Z * option Q) :=
  map (fun item => (year item, grossProfitMargin (y_financials item)))
    (selected years industry_groups all_data).

(** [get_eps_data()]: rows of [year] and [eps] *)
Definition get_eps_data (years industry_groups : option string)
    (all_data : dataset) : list (Z * option Q) :=
  map (fun item => (year item, eps (y_financials item)))
    (selected years industry_groups all_data).

(** [get_net_asset_per_share()]: rows of [year] and [netAssetPerShare] *)
Definition get_net_asset_per_share (years industry_groups : option string)
    (all_data : dataset) : list (Z * option Q) :=
  map (fun item => (year item, netAssetPerShare (y_financials item)))
    (selected years industry_groups all_data).

(** ** [get_right_issues()] *)

Definition get_right_issues (data : dataset) : list right_issue :=
  match rightIssues data with
  | [] => get_sample_right_issues_data
  | _ :: _ => rightIssues data
  end.

(** ** [get_financial_ratios()] *)







(** ** [get_shareholders()] *)

(** [min(l, key=key)] for a list that is not empty: the first element whose
    key is the least *)
Fixpoint min_by (key : Z -> Z) (best : Z) (l : list Z) : Z :=
  match l with
  | [] => best
  | x :: l' => if (key x <? key best)%Z then min_by key x l'
               else min_by key best l'
  end.

(** [d[k]] for a key that is present *)
Definition lookup_or_empty (k : Z) (d : list (Z * list shareholder))
  : list shareholder :=
  match dict_get Z.eqb k d with
  | Some l => l
  | None => []
  end.

Definition get_shareholders (year : option string) (data : dataset)
  : result (response (list shareholder)) :=
  match year with
  | None => Ok Status400
  | Some y =>
      if (y =? "") then Ok Status400
      else
        wanted <- py_int y ;;
        match dict_get Z.eqb wanted (topShareholders data) with
        | Some l => Ok (Status200 l)
        | None =>
            (* find closest available year *)
            match map fst (topShareholders data) with
            | [] => Ok (Status200 [])
            | first :: rest =>
                let closest_year :=
                  min_by (fun x => Z.abs (x - wanted)) first rest in
                Ok (Status200
                      (lookup_or_empty closest_year (topShareholders data)))
            end
        end
  end.

(** ** [get_dashboard_overview()] *)

Record growth : Type := {
  revenueGrowth : Q;
  grossProfitGrowth : Q;
  epsGrowth : Q
}.

Record overview : Type := {
  latestYear : Z;
  o_revenue : option Q;
  o_grossProfit : option Q;
  o_grossProfitMargin : option Q;
  o_eps : option Q;
  o_netAssetPerShare : option Q;
  growthRates : option growth;          (* [None] is the empty dict *)
  o_topShareholders : list shareholder
}.

(** [((cur - prev) / abs(prev)) * 100 if prev != 0 else 0]; arithmetic on
    [None] raises *)
Definition growth_rate (cur prev : option Q) : result Q :=
  match prev with
  | Some p =>
      if Qeq_bool p 0 then Ok 0%Q
      else match cur with
           | Some c => Ok ((c - p) / Qabs p * 100)%Q
           | None => Raise TypeError
           end
  | None => Raise TypeError
  end.

(** [max(l)] for a list that is not empty *)
Definition max_of (first : Z) (rest : list Z) : Z := fold_left Z.max rest first.

Definition get_dashboard_overview (data : dataset)
  : result (response overview) :=
  match yearlyData data with
  | [] => Ok Status404
  | first :: rest =>
      let latest_year := max_of (year first) (map year rest) in
      match find (fun item => (year item =? latest_year)%Z)
              (yearlyData data) with
      | None => Ok Status404
      | Some latest_data =>
          let prev_year := latest_year - 1 in
          growth_rates <-
            match find (fun item => (year item =? prev_year)%Z)
                    (yearlyData data) with
            | Some prev_data =>
                let financials := y_financials latest_data in
                let prev_financials := y_financials prev_data in
                r <- growth_rate (revenue financials)
                       (revenue prev_financials) ;;
                g <- growth_rate (grossProfit financials)
                       (grossProfit prev_financials) ;;
                e <- growth_rate (eps financials) (eps prev_financials) ;;
                Ok (Some {| revenueGrowth := r; grossProfitGrowth := g;
                            epsGrowth := e |})
            | None => Ok None
            end ;;
          Ok (Status200
                {| latestYear := latest_year;
                   o_revenue := revenue (y_financials latest_data);
                   o_grossProfit := grossProfit (y_financials latest_data);
                   o_grossProfitMargin :=
                     grossProfitMargin (y_financials latest_data);
                   o_eps := eps (y_financials latest_data);
                   o_netAssetPerShare :=
                     netAssetPerShare (y_financials latest_data);
                   growthRates := growth_rates;
                   o_topShareholders :=
                     firstn 5 (lookup_or_empty latest_year
                                 (topShareholders data)) |})
      end
  end.

(** ** The industry factors *)

Definition get_industry_weight (industry_group : string) : Q :=
  match dict_get String.eqb industry_group
          [("Transportation", 1.2%Q); ("Leisure", 1.3%Q);
           ("Consumer Foods & Retail", 0.9%Q); ("Financial Services", 1.1%Q);
           ("Property", 1.4%Q); ("Information Technology", 1.5%Q)] with
  | Some w => w
  | None => 1.0%Q
  end.

Definition industry_factors : list (string * list (Z * Q)) :=
  [("Transportation",
    [(2019, 0.9%Q); (2020, 0.7%Q); (2021, 0.8%Q); (2022, 0.85%Q);
     (2023, 0.95%Q)]);
   ("Leisure",
    [(2019, 1.0%Q); (2020, 0.4%Q); (2021, 0.6%Q); (2022, 0.75%Q);
     (2023, 0.9%Q)]);
   ("Consumer Foods & Retail",
    [(2019, 1.0%Q); (2020, 0.9%Q); (2021, 0.95%Q); (2022, 0.9%Q);
     (2023, 0.95%Q)]);
   ("Financial Services",
    [(2019, 1.0%Q); (2020, 0.85%Q); (2021, 0.9%Q); (2022, 0.8%Q);
     (2023, 0.85%Q)]);
   ("Property",
    [(2019, 1.0%Q); (2020, 0.8%Q); (2021, 0.75%Q); (2022, 0.7%Q);
     (2023, 0.8%Q)]);
   ("Information Technology",
    [(2019, 1.0%Q); (2020, 1.1%Q); (2021, 1.2%Q); (2022, 1.15%Q);
     (2023, 1.25%Q)])].

Definition future_factors : list (string * list (Z * Q)) :=
  [("Transportation",
    [(2024, 1.05%Q); (2025, 1.1%Q); (2026, 1.15%Q); (2027, 1.2%Q)]);
   ("Leisure",
    [(2024, 1.1%Q); (2025, 1.2%Q); (2026, 1.25%Q); (2027, 1.3%Q)]);
   ("Consumer Foods & Retail",
    [(2024, 1.02%Q); (2025, 1.05%Q); (2026, 1.08%Q); (2027, 1.1%Q)]);
   ("Financial Services",
    [(2024, 1.03%Q); (2025, 1.07%Q); (2026, 1.1%Q); (2027, 1.15%Q)]);
   ("Property",
    [(2024, 1.05%Q); (2025, 1.1%Q); (2026, 1.15%Q); (2027, 1.2%Q)]);
   ("Information Technology",
    [(2024, 1.15%Q); (2025, 1.25%Q); (2026, 1.35%Q); (2027, 1.45%Q)])].

(** [table.get(industry_group, {}).get(year, 1.0)] *)
Definition factor_of (table : list (string * list (Z * Q)))
    (industry_group : string) (year : Z) : Q :=
  match dict_get String.eqb industry_group table with
  | Some by_year =>
      match dict_get Z.eqb year by_year with
      | Some f => f
      | None => 1.0%Q
      end
  | None => 1.0%Q
  end.

Definition apply_industry_factor (value : Q) (industry_group : string)
    (year : Z) : Q :=
  (value * factor_of industry_factors industry_group year)%Q.

Definition apply_industry_future_factor (value : Q) (industry_group : string)
    (year : Z) : Q :=
  (value * factor_of future_factors industry_group year)%Q.

(** ** The forecasting models

    What scikit-learn, statsmodels and tensorflow compute is given by the
    environment; the code around the library calls is embedded. *)

Record point : Type := {
  p_year : Z;
  p_value : Q
}.

Record forecast_result : Type := {
  forecast : list point;
  ci_upper : list point;      (* [confidence_interval['upper']] *)
  ci_lower : list point;      (* [confidence_interval['lower']] *)
  accuracy : Q
}.

(** [range(a, b)] *)
Definition range (a b : Z) : list Z :=
  map (fun i => a + Z.of_nat i) (seq 0 (Z.to_nat (b - a))).

(** [l[i]] *)
Definition item_at {A : Type} (l : list A) (i : nat) : result A :=
  match nth_error l i with
  | Some x => Ok x
  | None => Raise IndexError
  end.

Fixpoint for_indexed {A B : Type} (f : nat -> A -> result B) (i : nat)
    (l : list A) : result (list B) :=
  match l with
  | [] => Ok []
  | x :: l' => y <- f i x ;; ys <- for_indexed f (S i) l' ;; Ok (y :: ys)
  end.

Section Forecast.

(** a fitted [LinearRegression] *)
Variable model : Type.
Variable fit : list Z -> list Q -> result model.
Variable score : model -> list Z -> list Q -> result Q.
Variable predict : model -> list Z -> result (list Q).

(** the bodies of the [try] blocks of the other three models, from the
    library calls to the [return] *)
Variable arima_body : list Z -> list Q -> Z -> result forecast_result.
Variable lstm_imports : result unit.
Variable lstm_body : list Z -> list Q -> Z -> result forecast_result.
Variable seasonal_imports : result unit.
Variable seasonal_body : list Z -> list Q -> Z -> result forecast_result.

Definition linear_regression_forecast (years : list Z) (values : list Q)
    (forecast_years : Z) : result forecast_result :=
  m <- fit years values ;;
  r_squared <- score m years values ;;
  last_year <- match years with
               | [] => Raise IndexError
               | _ :: _ => Ok (last years 0)
               end ;;
  let future_years := range (last_year + 1) (last_year + forecast_years + 1) in
  future_values <- predict m future_years ;;
  forecast_data <-
    for_indexed (fun i year => v <- item_at future_values i ;;
                               Ok {| p_year := year; p_value := v |})
      0 future_years ;;
  Ok {| forecast := forecast_data;
        ci_upper := map (fun pt => {| p_year := p_year pt;
                                      p_value := (p_value pt * 1.1)%Q |})
                      forecast_data;
        ci_lower := map (fun pt => {| p_year := p_year pt;
                                      p_value := (p_value pt * 0.9)%Q |})
                      forecast_data;
        accuracy := r_squared |}.

(** [try: ... except Exception: return fallback] *)
Definition or_fall_back (attempt fallback : result forecast_result)
  : result forecast_result :=
  match attempt with
  | Ok r => Ok r
  | Raise _ => fallback
  end.

Definition arima_forecast (years : list Z) (values : list Q)
    (forecast_years : Z) : result forecast_result :=
  or_fall_back (arima_body years values forecast_years)
    (linear_regression_forecast years values forecast_years).

Definition lstm_forecast (years : list Z) (values : list Q)
    (forecast_years : Z) : result forecast_result :=
  or_fall_back
    (_ <- lstm_imports ;;
     if (length values <? 5)%nat then Raise ValueError
     else lstm_body years values forecast_years)
    (arima_forecast years values forecast_years).

Definition seasonal_decomposition_forecast (years : list Z) (values : list Q)
    (forecast_years : Z) : result forecast_result :=
  or_fall_back
    (_ <- seasonal_imports ;;
     if (length values <? 4)%nat then Raise ValueError
     else seasonal_body years values forecast_years)
    (arima_forecast years values forecast_years).

End Forecast.

End Api.

(* ------------------------------------------------------------------ *)
(** * [extract_financial_data.py]: the extractor *)

Module Extractor.

(** ** Documents and the extraction backends

    A document is what the libraries return for it.  [PdfReader] gives the
    text of the pages; camelot gives, for a page and a flavor, a list of
    tables whose cells are strings; tabula gives data frames whose cells may
    be numbers or missing.  Every call may raise. *)

Inductive flavor : Type := Lattice | Stream.

(** a camelot table: [table.df] *)
Record table : Type := {
  df : list (list string);       (* the rows of cells *)
  df_to_string : string;         (* [df.to_string()] *)
  df_rows_str : string           (* [" ".join(str(row) for _, row in df.iterrows())] *)
}.

(** a cell of a tabula data frame *)
Inductive tcell : Type :=
| TText (s : string)
| TNumber (zero : bool) (shown : string)   (* a number and its [str] *)
| TNaN.

Record tframe : Type := {
  t_columns : list string;       (* [str(col)] of the column labels *)
  t_rows : list (list tcell);
  t_to_string : string;
  t_rows_str : string
}.

Record document : Type := {
  pdf_path : string;
  (** [PdfReader(pdf_path)] and [page.extract_text()] of each page *)
  reader : result (list (result string));
  (** [camelot.read_pdf(pdf_path, pages=str(page), flavor=..., edge_tol=...,
      process_background=...)], optional arguments being [None] when left
      out *)
  camelot : nat -> flavor -> option nat -> option bool -> result (list table);
  (** [tabula.read_pdf(pdf_path, pages='all', multiple_tables=True, ...)] *)
  tabula_all : result (list tframe);
  (** [tabula.read_pdf(pdf_path, pages=str(page), ..., area=...)] *)
  tabula_page : nat -> result (list tframe);
  (** [re.findall] of the name / shares / percentage pattern of the text
      fallback, as triples of groups *)
  findall_shareholders : string -> list (string * string * string);
  (** [datetime.now().year] *)
  current_year : positive
}.

(** ** [self.data] *)

Record holder : Type := {
  percentage : Q;
  shares : option Q
}.

Record rights : Type := {
  ratio : string;
  issue_price : option Q;        (* [None] is ['N/A'] *)
  date : string
}.

Record data : Type := {
  num : metric -> option Q;
  currency : metric -> option string;
  right_issues : option rights;
  top_shareholders : option (list (string * holder))
}.

Definition empty_data : data :=
  {| num := fun _ => None; currency := fun _ => None;
     right_issues := None; top_shareholders := None |}.

(** [self.data[k] = v] *)
Definition set_num (k : metric) (v : Q) (d : data) : data :=
  {| num := fun k' => if metric_eqb k' k then Some v else num d k';
     currency := currency d;
     right_issues := right_issues d;
     top_shareholders := top_shareholders d |}.

(** [self.data[k + '_currency'] = c] *)
Definition set_currency (k : metric) (c : string) (d : data) : data :=
  {| num := num d;
     currency := fun k' => if metric_eqb k' k then Some c else currency d k';
     right_issues := right_issues d;
     top_shareholders := top_shareholders d |}.

Definition set_right_issues (r : rights) (d : data) : data :=
  {| num := num d; currency := currency d;
     right_issues := Some r; top_shareholders := top_shareholders d |}.

Definition set_top_shareholders (l : list (string * holder)) (d : data) : data :=
  {| num := num d; currency := currency d;
     right_issues := right_issues d; top_shareholders := Some l |}.

Definition set_money (k : metric) (v : Q) (c : string) (d : data) : data :=
  set_currency k c (set_num k v d).

(** [self.data.get('total_revenue_currency', 'LKR')] *)
Definition revenue_currency (d : data) : string :=
  match currency d total_revenue with
  | Some c => c
  | None => "LKR"
  end.

(** ** [_extract_year_from_filename] *)

(** [os.path.basename] *)
Definition basename (path : string) : string := last (split "/" path) "".

Definition substr (start len : nat) (s : string) : string :=
  take len (drop start s).

(** the text of the first [n] pages, [extract_text] raising as it does *)
Fixpoint pages_text (pages : list (result string)) : result string :=
  match pages with
  | [] => Ok ""
  | p :: rest => t <- p ;; r <- pages_text rest ;; Ok (t ++ r)
  end.

Definition is_slash_or_dash (c : ascii) : bool :=
  (c =? "/")%char || (c =? "-")%char.

Definition _extract_year_from_filename (doc : document) : string :=
  let filename_base := basename (pdf_path doc) in
  (* _(\d{2})-(\d{2}) *)
  match Re.search [Re.chr "_"; Re.rep is_digit 2 2; Re.chr "-";
                   Re.rep is_digit 2 2] filename_base with
  | Some m => "20" ++ substr 1 2 m ++ "-" ++ "20" ++ substr 4 2 m
  | None =>
      (* (\d{4}) *)
      match Re.search [Re.rep is_digit 4 4] filename_base with
      | Some m => m
      | None =>
          let from_content :=
            catch
              (pages <- reader doc ;;
               text <- pages_text (firstn 10 pages) ;;
               (* Annual Report (\d{4})[/-](\d{2}) *)
               match Re.search (Re.lit "Annual Report "
                                ++ [Re.rep is_digit 4 4;
                                    Re.one is_slash_or_dash;
                                    Re.rep is_digit 2 2])%list text with
               | Some m => Ok (Some (substr 14 4 m ++ "-" ++ "20" ++ substr 19 2 m))
               | None => Ok None
               end)
              (fun _ => None) in
          match from_content with
          | Some y => y
          | None =>
              let current_year := Z.pos (current_year doc) in
              str_of_Z (current_year - 1) ++ "-" ++ str_of_Z current_year
          end
      end
  end.

(** [self.year] *)
Definition year (doc : document) : string := _extract_year_from_filename doc.

(** [int(self.year.split('-')[0])] *)
Definition year_num (doc : document) : result Z :=
  py_int (hd "" (split "-" (year doc))).

(** ** [_guess_pages_for_keyword] *)

(** [re.findall(r'\b\d{1,3}\b', line)]: the maximal runs of word characters
    that are one to three digits *)
Fixpoint word_runs (cur : string) (s : string) : list string :=
  match s with
  | "" => if (cur =? "") then [] else [cur]
  | String c s' =>
      if is_word c then word_runs (cur ++ String c "") s'
      else if (cur =? "") then word_runs "" s'
      else cur :: word_runs "" s'
  end.

Definition small_numbers (line : string) : list string :=
  filter (fun w => forallb_str is_digit w && (String.length w <=? 3)%nat)
    (word_runs "" line).

Fixpoint first_some {A B : Type} (f : A -> option B) (l : list A) : option B :=
  match l with
  | [] => None
  | x :: l' => match f x with Some b => Some b | None => first_some f l' end
  end.

Fixpoint traverse {A B : Type} (f : A -> result B) (l : list A)
  : result (list B) :=
  match l with
  | [] => Ok []
  | x :: l' => y <- f x ;; ys <- traverse f l' ;; Ok (y :: ys)
  end.

(** [lines[max(0, i-1):min(len(lines), i+2)]] *)
Definition around (i : nat) (lines : list string) : list string :=
  firstn (Nat.min (length lines) (i + 2) - Nat.max 0 (i - 1))
    (skipn (Nat.max 0 (i - 1)) lines).

Definition numbers_near (keyword_lower : string) (text : string)
  : option (list nat) :=
  if contains keyword_lower text then
    let lines := split "010" text in
    first_some
      (fun i =>
         if contains keyword_lower (nth i lines "") then
           first_some
             (fun search_line =>
                match small_numbers search_line with
                | [] => None
                | numbers =>
                    Some (map (fun n => Z.to_nat (digits_value 0 n)) numbers)
                end)
             (around i lines)
         else None)
      (seq 0 (length lines))
  else None.

Definition range (a b : nat) : list nat := seq a (b - a).

Definition static_guess (keyword_lower : string) : list nat :=
  if contains "income statement" keyword_lower
     || contains "profit or loss" keyword_lower then range 180 190
  else if contains "balance sheet" keyword_lower
          || contains "financial position" keyword_lower then range 185 195
  else if contains "shareholder" keyword_lower
          || contains "share information" keyword_lower then range 140 150
  else if contains "earnings per share" keyword_lower
          || contains "eps" keyword_lower
       then (range 180 190 ++ range 240 250)%list
  else if contains "summary indicators" keyword_lower then range 140 150
  else map (fun k => 100 + 10 * k)%nat (seq 0 10).

Definition _guess_pages_for_keyword (doc : document) (keyword : string)
  : list nat :=
  let keyword_lower := lower keyword in
  let from_contents :=
    catch
      (pages <- reader doc ;;
       texts <- traverse (fun p => t <- p ;; Ok (lower t))
                  (firstn 20 pages) ;;
       let toc_pages :=
         filter (fun text => contains "contents" text || contains "index" text)
           texts in
       Ok (first_some (numbers_near keyword_lower) toc_pages))
      (fun _ => None) in
  match from_contents with
  | Some pages => pages
  | None => static_guess keyword_lower
  end.

(** ** [_extract_tables_from_page] *)

(** the body of the [try] for one page *)
Definition page_tables (doc : document) (lattice : bool) (page : nat)
  : result (list table) :=
  if lattice then
    page_tables <- camelot doc page Lattice None None ;;
    match page_tables with
    | _ :: _ => Ok page_tables
    | [] =>
        (* no tables found with lattice: try stream *)
        page_tables <- camelot doc page Stream None None ;;
        Ok page_tables
    end
  else
    page_tables <- camelot doc page Stream None None ;;
    Ok page_tables.

(** the loop over pages, each page in its own [try] *)
Definition tables_of_pages (doc : document) (lattice : bool) (pages : list nat)
  : list table :=
  flat_map (fun page => catch (page_tables doc lattice page) (fun _ => []))
    pages.

(** the 1-based numbers of the pages whose text holds the keyword *)
Fixpoint matching_from (keyword_lower : string) (i : nat)
    (pages : list (result string)) : result (list nat) :=
  match pages with
  | [] => Ok []
  | p :: rest =>
      text <- p ;;
      ms <- matching_from keyword_lower (S i) rest ;;
      Ok (if contains keyword_lower (lower text) then (i + 1)%nat :: ms else ms)
  end.

Definition _extract_tables_from_page (doc : document) (keyword : string)
    (lattice : bool) : list table :=
  let tables :=
    catch
      (pages <- reader doc ;;
       matching_pages <- matching_from (lower keyword) 0 pages ;;
       Ok (tables_of_pages doc lattice matching_pages))
      (fun _ => []) in
  match tables with
  | _ :: _ => tables
  | [] =>
      tables_of_pages doc lattice (_guess_pages_for_keyword doc keyword)
  end.

(** ** Scanning the rows of tables *)

(** [row[0]]: [KeyError] on a frame without columns *)
Definition row0 (row : list string) : result string :=
  match row with
  | c :: _ => Ok c
  | [] => Raise KeyError
  end.

(** [" ".join([str(cell).lower() for cell in row if cell])] *)
Definition row_text (row : list string) : string :=
  join " " (map lower (filter (fun c => negb (c =? "")) row)).

(** [any(kw in text for kw in kws)] *)
Definition any_in (kws : list string) (text : string) : bool :=
  existsb (fun kw => contains kw text) kws.

(** [if value:] *)
Definition nonzero (v : Q) : bool := negb (Qeq_bool v 0).

Definition clean_if (accept : Q -> bool) (cell : string) : option Q :=
  match _clean_numeric_value cell with
  | Some v => if accept v then Some v else None
  | None => None
  end.

(** [for j in range(1, min(4, len(row)))]: the first accepted value *)
Definition first_in_columns (accept : Q -> bool) (row : list string)
  : option Q :=
  first_some (clean_if accept) (firstn 3 (tl row)).

(** [for cell in row]: the first accepted value *)
Definition first_in_cells (accept : Q -> bool) (row : list string) : option Q :=
  first_some (clean_if accept) row.

(** the rows of the tables, in the order of the two loops *)
Definition all_rows (tables : list table) : list (list string) :=
  flat_map df tables.

(** rows tested on their first cell; returns at the first accepted value *)
Fixpoint scan_labelled (label : string -> bool) (accept : Q -> bool)
    (rows : list (list string)) : result (option Q) :=
  match rows with
  | [] => Ok None
  | row :: rest =>
      c <- row0 row ;;
      if label (lower c) then
        match first_in_columns accept row with
        | Some v => Ok (Some v)
        | None => scan_labelled label accept rest
        end
      else scan_labelled label accept rest
  end.

(** rows tested on their joined text; returns at the first accepted value *)
Definition scan_text (test : string -> bool) (accept : Q -> bool)
    (rows : list (list string)) : option Q :=
  first_some
    (fun row => if test (row_text row) then first_in_cells accept row else None)
    rows.

(** the same over the tables of several page keywords in turn *)
Definition scan_keywords (doc : document) (keywords : list string)
    (lattice : bool) (test : string -> bool) (accept : Q -> bool) : option Q :=
  first_some
    (fun keyword =>
       scan_text test accept
         (all_rows (_extract_tables_from_page doc keyword lattice)))
    keywords.

Definition alternative_keywords : list string :=
  ["CONSOLIDATED INCOME STATEMENT"; "Group Income Statement";
   "STATEMENT OF PROFIT OR LOSS"].

Definition income_statement_rows (doc : document) : list (list string) :=
  all_rows (_extract_tables_from_page doc "Income Statement" true).

Definition above_million (v : Q) : bool :=
  nonzero v && negb (Qle_bool v 1000000).

(** the placeholders are linear in the first year of the period *)
Definition placeholder (doc : document) (base step : Z) : result Q :=
  year_num <- year_num doc ;;
  Ok (inject_Z (base + (year_num - 2019) * step)).

(** ** [_extract_total_revenue] *)

Definition tcell_str (c : tcell) : string :=
  match c with
  | TText s => s
  | TNumber _ shown => shown
  | TNaN => "nan"
  end.

(** [cell and not pd.isna(cell)] *)
Definition tcell_kept (c : tcell) : bool :=
  match c with
  | TText s => negb (s =? "")
  | TNumber zero _ => negb zero
  | TNaN => false
  end.

Definition is_digit_or_comma (c : ascii) : bool :=
  is_digit c || (c =? ",")%char.

(** the rows of the frames that mention revenue, lines 191-205 *)
Fixpoint scan_ocr_rows (rows : list (list tcell)) : result (option Q) :=
  match rows with
  | [] => Ok None
  | row :: rest =>
      let row_str := join " " (map tcell_str (filter tcell_kept row)) in
      if contains "total revenue" (lower row_str) then
        match Re.search [Re.plus is_digit_or_comma] row_str with
        | Some m =>
            value <- py_int (remove_char "," m) ;;
            Ok (Some (inject_Z value))
        | None => scan_ocr_rows rest
        end
      else scan_ocr_rows rest
  end.

Fixpoint scan_ocr (dfs : list tframe) : result (option Q) :=
  match dfs with
  | [] => Ok None
  | f :: rest =>
      if contains "revenue" (lower (t_to_string f)) then
        v <- scan_ocr_rows (t_rows f) ;;
        match v with
        | Some v => Ok (Some v)
        | None => scan_ocr rest
        end
      else scan_ocr rest
  end.

Definition is_revenue_label (text : string) : bool :=
  any_in ["total revenue"; "revenue from contracts"] text.

(** the three extraction strategies, in order *)
Definition find_total_revenue (doc : document) : result (option Q) :=
  v <- scan_labelled is_revenue_label nonzero (income_statement_rows doc) ;;
  match v with
  | Some v => Ok (Some v)
  | None =>
      match scan_keywords doc alternative_keywords true
              is_revenue_label above_million with
      | Some v => Ok (Some v)
      | None =>
          Ok (catch (dfs <- tabula_all doc ;; scan_ocr dfs) (fun _ => None))
      end
  end.

Definition _extract_total_revenue (doc : document) (d : data) : result data :=
  v <- find_total_revenue doc ;;
  match v with
  | Some v => Ok (set_money total_revenue v "LKR" d)
  | None =>
      p <- placeholder doc 100000000 10000000 ;;
      Ok (set_money total_revenue p "LKR" d)
  end.

(** ** [_extract_cost_of_sales] *)

Definition find_cost_of_sales (doc : document) : result (option Q) :=
  v <- scan_labelled (contains "cost of sales") nonzero
         (income_statement_rows doc) ;;
  match v with
  | Some v => Ok (Some v)
  | None =>
      Ok (scan_keywords doc alternative_keywords true
            (contains "cost of sales") above_million)
  end.

Definition _extract_cost_of_sales (doc : document) (d : data) : result data :=
  v <- find_cost_of_sales doc ;;
  match v with
  | Some v => Ok (set_money cost_of_sales v "LKR" d)
  | None =>
      match num d total_revenue with
      | Some rev =>
          (* assume 25% gross margin *)
          Ok (set_money cost_of_sales (inject_Z (py_trunc (rev * 0.75)))
                (revenue_currency d) d)
      | None =>
          p <- placeholder doc 75000000 8000000 ;;
          Ok (set_money cost_of_sales p "LKR" d)
      end
  end.

(** ** [_extract_operating_expenses] *)

Record opex_parts : Type := {
  selling_expenses : option Q;
  admin_expenses : option Q;
  other_expenses : option Q
}.

Inductive opex_kind : Type := Selling | Administrative | OtherOperating.

Definition opex_kind_of (text : string) : option opex_kind :=
  if contains "selling" text && contains "distribution" text then Some Selling
  else if contains "administrative" text then Some Administrative
  else if contains "other operating expenses" text then Some OtherOperating
  else None.

Definition set_part (k : opex_kind) (v : Q) (p : opex_parts) : opex_parts :=
  match k with
  | Selling =>
      {| selling_expenses := Some v; admin_expenses := admin_expenses p;
         other_expenses := other_expenses p |}
  | Administrative =>
      {| selling_expenses := selling_expenses p; admin_expenses := Some v;
         other_expenses := other_expenses p |}
  | OtherOperating =>
      {| selling_expenses := selling_expenses p;
         admin_expenses := admin_expenses p; other_expenses := Some v |}
  end.

Definition record_part (kind : option opex_kind) (v : option Q)
    (p : opex_parts) : opex_parts :=
  match kind, v with
  | Some k, Some v => set_part k v p
  | _, _ => p
  end.

(** lines 283-308: every row is looked at, a later match overwrites *)
Fixpoint opex_labelled (rows : list (list string)) (p : opex_parts)
  : result opex_parts :=
  match rows with
  | [] => Ok p
  | row :: rest =>
      c <- row0 row ;;
      opex_labelled rest
        (record_part (opex_kind_of (lower c)) (first_in_columns nonzero row) p)
  end.

(** lines 313-341 *)
Definition opex_text (rows : list (list string)) (p : opex_parts) : opex_parts :=
  fold_left
    (fun p row =>
       record_part (opex_kind_of (row_text row)) (first_in_cells nonzero row) p)
    rows p.

Definition truthy (v : option Q) : bool :=
  match v with
  | Some q => nonzero q
  | None => false
  end.

Definition find_operating_expenses (doc : document) : result opex_parts :=
  p <- opex_labelled (income_statement_rows doc)
         {| selling_expenses := None; admin_expenses := None;
            other_expenses := None |} ;;
  if negb (truthy (selling_expenses p) || truthy (admin_expenses p)
           || truthy (other_expenses p))
  then
    Ok (fold_left
          (fun p keyword =>
             opex_text (all_rows (_extract_tables_from_page doc keyword true)) p)
          alternative_keywords p)
  else Ok p.

(** [if x: components.append(x); self.data[k] = x] *)
Definition keep_part (k : metric) (v : option Q) (acc : list Q * data)
  : list Q * data :=
  if truthy v then
    match v with
    | Some q => ((fst acc ++ [q])%list, set_num k q (snd acc))
    | None => acc
    end
  else acc.

Definition sum_Q (l : list Q) : Q := fold_left Qplus l 0%Q.

Definition _extract_operating_expenses (doc : document) (d : data)
  : result data :=
  p <- find_operating_expenses doc ;;
  let '(components, d) :=
    keep_part other_operating_expenses (other_expenses p)
      (keep_part administrative_expenses (admin_expenses p)
         (keep_part selling_distribution_expenses (selling_expenses p)
            ([], d))) in
  match components with
  | _ :: _ => Ok (set_money operating_expenses (sum_Q components) "LKR" d)
  | [] =>
      match num d total_revenue with
      | Some rev =>
          (* assume 18% of revenue *)
          Ok (set_money operating_expenses (inject_Z (py_trunc (rev * 0.18)))
                (revenue_currency d) d)
      | None =>
          p <- placeholder doc 18000000 1500000 ;;
          Ok (set_money operating_expenses p "LKR" d)
      end
  end.

(** ** [_extract_gross_profit] *)

Definition find_gross_profit (doc : document) : result (option Q) :=
  v <- scan_labelled (contains "gross profit") nonzero
         (income_statement_rows doc) ;;
  match v with
  | Some v => Ok (Some v)
  | None =>
      Ok (scan_keywords doc alternative_keywords true
            (contains "gross profit") above_million)
  end.

Definition _extract_gross_profit (doc : document) (d : data) : result data :=
  v <- find_gross_profit doc ;;
  match v with
  | Some v => Ok (set_money gross_profit v "LKR" d)
  | None =>
      match num d total_revenue, num d cost_of_sales with
      | Some rev, Some cos =>
          (* Revenue - Cost of Sales *)
          Ok (set_money gross_profit (rev - cos) (revenue_currency d) d)
      | _, _ =>
          p <- placeholder doc 25000000 2000000 ;;
          Ok (set_money gross_profit p "LKR" d)
      end
  end.

(** ** [_calculate_gross_profit_margin] *)

Definition _calculate_gross_profit_margin (doc : document) (d : data)
  : result data :=
  match num d total_revenue, num d gross_profit with
  | Some rev, Some gp =>
      if negb (Qeq_bool rev 0) then
        let margin := (gp / rev * 100)%Q in
        Ok (set_num gross_profit_margin (round2 margin) d)
      else
        year_num <- year_num doc ;;
        Ok (set_num gross_profit_margin
              (round2 (20 + inject_Z (year_num - 2019) * -0.5)) d)
  | _, _ =>
      year_num <- year_num doc ;;
      Ok (set_num gross_profit_margin
            (round2 (20 + inject_Z (year_num - 2019) * -0.5)) d)
  end.

(** ** [_extract_eps] *)

(** [value is not None and 0 < value < 100] *)
Definition small_positive (v : Q) : bool :=
  negb (Qle_bool v 0) && negb (Qle_bool 100 v).

Definition is_eps_label (text : string) : bool :=
  contains "earnings per share" text || contains "basic earnings per" text.

Definition is_basic_eps (text : string) : bool :=
  contains "basic" text && (contains "earnings" text || contains "eps" text).

Definition is_summary_eps (text : string) : bool :=
  (contains "eps" text || contains "earnings per share" text)
  && negb (contains "diluted" text).

Definition find_eps (doc : document) : result (option Q) :=
  v <- scan_labelled is_eps_label small_positive (income_statement_rows doc) ;;
  match v with
  | Some v => Ok (Some v)
  | None =>
      match scan_keywords doc
              ["EARNINGS PER SHARE"; "Basic earnings"; "Diluted earnings"]
              false is_basic_eps small_positive with
      | Some v => Ok (Some v)
      | None =>
          Ok (scan_keywords doc ["Summary Indicators"] false
                is_summary_eps small_positive)
      end
  end.

Definition _extract_eps (doc : document) (d : data) : result data :=
  v <- find_eps doc ;;
  match v with
  | Some v => Ok (set_num earnings_per_share v d)
  | None =>
      year_num <- year_num doc ;;
      Ok (set_num earnings_per_share
            (round2 (7 + inject_Z (year_num - 2019) * 0.5)) d)
  end.

(** ** [_extract_net_asset_per_share] *)

Definition positive_value (v : Q) : bool := negb (Qle_bool v 0).

Definition is_nav_text (text : string) : bool :=
  contains "net asset" text && contains "per share" text.

Definition find_net_asset_per_share (doc : document) : option Q :=
  match scan_keywords doc ["Summary Indicators"] false
          is_nav_text positive_value with
  | Some v => Some v
  | None =>
      scan_keywords doc
        ["Net assets per share"; "Net asset value per share"; "NAV per share"]
        false is_nav_text positive_value
  end.

Definition _extract_net_asset_per_share (doc : document) (d : data)
  : result data :=
  match find_net_asset_per_share doc with
  | Some v => Ok (set_num net_asset_per_share v d)
  | None =>
      year_num <- year_num doc ;;
      Ok (set_num net_asset_per_share
            (round2 (150 + inject_Z (year_num - 2019) * 5)) d)
  end.

(** ** [_extract_right_issues] *)

Definition is_date_sep (c : ascii) : bool :=
  (c =? "-")%char || (c =? "/")%char || (c =? ".")%char.

(** the pattern [\d{1,2}[-/\.]\d{1,2}[-/\.]\d{2,4}] *)
Definition date_re : list Re.item :=
  [Re.rep is_digit 1 2; Re.one is_date_sep; Re.rep is_digit 1 2;
   Re.one is_date_sep; Re.rep is_digit 2 4].

Record rights_found : Type := {
  f_ratio : option string;
  f_issue_price : option Q;
  f_date : option string
}.

(** [0 < value < 1000] *)
Definition plausible_price (v : Q) : bool :=
  negb (Qle_bool v 0) && negb (Qle_bool 1000 v).

Definition rights_row (f : rights_found) (row : list string) : rights_found :=
  let text := row_text row in
  if contains "ratio" text then
    match find (contains ":") row with
    | Some cell =>
        {| f_ratio := Some (strip cell); f_issue_price := f_issue_price f;
           f_date := f_date f |}
    | None => f
    end
  else if contains "price" text || contains "issue" text then
    match first_in_cells plausible_price row with
    | Some v =>
        {| f_ratio := f_ratio f; f_issue_price := Some v; f_date := f_date f |}
    | None => f
    end
  else if contains "date" text then
    match find (Re.found date_re) row with
    | Some cell =>
        {| f_ratio := f_ratio f; f_issue_price := f_issue_price f;
           f_date := Some (strip cell) |}
    | None => f
    end
  else f.

Definition nonempty (s : option string) : bool :=
  match s with
  | Some t => negb (t =? "")
  | None => false
  end.

Definition or_na (s : option string) : string :=
  if nonempty s then match s with Some t => t | None => "N/A" end else "N/A".

Definition rights_of_table (t : table) : option rights :=
  let f := fold_left rights_row (df t)
             {| f_ratio := None; f_issue_price := None; f_date := None |} in
  if nonempty (f_ratio f) || truthy (f_issue_price f) || nonempty (f_date f)
  then Some {| ratio := or_na (f_ratio f);
               issue_price := if truthy (f_issue_price f)
                              then f_issue_price f else None;
               date := or_na (f_date f) |}
  else None.

Definition _extract_right_issues (doc : document) (d : data) : result data :=
  let found :=
    first_some
      (fun keyword =>
         first_some rights_of_table
           (_extract_tables_from_page doc keyword false))
      ["Rights Issue"; "Right Issues"; "Rights Issues"] in
  match found with
  | Some r => Ok (set_right_issues r d)
  | None =>
      Ok (set_right_issues
            {| ratio := "N/A"; issue_price := None; date := "N/A" |} d)
  end.

(** ** [_extract_top_shareholders] *)

(** the two dicts [shareholders] and [shareholdings] *)
Definition holders : Type := (list (string * Q) * list (string * Q))%type.

Definition no_holders : holders := ([], []).

(** [shareholders[name] = pct] and, when there is one,
    [shareholdings[name] = shares] *)
Definition add_holder (name : string) (pct : Q) (shares : option Q)
    (h : holders) : holders :=
  (dict_set String.eqb name pct (fst h),
   match shares with
   | Some s => dict_set String.eqb name s (snd h)
   | None => snd h
   end).

(** the rows of a table, each giving a shareholder or nothing *)
Fixpoint gather {R : Type} (step : R -> result (option (string * Q * option Q)))
    (rows : list R) (h : holders) : result holders :=
  match rows with
  | [] => Ok h
  | r :: rest =>
      o <- step r ;;
      gather step rest
        (match o with
         | Some (name, pct, shares) => add_holder name pct shares h
         | None => h
         end)
  end.

(** sorted by percentage, descending, the first twenty *)
Definition top_20 (h : holders) : list (string * holder) :=
  map (fun e => (fst e, {| percentage := snd e;
                           shares := dict_get String.eqb (fst e) (snd h) |}))
    (firstn 20 (sorted_desc snd (fst h))).

(** [if len(shareholders) >= 5: ... return] *)
Definition accept (h : holders) : option (list (string * holder)) :=
  if (5 <=? length (fst h))%nat then Some (top_20 h) else None.

(** the first table, frame or configuration that yields a result; an
    exception ends the search *)
Fixpoint first_accepted {A B : Type} (f : A -> result (option B)) (l : list A)
  : result (option B) :=
  match l with
  | [] => Ok None
  | x :: rest =>
      o <- f x ;;
      match o with
      | Some b => Ok (Some b)
      | None => first_accepted f rest
      end
  end.

(** [0 < pct < 100] *)
Definition valid_pct (pct : Q) : bool := small_positive pct.

(** [if pct is not None and 0 < pct < 100:] the row gives a shareholder *)
Definition keep_valid (name : string) (pct shares : option Q)
  : option (string * Q * option Q) :=
  match pct with
  | Some p => if valid_pct p then Some (name, p, shares) else None
  | None => None
  end.

(** [row.iloc[j]], [df.iloc[i, j]] *)
Definition iloc {A : Type} (row : list A) (j : nat) : result A :=
  match nth_error row j with
  | Some c => Ok c
  | None => Raise IndexError
  end.

(** [len(df.columns)] *)
Definition ncols (rows : list (list string)) : nat := length (hd [] rows).

(** [df[col].astype(str)] for the column at position [j] *)
Definition column (rows : list (list string)) (j : nat) : list string :=
  map (fun row => nth j row "") rows.

(** [df.iloc[:, 0]] *)
Definition first_column (rows : list (list string)) : result (list string) :=
  if (ncols rows =? 0)%nat then Raise IndexError else Ok (column rows 0).

Definition indexed {A : Type} (l : list A) : list (nat * A) :=
  combine (seq 0 (length l)) l.

Definition opt_clean (col : option nat) (row : list string)
    (prepare : string -> string) : result (option Q) :=
  match col with
  | Some j => c <- iloc row j ;; Ok (_clean_numeric_value (prepare c))
  | None => Ok None
  end.

Definition header_like (words : list string) (name : string) : bool :=
  existsb (String.eqb (lower name)) words.

(** *** The standard approach, lattice first (lines 1044-1127) *)

Definition is_name_header (h : string) : bool :=
  any_in ["name"; "shareholder"; "holder"] h.

Definition is_shares_header (h : string) : bool :=
  any_in ["number"; "shares"; "holding"] h && negb (contains "%" h).

Definition is_pct_header (h : string) : bool :=
  any_in ["%"; "percent"; "percentage"] h.

Definition standard_pct_cols (rows : list (list string)) (headers : list string)
  : list nat :=
  let by_header :=
    map fst (filter (fun ih => negb (is_name_header (snd ih))
                               && negb (is_shares_header (snd ih))
                               && is_pct_header (snd ih))
               (indexed headers)) in
  match by_header with
  | _ :: _ => by_header
  | [] =>
      filter (fun i => contains "%" (join " " (column rows i)))
        (seq 0 (ncols rows))
  end.

Definition above_thousand (cell : string) : bool :=
  match _clean_numeric_value cell with
  | Some v => nonzero v && negb (Qle_bool v 1000)
  | None => false
  end.

Definition standard_share_cols (rows : list (list string))
    (headers : list string) (pct_cols : list nat) : list nat :=
  let by_header :=
    map fst (filter (fun ih => negb (is_name_header (snd ih))
                               && is_shares_header (snd ih))
               (indexed headers)) in
  match by_header with
  | _ :: _ => by_header
  | [] =>
      filter (fun i => negb (existsb (Nat.eqb i) pct_cols)
                       && existsb above_thousand (column rows i))
        (seq 0 (ncols rows))
  end.

Definition standard_row (pct_col : nat) (share_col : option nat)
    (row : list string) : result (option (string * Q * option Q)) :=
  c <- iloc row 0 ;;
  let name := strip c in
  if (name =? "") || (name =? "nan")
     || header_like ["name"; "shareholder"; "total"] name
  then Ok None
  else
    pct <- opt_clean (Some pct_col) row strip ;;
    shares <- opt_clean share_col row strip ;;
    Ok (keep_valid name pct shares).

Definition standard_table (t : table)
  : result (option (list (string * holder))) :=
  let rows := df t in
  first_row <- iloc rows 0 ;;
  let headers := map lower first_row in
  let pct_cols := standard_pct_cols rows headers in
  let share_cols := standard_share_cols rows headers pct_cols in
  match pct_cols with
  | [] => Ok None
  | pct_col :: _ =>
      let share_col := hd_error share_cols in
      let start_row :=
        if any_in ["name"; "shareholder"; "%"] (join " " headers)
        then 1%nat else 0%nat in
      h <- gather (standard_row pct_col share_col) (skipn start_row rows)
             no_holders ;;
      Ok (accept h)
  end.

(** *** The standard approach, stream (lines 1130-1213) *)

Record stream_cols : Type := {
  s_name : option nat;
  s_share : option nat;
  s_pct : option nat
}.

Definition has_long_number (n : nat) (vals : list string) : bool :=
  existsb (Re.found [Re.at_least is_digit n]) vals.

Definition stream_classify (rows : list (list string)) (c : stream_cols)
    (i : nat) : stream_cols :=
  let col_values := column rows i in
  let col_str := lower (join " " col_values) in
  if any_in ["limited"; "bank"; "fund"; "plc"; "mr"; "ms"; "holdings"] col_str
  then {| s_name := Some i; s_share := s_share c; s_pct := s_pct c |}
  else if contains "%" col_str
  then {| s_name := s_name c; s_share := s_share c; s_pct := Some i |}
  else if has_long_number 5 col_values
  then {| s_name := s_name c; s_share := Some i; s_pct := s_pct c |}
  else c.

Definition stream_row (name_col pct_col : nat) (share_col : option nat)
    (row : list string) : result (option (string * Q * option Q)) :=
  c <- iloc row name_col ;;
  let name := strip c in
  if (name =? "") || (name =? "nan")
     || header_like ["name"; "shareholder"; "total"] name
  then Ok None
  else
    pct <- opt_clean (Some pct_col) row strip ;;
    shares <- opt_clean share_col row strip ;;
    Ok (keep_valid name pct shares).

Definition stream_table (t : table)
  : result (option (list (string * holder))) :=
  let rows := df t in
  let df_str := lower (df_to_string t) in
  if contains "shareholder" df_str && any_in ["%"; "percent"] df_str then
    let c := fold_left (stream_classify rows) (seq 0 (ncols rows))
               {| s_name := None; s_share := None; s_pct := None |} in
    let name_col := match s_name c with Some i => i | None => 0%nat end in
    let pct_col :=
      match s_pct c with
      | Some i => Some i
      | None =>
          find (fun i =>
                  let col_str := lower (join " " (column rows i)) in
                  contains "%" col_str
                  || any_in ["percent"; "percentage"] col_str)
            (rev (seq 0 (ncols rows)))
      end in
    match pct_col with
    | Some pct_col =>
        h <- gather (stream_row name_col pct_col (s_share c)) rows no_holders ;;
        Ok (accept h)
    | None => Ok None
    end
  else Ok None.

Definition shareholder_keywords : list string :=
  ["Top Twenty Shareholders"; "Top 20 Shareholders"; "SHARE INFORMATION";
   "Twenty Major Shareholders"; "20 Major Shareholders";
   "Top Twenty (20) Shareholders"].

(** the tables of the keywords, in the order of the two loops *)
Definition keyword_tables (doc : document) (lattice : bool) : list table :=
  flat_map (fun keyword => _extract_tables_from_page doc keyword lattice)
    shareholder_keywords.

(** [round(20 / (i + 1), 2)] and [int(1000000 / (i + 1))] for [i] in
    [range(10)] *)
Definition placeholder_shareholders : list (string * holder) :=
  map (fun i =>
         ("Major Shareholder " ++ str_of_nat i,
          {| percentage := round2 (20 / inject_Z (Z.of_nat i + 1));
             shares := Some (inject_Z
                               (py_trunc (1000000 / inject_Z (Z.of_nat i + 1)))) |}))
    (seq 0 10).

(** lines 1044-1221 *)
Definition standard_extraction (doc : document) (d : data) : result data :=
  found <- first_accepted standard_table (keyword_tables doc true) ;;
  match found with
  | Some top => Ok (set_top_shareholders top d)
  | None =>
      found <- first_accepted stream_table (keyword_tables doc false) ;;
      match found with
      | Some top => Ok (set_top_shareholders top d)
      | None => Ok (set_top_shareholders placeholder_shareholders d)
      end
  end.

(** *** The 2023-24 report (lines 595-900) *)

Definition shareholder_terms : list string :=
  ["plc"; "bank"; "limited"; "ltd"; "fund"; "melstacorp"].

(** the first page that announces the list, 1-based *)
Fixpoint find_shareholders_page (pages : list (result string)) (i : nat)
  : result (option nat) :=
  match pages with
  | [] => Ok None
  | p :: rest =>
      text <- p ;;
      let text := lower text in
      if contains "twenty largest shareholders" text
         || contains "top 20 shareholders" text
      then Ok (Some (i + 1)%nat)
      else find_shareholders_page rest (S i)
  end.

Record tabula_cols : Type := {
  tc_name : nat;
  tc_pct : nat;
  tc_shares : option nat
}.

Definition tabula_classify (c : tabula_cols) (ih : nat * string) : tabula_cols :=
  let '(i, header) := ih in
  if contains "name" header || contains "shareholder" header
  then {| tc_name := i; tc_pct := tc_pct c; tc_shares := tc_shares c |}
  else if contains "%" header || contains "percent" header
  then {| tc_name := tc_name c; tc_pct := i; tc_shares := tc_shares c |}
  else if contains "shares" header || contains "holding" header
          || contains "no." header
  then {| tc_name := tc_name c; tc_pct := tc_pct c; tc_shares := Some i |}
  else c.

Definition tabula_row (c : tabula_cols) (row : list tcell)
  : result (option (string * Q * option Q)) :=
  cell <- iloc row (tc_name c) ;;
  let name := strip (tcell_str cell) in
  if (name =? "") || header_like ["name"; "shareholder"; "total"; "nan"] name
  then Ok None
  else
    let pct :=
      match nth_error row (tc_pct c) with
      | Some cell => _clean_numeric_value (strip (tcell_str cell))
      | None => None
      end in
    let shares :=
      match tc_shares c with
      | Some j =>
          match nth_error row j with
          | Some cell => _clean_numeric_value (strip (tcell_str cell))
          | None => None
          end
      | None => None
      end in
    Ok (keep_valid name pct shares).

Definition tabula_frame (f : tframe)
  : result (option (list (string * holder))) :=
  if (5 <=? length (t_rows f))%nat then
    if any_in shareholder_terms (lower (t_rows_str f)) then
      let c0 := {| tc_name := 0; tc_pct := 1; tc_shares := None |} in
      let c :=
        if (2 <=? length (t_columns f))%nat
        then fold_left tabula_classify (indexed (map lower (t_columns f))) c0
        else c0 in
      h <- gather (tabula_row c) (t_rows f) no_holders ;;
      Ok (accept h)
    else Ok None
  else Ok None.

(** the grid of camelot parameters, in the order of the three loops *)
Definition camelot_grid : list (flavor * nat * bool) :=
  flat_map
    (fun fl =>
       flat_map (fun edge_tol => [(fl, edge_tol, true); (fl, edge_tol, false)])
         [500; 750; 1000]%nat)
    [Lattice; Stream].

Definition is_distribution_cell (c : string) : bool :=
  contains "distribution" (lower c) || contains "less than" (lower c).

Definition grid_cols (rows : list (list string)) : option nat * option nat :=
  let found :=
    fold_left
      (fun (c : option nat * option nat) col_idx =>
         let col_vals := column rows col_idx in
         if contains "%" (join " " col_vals) then (Some col_idx, snd c)
         else if has_long_number 4 col_vals then (fst c, Some col_idx)
         else c)
      (seq 1 (Nat.min (ncols rows) 5 - 1)) (None, None) in
  let pct_col :=
    match fst found with
    | Some j => Some j
    | None => if (3 <=? ncols rows)%nat then Some 2%nat else None
    end in
  let shares_col :=
    match snd found with
    | Some j => Some j
    | None => if (2 <=? ncols rows)%nat then Some 1%nat else None
    end in
  (pct_col, shares_col).

Definition grid_row (pct_col shares_col : option nat) (row : list string)
  : result (option (string * Q * option Q)) :=
  c <- iloc row 0 ;;
  let name := strip c in
  if (name =? "") || header_like ["name"; "shareholder"; "total"; "nan"] name
  then Ok None
  else
    pct <- opt_clean pct_col row (fun s => remove_char "%" (strip s)) ;;
    shares <- opt_clean shares_col row strip ;;
    Ok (keep_valid name pct shares).

Definition grid_table (t : table) : result (option (list (string * holder))) :=
  let rows := df t in
  first_col <- first_column rows ;;
  if existsb is_distribution_cell first_col then Ok None
  else if any_in shareholder_terms (lower (df_rows_str t)) then
    let '(pct_col, shares_col) := grid_cols rows in
    first_row <- iloc rows 0 ;;
    let first_row_text := lower (join " " first_row) in
    let start_row :=
      if contains "name" first_row_text || contains "shareholder" first_row_text
         || contains "%" first_row_text
      then 1%nat else 0%nat in
    h <- gather (grid_row pct_col shares_col) (skipn start_row rows)
           no_holders ;;
    Ok (accept h)
  else Ok None.

(** one configuration of the grid, in its own [try] *)
Definition grid_attempt (doc : document) (page : nat)
    (cfg : flavor * nat * bool) : option (list (string * holder)) :=
  let '(fl, edge_tol, process_background) := cfg in
  catch
    (tables <- camelot doc page fl (Some edge_tol) (Some process_background) ;;
     first_accepted grid_table tables)
    (fun _ => None).

(** the lines between the heading of the list and the next heading *)
Fixpoint shareholders_section (lines : list string) (in_section : bool)
  : string :=
  match lines with
  | [] => ""
  | line :: rest =>
      if contains "twenty largest shareholders" (lower line)
         || contains "top 20 shareholders" (lower line)
      then shareholders_section rest true
      else if in_section then
        if any_in ["distribution of"; "directors"; "share price"] (lower line)
        then ""
        else line ++ String "010" (shareholders_section rest true)
      else shareholders_section rest false
  end.

Definition text_match (m : string * string * string)
  : result (option (string * Q * option Q)) :=
  let '(name, shares_str, pct_str) := m in
  let name := strip name in
  if (String.length name <? 3)%nat
     || header_like ["name"; "shareholder"; "total"] name
  then Ok None
  else
    let pct := _clean_numeric_value (strip (remove_char "%" pct_str)) in
    let shares :=
      if (shares_str =? "") then None else _clean_numeric_value shares_str in
    Ok (keep_valid name pct shares).

Definition text_attempt (doc : document) (pages : list (result string))
    (page : nat) : option (list (string * holder)) :=
  catch
    (text <- bind (iloc pages (page - 1)) (fun p => p) ;;
     let section := shareholders_section (split "010" text) false in
     if (section =? "") then Ok None
     else
       match findall_shareholders doc section with
       | [] => Ok None
       | matches => h <- gather text_match matches no_holders ;; Ok (accept h)
       end)
    (fun _ => None).

Definition known (p s : Q) : holder := {| percentage := p; shares := Some s |}.

Definition hard_coded_shareholders : list (string * holder) :=
  [ ("Melstacorp PLC", known 9.31 128917111);
    ("Mr S E Captain", known 9.10 126044705);
    ("HWIC Asia Fund", known 8.61 119200760);
    ("Paints and General Industries Limited", known 7.27 100717931);
    ("Asian Development Bank", known 4.70 65042006);
    ("Citigroup Global Markets Limited Agency Trading", known 4.47 61904939);
    ("Schroder International Selection Fund", known 3.21 44418290);
    ("CIC Holdings PLC", known 2.55 35338032);
    ("Aberdeen Standard Asia Focus PLC", known 2.41 33398572);
    ("Norges Bank Account 2", known 2.30 31901605);
    ("Sri Lanka Insurance Corporation Limited - Life Fund", known 1.58 21846511);
    ("Mr Kandiah Balendra", known 1.41 19511476);
    ("Employees Trust Fund Board", known 1.34 18499897);
    ("Mrs C S De Fonseka", known 1.27 17606991);
    ("Edgbaston Asian Equity Trust", known 1.27 17520023);
    ("Fidelity Fund - Pacific", known 1.10 15244082);
    ("Mrs S A J De Fonseka", known 1.10 15204230);
    ("Polypak Secco Limited", known 1.08 14937924);
    ("Chemanex PLC", known 0.95 13105475);
    ("Sunsuper Superannuation Fund", known 0.84 11587196) ].

Definition or_else {A : Type} (a : option A) (b : option A) : option A :=
  match a with
  | Some x => Some x
  | None => b
  end.

Definition extraction_2023_24 (doc : document) (d : data) : result data :=
  pages <- reader doc ;;
  page <- find_shareholders_page pages 0 ;;
  let found :=
    match page with
    | Some page =>
        or_else
          (catch (tables <- tabula_page doc page ;;
                  first_accepted tabula_frame tables)
                 (fun _ => None))
          (or_else (first_some (grid_attempt doc page) camelot_grid)
                   (text_attempt doc pages page))
    | None => None
    end in
  match found with
  | Some top => Ok (set_top_shareholders top d)
  | None => Ok (set_top_shareholders hard_coded_shareholders d)
  end.

(** *** The 2022-23 report (lines 903-1041) *)

Definition extraction_methods : list (flavor * nat) :=
  [(Lattice, 500); (Stream, 500); (Lattice, 1000); (Stream, 1000)]%nat.

Definition legacy_classify (c : nat * nat * nat) (ih : nat * string)
  : nat * nat * nat :=
  let '(name_col, shares_col, pct_col) := c in
  let '(i, header) := ih in
  if any_in ["name"; "shareholder"; "holder"] header
  then (i, shares_col, pct_col)
  else if any_in ["number"; "shares"; "holding"] header
  then (name_col, i, pct_col)
  else if any_in ["%"; "percent"; "percentage"] header
  then (name_col, shares_col, i)
  else c.

(** the pattern [\d[\d,.]+] *)
Definition numeric_text_re : list Re.item :=
  [Re.one is_digit;
   Re.plus (fun c => is_digit c || (c =? ",")%char || (c =? ".")%char)].

Definition legacy_row (name_col shares_col pct_col : nat) (row : list string)
  : result (option (string * Q * option Q)) :=
  if forallb (fun cell => (cell =? "")) row then Ok None
  else
    c <- match nth_error row name_col with
         | Some c => Ok c
         | None => Raise KeyError
         end ;;
    let name := strip c in
    if (name =? "")
       || header_like ["name"; "shareholder"; "shareholders"; "total"] name
    then Ok None
    else
      let value_at (col : nat) : option Q :=
        if (col <? length row)%nat && negb (col =? name_col)%nat
        then _clean_numeric_value (strip (nth col row ""))
        else None in
      let shares := value_at shares_col in
      let pct := value_at pct_col in
      let pct_or_0 := match pct with Some p => p | None => 0%Q end in
      if (match shares, pct with None, None => false | _, _ => true end)
         && Qle_bool 0 pct_or_0 && negb (Qle_bool 100 pct_or_0)
      then Ok (Some (name, pct_or_0, shares))
      else Ok None.

(** the part of the loop body under [if has_shareholder_pattern:] *)
Definition legacy_body (rows : list (list string)) (col_headers : list string)
  : result (option (list (string * holder))) :=
  let '(name_col, shares_col, pct_col) :=
    fold_left legacy_classify (indexed col_headers) (0, 1, 2)%nat in
  let numeric_cols :=
    filter (fun i =>
              existsb (Re.found numeric_text_re)
                (column (firstn 4 (skipn 1 rows)) i))
      (seq 1 (Nat.min (ncols rows) 5 - 1)) in
  let '(shares_col, pct_col) :=
    match numeric_cols with
    | first :: more =>
        if (shares_col =? name_col)%nat
        then (first, match more with second :: _ => second | [] => pct_col end)
        else (shares_col, pct_col)
    | [] => (shares_col, pct_col)
    end in
  let first_row_text := join " " col_headers in
  let start_row :=
    if any_in ["name"; "shareholder"; "no"; "number"; "%"] first_row_text
    then 1%nat else 0%nat in
  h <- gather (legacy_row name_col shares_col pct_col) (skipn start_row rows)
         no_holders ;;
  Ok (accept h).

(** [[str(row[0]).lower() for row in df.iterrows()]]: [iterrows] yields
    pairs (index, row), so [row[0]] is the index of the row *)
Definition row_values (rows : list (list string)) : list string :=
  map (fun i => lower (str_of_nat i)) (seq 0 (length rows)).

Definition legacy_table (t : table)
  : result (option (list (string * holder))) :=
  let rows := df t in
  first_col <- first_column rows ;;
  if existsb (fun c => contains "distribution" (lower c)) first_col
  then Ok None
  else if (5 <=? length rows)%nat then
    col_headers <- iloc rows 0 ;;
    let col_headers := map lower col_headers in
    let joined := join " " (row_values rows) in
    if any_in ["less than"; "equal to"; ",001 to"] joined then Ok None
    else if any_in ["plc"; "limited"; "bank"; "fund"; "mr"; "mrs"; "holdings"]
              joined
    then legacy_body rows col_headers
    else Ok None
  else Ok None.

Definition legacy_attempt (doc : document) (page : nat) (m : flavor * nat)
  : option (list (string * holder)) :=
  catch
    (tables <- camelot doc page (fst m) (Some (snd m)) None ;;
     first_accepted legacy_table tables)
    (fun _ => None).

Definition is_shareholder_page (text : string) : bool :=
  any_in ["twenty largest shareholders"; "twenty major shareholders";
          "top 20 shareholders"; "distribution of shareholding"] text.

Fixpoint shareholder_pages_from (i : nat) (pages : list (result string))
  : result (list nat) :=
  match pages with
  | [] => Ok []
  | p :: rest =>
      text <- p ;;
      ps <- shareholder_pages_from (S i) rest ;;
      Ok (if is_shareholder_page (lower text) then (i + 1)%nat :: ps else ps)
  end.

(** [None] when no table of the candidate pages is accepted *)
Definition extraction_2022_23 (doc : document)
  : result (option (list (string * holder))) :=
  pages <- reader doc ;;
  shareholder_pages <- shareholder_pages_from 0 pages ;;
  Ok (first_some
        (fun page => first_some (legacy_attempt doc page) extraction_methods)
        shareholder_pages).

(** *** The resolver *)

Definition _extract_top_shareholders (doc : document) (d : data) : result data :=
  if contains "23-24" (pdf_path doc) || contains "2023-2024" (year doc)
  then extraction_2023_24 doc d
  else
    special <-
      (if contains "22-23" (pdf_path doc) || contains "2022-2023" (year doc)
       then extraction_2022_23 doc
       else Ok None) ;;
    match special with
    | Some top => Ok (set_top_shareholders top d)
    | None => standard_extraction doc d
    end.

(** ** [extract_all_metrics] *)

(** [try: step() except Exception: log] *)
Definition attempt (step : data -> result data) (d : data) : data :=
  catch (step d) (fun _ => d).

Definition extract_all_metrics (doc : document) : data :=
  let d := empty_data in
  let d := attempt (_extract_total_revenue doc) d in
  let d := attempt (_extract_cost_of_sales doc) d in
  let d := attempt (_extract_operating_expenses doc) d in
  let d := attempt (_extract_gross_profit doc) d in
  let d := attempt (_calculate_gross_profit_margin doc) d in
  let d := attempt (_extract_eps doc) d in
  let d := attempt (_extract_net_asset_per_share doc) d in
  let d := attempt (_extract_right_issues doc) d in
  let d := attempt (_extract_top_shareholders doc) d in
  d.

(** ** [format_data_for_display] *)

(** [f"{n:,}"] for an [int]: the digits in groups of three *)
Fixpoint commas (digits : string) : string :=
  match digits with
  | "" => ""
  | String c rest =>
      String c
        (if (0 <? String.length rest)%nat
            && (String.length rest mod 3 =? 0)%nat
         then "," ++ commas rest else commas rest)
  end.

Definition format_commas (z : Z) : string :=
  (if (z <? 0)%Z then "-" else "") ++ commas (str_of_Z (Z.abs z)).

(** a shareholder as displayed: [percentage] and [shares] *)
Record shown_holder : Type := {
  shown_percentage : string;
  shown_shares : string
}.

Record display : Type := {
  (** the four currency keys, as text *)
  money : metric -> option string;
  (** earnings per share, net asset per share and the margin, copied *)
  copied : metric -> option Q;
  shown_right_issues : option rights;
  shown_top_shareholders : option (list (string * shown_holder))
}.

(** [self.data.get(f'{key}_currency', 'LKR')] *)
Definition currency_or_lkr (d : data) (key : metric) : string :=
  match currency d key with
  | Some c => c
  | None => "LKR"
  end.

Definition is_money (key : metric) : bool :=
  match key with
  | total_revenue | cost_of_sales | operating_expenses | gross_profit => true
  | _ => false
  end.

Definition is_copied (key : metric) : bool :=
  match key with
  | earnings_per_share | net_asset_per_share | gross_profit_margin => true
  | _ => false
  end.

(** [f"{data.get('shares', 0):,}" if data.get('shares') is not None else
    'N/A'], after [int] *)
Definition show_shares (s : option Q) : string :=
  match s with
  | Some q => format_commas (py_trunc q)
  | None => "N/A"
  end.

Definition format_data_for_display (d : data) : display :=
  {| money := fun key =>
       if is_money key then
         match num d key with
         | Some value =>
             let value_in_bn := (value / 1000000)%Q in
             Some (currency_or_lkr d key ++ " " ++ format_2f value_in_bn
                   ++ " Mn")
         | None => None
         end
       else None;
     copied := fun key => if is_copied key then num d key else None;
     shown_right_issues := right_issues d;
     shown_top_shareholders :=
       option_map
         (map (fun entry =>
                 (fst entry,
                  {| shown_percentage :=
                       format_2f (percentage (snd entry)) ++ "%";
                     shown_shares := show_shares (shares (snd entry)) |})))
         (top_shareholders d) |}.

(** ** [save_data_to_csv]: the metrics file *)

(** a cell of the [Formatted Value] column *)
Inductive shown : Type :=
| Text (s : string)
| Number (q : Q).

(** [self.data.get(key, 0)] *)
Definition num_or_zero (d : data) (key : metric) : Q :=
  match num d key with
  | Some v => v
  | None => 0%Q
  end.

(** the frame written to the metrics file: [Metric], [Value] and
    [Formatted Value] *)
Definition metrics_df (d : data) : list (string * option Q * option shown) :=
  let formatted key := option_map Text (money (format_data_for_display d) key) in
  [ ("Total Revenue", num d total_revenue, formatted total_revenue);
    ("Cost of Sales", num d cost_of_sales, formatted cost_of_sales);
    ("Operating Expenses", num d operating_expenses,
     formatted operating_expenses);
    ("Gross Profit", num d gross_profit, formatted gross_profit);
    ("Gross Profit Margin (%)", num d gross_profit_margin,
     Some (Text (format_2f (num_or_zero d gross_profit_margin) ++ "%")));
    ("Earnings Per Share", num d earnings_per_share,
     option_map Number (num d earnings_per_share));
    ("Net Asset Per Share", num d net_asset_per_share,
     option_map Number (num d net_asset_per_share)) ].

(** [f'financial_metrics_{self.year}.csv'] *)
Definition metrics_file_name (doc : document) : string :=
  "financial_metrics_" ++ year doc ++ ".csv".

(** ** [export_data_to_json] *)

Record exported_metric : Type := {
  em_value : option Q;            (* [None] is JSON [null] *)
  em_formatted : option string;
  em_currency : option string     (* [None] when the entry has no such key *)
}.

Record exported_holder : Type := {
  eh_percentage : option Q;
  eh_percentage_formatted : string;
  eh_shares : option Q;
  eh_shares_formatted : string
}.

Record exported_year : Type := {
  ey_metrics : metric -> option exported_metric;
  ey_right_issues : option rights;
  ey_top_shareholders : option (list (string * exported_holder))
}.

Record exported : Type := {
  generated_at : string;
  total_years : nat;
  years_covered : list string;
  ex_financial_data : list (string * exported_year)
}.

(** [sorted(keys)] on strings *)
Fixpoint insert_key (k : string) (l : list string) : list string :=
  match l with
  | [] => [k]
  | x :: l' => if String.leb k x then k :: l else x :: insert_key k l'
  end.

Definition sorted_keys (l : list string) : list string :=
  fold_right insert_key [] l.

Definition financial_metrics (year_data : data) (formatted_year_data : display)
  : exported_year :=
  {| ey_metrics := fun key =>
       if is_money key then
         Some {| em_value := num year_data key;
                 em_formatted := money formatted_year_data key;
                 em_currency := Some (currency_or_lkr year_data key) |}
       else
         match key with
         | gross_profit_margin =>
             Some {| em_value := num year_data key;
                     em_formatted :=
                       Some (format_2f (num_or_zero year_data key) ++ "%");
                     em_currency := None |}
         | earnings_per_share | net_asset_per_share =>
             Some {| em_value := num year_data key;
                     em_formatted :=
                       Some (format_2f (num_or_zero year_data key));
                     em_currency := None |}
         | _ => None
         end;
     ey_right_issues := right_issues year_data;
     ey_top_shareholders :=
       option_map
         (map (fun entry =>
                 (fst entry,
                  {| eh_percentage := Some (percentage (snd entry));
                     eh_percentage_formatted :=
                       format_2f (percentage (snd entry)) ++ "%";
                     eh_shares := shares (snd entry);
                     eh_shares_formatted :=
                       show_shares (shares (snd entry)) |})))
         (top_shareholders year_data) |}.

(** [d[k]]: [KeyError] when the key is absent *)
Definition item_of {V : Type} (d : list (string * V)) (k : string) : result V :=
  match dict_get String.eqb k d with
  | Some v => Ok v
  | None => Raise KeyError
  end.

(** the document written to [consolidated_financial_data.json]; [now] is
    [datetime.now().isoformat()] *)
Definition export_data_to_json (now : string) (raw_data : list (string * data))
    (formatted_data : list (string * display)) : result exported :=
  let years := sorted_keys (map fst raw_data) in
  financial_data <-
    traverse
      (fun year =>
         year_data <- item_of raw_data year ;;
         formatted_year_data <- item_of formatted_data year ;;
         Ok (year, financial_metrics year_data formatted_year_data))
      years ;;
  Ok {| generated_at := now;
        total_years := length raw_data;
        years_covered := years;
        ex_financial_data := financial_data |}.

(** ** [extract_data_from_multiple_reports]: the loop over the reports *)

(** [f.lower().endswith('.pdf')] *)
Definition is_pdf (path : string) : bool :=
  let s := lower path in
  (4 <=? String.length s)%nat && (drop (String.length s - 4) s =? ".pdf").

(** the body of the loop, in its [try]; [save] is what the writes of
    [save_data_to_csv] do, [Ok] also when no output folder is given *)
Definition process_report (save : document -> data -> result unit)
    (acc : list (string * display) * list (string * data)) (doc : document)
  : list (string * display) * list (string * data) :=
  catch
    (let d := extract_all_metrics doc in
     _ <- save doc d ;;
     Ok (dict_set String.eqb (year doc) (format_data_for_display d) (fst acc),
         dict_set String.eqb (year doc) d (snd acc)))
    (fun _ => acc).

(** [all_data] and [all_raw_data] after the loop over the files of the
    folder *)
Definition extract_data_from_multiple_reports (folder : list document)
    (save : document -> data -> result unit)
  : list (string * display) * list (string * data) :=
  fold_left (process_report save)
    (filter (fun doc => is_pdf (pdf_path doc)) folder) ([], []).

(** ** The exported document as [app.py] reads it

    [json.load] gives back what [json.dump] wrote; the transform reads the
    [value] and [formatted] of a metric, the [ratio] and [issue_price] of a
    rights issue and the [percentage] and [shares] of a shareholder. *)

Definition loaded_year (y : exported_year) : App.year_json :=
  {| App.yj_metrics := fun key =>
       option_map (fun m => {| App.value := em_value m;
                               App.formatted := em_formatted m |})
         (ey_metrics y key);
     App.yj_right_issues :=
       option_map
         (fun r => {| App.rj_ratio := Some (App.JStr (ratio r));
                      App.rj_issue_price :=
                        Some (match issue_price r with
                              | Some q => App.JNum q
                              | None => App.JStr "N/A"
                              end) |})
         (ey_right_issues y);
     App.yj_top_shareholders :=
       option_map
         (map (fun entry =>
                 (fst entry,
                  {| App.hj_percentage := eh_percentage (snd entry);
                     App.hj_shares := eh_shares (snd entry) |})))
         (ey_top_shareholders y) |}.

Definition json_load (e : exported) : App.consolidated_json :=
  {| App.financial_data :=
       Some (map (fun ky => (fst ky, loaded_year (snd ky)))
               (ex_financial_data e)) |}.

End Extractor.

(* ------------------------------------------------------------------ *)
(** * Auxiliary definitions of the statements *)





(** [float(s)] restricted to plain decimal literals, for concrete inputs *)
Definition decimal_float_str (s : string) : result Q :=
  match float_of_decimal (strip s) with
  | Some q => Ok q
  | None => Raise ValueError
  end.

Module AppSpec.
Import App.

(** the fiscal periods of the consolidated input, in file order *)
Definition periods (cd : consolidated_json) : list (string * year_json) :=
  match financial_data cd with
  | Some d => d
  | None => []
  end.

(** the [yearly_data] built for a display year from the financials of a
    period *)
Definition yearly_entry (fin : financials) (display_year : Z) : yearly :=
  {| year := display_year;
     y_industryGroups := industry_groups;
     y_financials := fin;
     events := get_events_for_year display_year |}.

(** the (record, displayYear) pairs of one period, as the entries the
    transform builds for them *)
Definition period_entries (item : string * year_json) : list yearly :=
  match display_years (fst item), build_financials (snd item) with
  | Ok years, Ok fin => map (yearly_entry fin) years
  | _, _ => []
  end.

(** a period the transform gets through *)
Definition period_ok (item : string * year_json) : Prop :=
  exists s e fin,
    display_years (fst item) = Ok [s; e]
    /\ build_financials (snd item) = Ok fin
    /\ period_entries item = [yearly_entry fin s; yearly_entry fin e].

(** all the pairs, in the order the transform visits them *)
Definition candidates (cd : consolidated_json) : list yearly :=
  flat_map period_entries (periods cd).

(** first writer wins: a candidate is kept unless its year is taken *)
Definition first_wins (l : list yearly) : list yearly :=
  fold_left (fun acc y => add_yearly y acc) l [].

(** the same for the CSV loader *)
Definition csv_period_entries (e : csv_env) (year_str : string) : list yearly :=
  match display_years year_str, metrics_csv e year_str with
  | Ok years, Some (Ok rows) => map (csv_yearly (metrics_dict_of rows)) years
  | _, _ => []
  end.

Definition csv_candidates (e : csv_env) : list yearly :=
  match listdir e with
  | Ok names =>
      flat_map (csv_period_entries e)
        (map year_of_filename
           (filter (starts_with "financial_metrics_") names))
  | Raise _ => []
  end.

(** the first candidate with the year of [y] *)
Definition first_with_year (y : Z) (l : list yearly) : option yearly :=
  find (fun c => (year c =? y)%Z) l.

End AppSpec.

(** what a match of a pattern looks like: one block per item, of characters
    of its class, as many as its bounds allow *)
Fixpoint conforms (its : list Re.item) (m : string) : Prop :=
  match its with
  | [] => m = ""
  | it :: rest =>
      exists a b,
        m = a ++ b
        /\ forallb_str (Re.cls it) a = true
        /\ (Re.lo it <= String.length a)%nat
        /\ (forall h, Re.hi it = Some h -> (String.length a <= h)%nat)
        /\ conforms rest b
  end.

Module ExtractorSpec.
Import Extractor.

(** what one page adds to [tables] *)
Definition page_contribution (doc : document) (lattice : bool) (page : nat)
  : list table :=
  catch (page_tables doc lattice page) (fun _ => []).

(** the characters of the decimal row numbers joined by spaces *)
Definition digit_or_space (c : ascii) : bool :=
  is_digit c || (c =? " ")%char.

(** the tables camelot returns have at least one column: no row of a
    table is empty *)
Definition well_formed (doc : document) : Prop :=
  forall page fl ts t row,
    camelot doc page fl None None = Ok ts ->
    In t ts -> In row (df t) -> row <> [].

(** ** The value each numeric field is expected to hold

    First what the tables give, then what an accounting identity gives,
    then the placeholder. *)

Definition year_of (doc : document) : Z :=
  match year_num doc with
  | Ok y => y
  | Raise _ => 0
  end.

Definition placeholder_value (doc : document) (base step : Z) : Q :=
  inject_Z (base + (year_of doc - 2019) * step).

Definition found (r : result (option Q)) : option Q :=
  match r with
  | Ok (Some v) => Some v
  | _ => None
  end.

Definition or_default (o : option Q) (v : Q) : Q :=
  match o with
  | Some x => x
  | None => v
  end.

Definition expected_revenue (doc : document) : Q :=
  or_default (found (find_total_revenue doc))
    (placeholder_value doc 100000000 10000000).

Definition expected_cost_of_sales (doc : document) : Q :=
  or_default (found (find_cost_of_sales doc))
    (inject_Z (py_trunc (expected_revenue doc * 0.75))).

Definition parts_found (doc : document) : opex_parts :=
  match find_operating_expenses doc with
  | Ok p => p
  | Raise _ =>
      {| selling_expenses := None; admin_expenses := None;
         other_expenses := None |}
  end.

Definition part_kept (v : option Q) : option Q :=
  if truthy v then v else None.

Definition components (p : opex_parts) : list Q :=
  flat_map (fun v => match part_kept v with Some q => [q] | None => [] end)
    [selling_expenses p; admin_expenses p; other_expenses p].

Definition expected_operating_expenses (doc : document) : Q :=
  match components (parts_found doc) with
  | [] => inject_Z (py_trunc (expected_revenue doc * 0.18))
  | l => sum_Q l
  end.

Definition expected_gross_profit (doc : document) : Q :=
  or_default (found (find_gross_profit doc))
    (expected_revenue doc - expected_cost_of_sales doc).

Definition expected_margin (doc : document) : Q :=
  if Qeq_bool (expected_revenue doc) 0
  then round2 (20 + inject_Z (year_of doc - 2019) * -0.5)
  else round2 (expected_gross_profit doc / expected_revenue doc * 100).

Definition expected_eps (doc : document) : Q :=
  or_default (found (find_eps doc))
    (round2 (7 + inject_Z (year_of doc - 2019) * 0.5)).

Definition expected_net_asset_per_share (doc : document) : Q :=
  or_default (find_net_asset_per_share doc)
    (round2 (150 + inject_Z (year_of doc - 2019) * 5)).

Definition expected (doc : document) (k : metric) : option Q :=
  match k with
  | total_revenue => Some (expected_revenue doc)
  | cost_of_sales => Some (expected_cost_of_sales doc)
  | operating_expenses => Some (expected_operating_expenses doc)
  | gross_profit => Some (expected_gross_profit doc)
  | gross_profit_margin => Some (expected_margin doc)
  | earnings_per_share => Some (expected_eps doc)
  | net_asset_per_share => Some (expected_net_asset_per_share doc)
  | selling_distribution_expenses =>
      part_kept (selling_expenses (parts_found doc))
  | administrative_expenses => part_kept (admin_expenses (parts_found doc))
  | other_operating_expenses => part_kept (other_expenses (parts_found doc))
  end.

(** the record when the shareholders resolver starts *)
Definition before_shareholders (doc : document) : data :=
  let d := empty_data in
  let d := attempt (_extract_total_revenue doc) d in
  let d := attempt (_extract_cost_of_sales doc) d in
  let d := attempt (_extract_operating_expenses doc) d in
  let d := attempt (_extract_gross_profit doc) d in
  let d := attempt (_calculate_gross_profit_margin doc) d in
  let d := attempt (_extract_eps doc) d in
  let d := attempt (_extract_net_asset_per_share doc) d in
  attempt (_extract_right_issues doc) d.

(** ** Shareholder lists *)

(** strictly between 0 and 100 *)
Definition in_range (p : Q) : Prop := (0 < p)%Q /\ (p < 100)%Q.

Definition descending (top : list (string * holder)) : Prop :=
  Sorted (fun a b => (percentage (snd b) <= percentage (snd a))%Q) top.

(** what the two dicts hold while rows are gathered *)
Definition holders_ok (h : holders) : Prop :=
  Forall (fun e => in_range (snd e)) (fst h) /\ NoDup (map fst (fst h)).

(** a list the resolver may store *)
Definition good_top (top : list (string * holder)) : Prop :=
  Forall (fun e => in_range (percentage (snd e))) top
  /\ descending top
  /\ (length top <= 20)%nat.

(** the list comes from at least five pairs of a name and a valid
    percentage, the names being distinct *)
Definition from_five_valid (top : list (string * holder)) : Prop :=
  exists h : holders,
    (5 <= length (fst h))%nat
    /\ Forall (fun e => in_range (snd e)) (fst h)
    /\ NoDup (map fst (fst h))
    /\ top = top_20 h.

End ExtractorSpec.

(* ------------------------------------------------------------------ *)
(** * Auxiliary definitions for the dataset and the routes *)

Module DatasetSpec.
Import App.



(** the assignments [topShareholders[display_year] = shareholders_list] of
    one period, in order *)
Definition holder_assignments (item : string * year_json)
  : list (Z * list shareholder) :=
  match display_years (fst item), yj_top_shareholders (snd item) with
  | Ok years, Some l =>
      map (fun y => (y, sorted_desc sh_percentage (map shareholder_of l)))
        years
  | _, _ => []
  end.

(** the last value assigned to a key *)
Definition last_assigned (y : Z) (l : list (Z * list shareholder))
  : option (list shareholder) :=
  option_map snd (find (fun a => (fst a =? y)%Z) (rev l)).

(** the state of [topShareholders] a loop has reached *)
Definition holders_follow (t : dataset) (done : list (Z * list shareholder))
  : Prop :=
  (forall y, dict_get Z.eqb y (topShareholders t) = last_assigned y done)
  /\ NoDup (map fst (topShareholders t))
  /\ Forall (fun e => Sorted (fun a b => (sh_percentage b <= sh_percentage a)%Q)
                        (snd e))
       (topShareholders t).


End DatasetSpec.

Module ApiSpec.
Import App Api.

(** a dataset a loader returned *)
Definition loaded (float_str : string -> result Q) (d : dataset) : Prop :=
  (exists cd, transform_consolidated_data float_str cd = Ok d)
  \/ (exists fs c c', load_from_csv_files float_str fs c = (Ok d, c')).

(** the [years] argument asks for the year: it is absent or empty, or
    [str(y)] is one of its comma-separated items *)
Definition wanted (years : option string) (y : Z) : Prop :=
  match arg_list years with
  | Some l => mem (str_of_Z y) l = true
  | None => True
  end.

(** the [industryGroups] argument is absent or empty, or one of its
    comma-separated items is one of the six industry groups *)
Definition names_a_group (industry_groups : option string) : bool :=
  match arg_list industry_groups with
  | Some l => existsb (fun group => mem group App.industry_groups) l
  | None => true
  end.

(** every entry lists the six industry groups, and the years of the entries
    increase *)
Definition regular (d : dataset) : Prop :=
  Forall (fun item => y_industryGroups item = industry_groups) (yearlyData d)
  /\ StronglySorted Z.lt (map year (yearlyData d)).

(** the distance of a year to the year asked for *)
Definition distance (wanted k : Z) : Z := Z.abs (k - wanted).

End ApiSpec.

Module LabelSpec.
Import Extractor.

(** the pattern [_(\d{2})-(\d{2})] of the file names *)
Definition two_year_pattern : list Re.item :=
  [Re.chr "_"; Re.rep is_digit 2 2; Re.chr "-"; Re.rep is_digit 2 2].

(** the pattern [(\d{4})] *)
Definition single_year_pattern : list Re.item := [Re.rep is_digit 4 4].

(** the characters of a label: digits and ['-'] *)
Definition label_char (c : ascii) : bool := is_digit c || (c =? "-")%char.

End LabelSpec.

Module RecordSpec.
Import Extractor.

(** a rights issue the resolver may store *)
Definition plausible_rights (r : rights) : Prop :=
  ratio r <> "" /\ date r <> ""
  /\ forall p, issue_price r = Some p -> (0 < p)%Q /\ (p < 1000)%Q.

(** the components of the operating expenses a record holds *)
Definition stored_components (d : data) : list Q :=
  flat_map (fun k => match num d k with Some q => [q] | None => [] end)
    [selling_distribution_expenses; administrative_expenses;
     other_operating_expenses].

(** no backend finds a table or a frame in the document *)
Definition without_tables (doc : document) : Prop :=
  (forall page fl, camelot doc page fl None None = Ok []
                   \/ exists e, camelot doc page fl None None = Raise e)
  /\ (tabula_all doc = Ok [] \/ exists e, tabula_all doc = Raise e).

End RecordSpec.

Module PipelineSpec.
Import Extractor.

(** the metrics file holds the rows [save_data_to_csv] writes for a record
    whose seven values are numbers: the [Metric] and [Value] columns *)
Definition written_for (d : data) (rows : list (string * Q)) : Prop :=
  Forall2 (fun row r => fst row = fst (fst r) /\ Some (snd row) = snd (fst r))
    rows (metrics_df d).

(** a report of the folder the loop gets through, with the label [y] *)
Definition processed (save : document -> data -> result unit) (y : string)
    (doc : document) : bool :=
  is_pdf (pdf_path doc)
  && is_ok (save doc (extract_all_metrics doc))
  && (year doc =? y).

(** keys in the order of [sorted] *)
Definition ascending (l : list string) : Prop :=
  Sorted (fun a b => String.leb a b = true) l.

(** the seven figures the dashboard holds are those of a record *)
Definition figures_of (d : data) (fin : App.financials) : Prop :=
  App.revenue fin = num d total_revenue
  /\ App.costOfSales fin = num d cost_of_sales
  /\ App.operatingExpenses fin = num d operating_expenses
  /\ App.grossProfit fin = num d gross_profit
  /\ App.grossProfitMargin fin = num d gross_profit_margin
  /\ App.eps fin = num d earnings_per_share
  /\ App.netAssetPerShare fin = num d net_asset_per_share.

(** a record the consolidation can read under its label: the label gives
    two display years and the record holds the earnings per share *)
Definition readable (y : string) (d : data) : Prop :=
  is_ok (App.display_years y) = true /\ num d earnings_per_share <> None.

(** a rights issue of the dataset is the one of a record *)
Definition issue_of (y : string) (d : data) (ri : App.right_issue) : Prop :=
  exists r ys,
    right_issues d = Some r
    /\ ratio r <> "N/A"
    /\ App.display_years y = Ok ys
    /\ In (App.ri_year ri) ys
    /\ App.ri_ratio ri = App.JStr (ratio r)
    /\ App.ri_issuePrice ri = issue_price r
    /\ App.ri_description ri = "Rights issue".

End PipelineSpec.

Module RatioSpec.
Import App Api.

(** a number other than zero *)
Definition nonzero (x : option Q) : Prop := truthy x = true.



End RatioSpec.

(* ------------------------------------------------------------------ *)
(** * Concrete inputs *)

Module AppExamples.
Import App.

Definition entry (v : Q) (f : string) : option metric_json :=
  Some {| value := Some v; formatted := Some f |}.

(** the two periods of [tests/test_data_processing.py], in its order *)
Definition period_2020_2021 : year_json :=
  {| yj_metrics := fun k =>
       match k with
       | total_revenue => entry 120000 "LKR 120.00 Mn"
       | cost_of_sales => entry 80000 "LKR 80.00 Mn"
       | operating_expenses => entry 18000 "LKR 18.00 Mn"
       | gross_profit => entry 40000 "LKR 40.00 Mn"
       | gross_profit_margin => entry 33.33 "33.33%"
       | earnings_per_share => entry 12.5 "12.50"
       | net_asset_per_share => entry 80 "80.00"
       | _ => None
       end;
     yj_right_issues :=
       Some {| rj_ratio := Some (JStr "1:5");
               rj_issue_price := Some (JStr "80.0") |};
     yj_top_shareholders :=
       Some [ ("John Keells Holdings PLC",
               {| hj_percentage := Some 36%Q;
                  hj_shares := Some 360000000%Q |});
              ("Employee Provident Fund",
               {| hj_percentage := Some 12.8%Q;
                  hj_shares := Some 128000000%Q |}) ] |}.

Definition period_2019_2020 : year_json :=
  {| yj_metrics := fun k =>
       match k with
       | total_revenue => entry 100000 "LKR 100.00 Mn"
       | cost_of_sales => entry 70000 "LKR 70.00 Mn"
       | operating_expenses => entry 15000 "LKR 15.00 Mn"
       | gross_profit => entry 30000 "LKR 30.00 Mn"
       | gross_profit_margin => entry 30 "30.00%"
       | earnings_per_share => entry 10.5 "10.50"
       | net_asset_per_share => entry 75.25 "75.25"
       | _ => None
       end;
     yj_right_issues :=
       Some {| rj_ratio := Some (JStr "N/A");
               rj_issue_price := Some (JStr "N/A") |};
     yj_top_shareholders :=
       Some [ ("John Keells Holdings PLC",
               {| hj_percentage := Some 35.5%Q;
                  hj_shares := Some 355000000%Q |});
              ("Employee Provident Fund",
               {| hj_percentage := Some 12.5%Q;
                  hj_shares := Some 125000000%Q |}) ] |}.

Definition sample_consolidated_data : consolidated_json :=
  {| financial_data :=
       Some [ ("2020-2021", period_2020_2021);
              ("2019-2020", period_2019_2020) ] |}.

(** a period whose key is a single year, as the extractor names a report
    whose file name holds only a four-digit year *)
Definition single_year_data : consolidated_json :=
  {| financial_data :=
       Some [ ("2019-2020", period_2019_2020);
              ("2021", period_2020_2021) ] |}.

Definition no_csv : csv_env :=
  {| listdir := Ok [];
     metrics_csv := fun _ => None;
     rights_csv := fun _ => None;
     shareholders_csv := fun _ => None |}.

Definition single_year_files : files :=
  {| json_file := Some (Ok single_year_data); csv := no_csv |}.

(** two metric files on disk with overlapping fiscal periods *)
Definition two_csv : csv_env :=
  {| listdir := Ok ["financial_metrics_2019-2020.csv";
                    "financial_metrics_2020-2021.csv"; "notes.txt"];
     metrics_csv := fun y =>
       if (y =? "2019-2020") then
         Some (Ok [("Total Revenue", 100000%Q); ("Cost of Sales", 70000%Q)])
       else if (y =? "2020-2021") then
         Some (Ok [("Total Revenue", 120000%Q); ("Cost of Sales", 80000%Q)])
       else None;
     rights_csv := fun _ => None;
     shareholders_csv := fun _ => None |}.

Definition two_csv_files : files := {| json_file := None; csv := two_csv |}.

End AppExamples.

Module DocExamples.
Import Extractor.

Definition plain (rows : list (list string)) : table :=
  {| df := rows; df_to_string := ""; df_rows_str := "" |}.

(** a report of the period 2019-20 whose only page holds the given text
    and the given tables, both backends finding tables on page 1 only *)
Definition one_page (text : string)
    (lattice stream : result (list table)) : document :=
  {| pdf_path := "annual_reports/jk_annual_report_19-20.pdf";
     reader := Ok [Ok text];
     camelot := fun page fl _ _ =>
       if (page =? 1)%nat then
         match fl with Lattice => lattice | Stream => stream end
       else Ok [];
     tabula_all := Ok [];
     tabula_page := fun _ => Ok [];
     findall_shareholders := fun _ => [];
     current_year := 2025%positive |}.

Definition income_table : table :=
  plain [ ["Rs. 000"; "2020"; "2019"];
          ["Total revenue"; "100,000"; "95,000"];
          ["Cost of sales"; "70,000"; "66,000"] ].


(** the ruled-border backend finds no table on the page *)
Definition lattice_empty : document :=
  one_page "Income Statement" (Ok []) (Ok [income_table]).

(** revenue and cost of sales in the tables, no gross profit row *)
Definition no_gross_profit_row : document :=
  one_page "Income Statement" (Ok [income_table]) (Ok []).




(** a table without columns among those of the income statement *)
Definition empty_row_table : document :=
  one_page "Income Statement" (Ok [plain [ [] ]]) (Ok []).

Definition distribution_table : table :=
  plain [ ["Shareholding range"; "No. of shareholders"; "% of holding"];
          ["Less than 1,000"; "8,000"; "1.20%"];
          ["1,001 to 10,000"; "3,000"; "3.50%"];
          ["10,001 to 100,000"; "900"; "10.10%"];
          ["100,001 to 1,000,000"; "150"; "20.30%"];
          ["Over 1,000,000"; "40"; "64.90%"] ].

Definition ranked_table : table :=
  plain [ ["Name of shareholder"; "No. of shares"; "%"];
          ["Melstacorp PLC"; "128,917,111"; "9.31"];
          ["Mr S E Captain"; "126,044,705"; "9.10"];
          ["HWIC Asia Fund"; "119,200,760"; "8.61"];
          ["Paints and General Industries Limited"; "100,717,931"; "7.27"];
          ["Asian Development Bank"; "65,042,006"; "4.70"];
          ["CIC Holdings PLC"; "35,338,032"; "2.55"] ].

(** a shareholder page with the distribution by holding size above the
    ranked list *)
Definition decoy_and_genuine : document :=
  one_page "Top Twenty Shareholders"
    (Ok [distribution_table; ranked_table]) (Ok []).

Definition genuine_only : document :=
  one_page "Top Twenty Shareholders" (Ok [ranked_table]) (Ok []).

End DocExamples.

Module MoreExamples.
Import App.




(** a metrics file of a report named after a single year *)
Definition single_year_csv : csv_env :=
  {| listdir := Ok ["financial_metrics_2019-2020.csv";
                    "financial_metrics_2021.csv"];
     metrics_csv := fun y =>
       if (y =? "2019-2020") then
         Some (Ok [("Total Revenue", 100000%Q); ("Cost of Sales", 70000%Q)])
       else if (y =? "2021") then
         Some (Ok [("Total Revenue", 120000%Q); ("Cost of Sales", 80000%Q)])
       else None;
     rights_csv := fun _ => None;
     shareholders_csv := fun _ => None |}.

Definition single_year_csv_files : files :=
  {| json_file := None; csv := single_year_csv |}.

End MoreExamples.

Module MoreDocs.
Import Extractor DocExamples.

(** an income statement that gives two components of the operating
    expenses *)
Definition with_expenses : document :=
  one_page "Income Statement"
    (Ok [plain [ ["Revenue from contracts with customers"; "100,000"];
                 ["Cost of sales"; "70,000"];
                 ["Selling and distribution expenses"; "4,000"];
                 ["Administrative expenses"; "9,500"] ]])
    (Ok []).

(** a report named after a single year *)
Definition single_year_report : document :=
  {| pdf_path := "annual_reports/annual_report_2021.pdf";
     reader := Ok [];
     camelot := fun _ _ _ _ => Ok [];
     tabula_all := Ok [];
     tabula_page := fun _ => Ok [];
     findall_shareholders := fun _ => [];
     current_year := 2025%positive |}.

(** the report of the period 2020-21, without tables *)
Definition report_20_21 : document :=
  {| pdf_path := "annual_reports/jk_annual_report_20-21.pdf";
     reader := Ok [];
     camelot := fun _ _ _ _ => Ok [];
     tabula_all := Ok [];
     tabula_page := fun _ => Ok [];
     findall_shareholders := fun _ => [];
     current_year := 2025%positive |}.

End MoreDocs.

Module LegacyDocs.
Import Extractor DocExamples.

(** the report of 2022-23 with the ranked list on a page of the twenty
    largest shareholders, whatever the options of the backend *)
Definition report_22_23 : document :=
  {| pdf_path := "annual_reports/jk_annual_report_22-23.pdf";
     reader := Ok [Ok "Twenty Largest Shareholders"];
     camelot := fun page _ _ _ =>
       if (page =? 1)%nat then Ok [ranked_table] else Ok [];
     tabula_all := Ok [];
     tabula_page := fun _ => Ok [];
     findall_shareholders := fun _ => [];
     current_year := 2025%positive |}.

(** the same report when the reader raises *)
Definition unreadable_22_23 : document :=
  {| pdf_path := "annual_reports/jk_annual_report_22-23.pdf";
     reader := Raise BackendError;
     camelot := fun page _ _ _ =>
       if (page =? 1)%nat then Ok [ranked_table] else Ok [];
     tabula_all := Ok [];
     tabula_page := fun _ => Ok [];
     findall_shareholders := fun _ => [];
     current_year := 2025%positive |}.

End LegacyDocs.

Module PipelineExamples.
Import Extractor DocExamples MoreDocs.

(** a file of the folder that is no PDF *)
Definition notes : document :=
  {| pdf_path := "annual_reports/notes_20-21.txt";
     reader := Ok [];
     camelot := fun _ _ _ _ => Ok [];
     tabula_all := Ok [];
     tabula_page := fun _ => Ok [];
     findall_shareholders := fun _ => [];
     current_year := 2025%positive |}.

(** a folder with the reports of two periods *)
Definition two_reports : list document :=
  [no_gross_profit_row; notes; report_20_21].

(** every write succeeds *)
Definition save_all (doc : document) (d : data) : result unit := Ok tt.

Definition batch : list (string * display) * list (string * data) :=
  extract_data_from_multiple_reports two_reports save_all.

(** the rows of the metrics file of a record *)
Definition rows_of (d : data) : list (string * Q) :=
  map (fun r => (fst (fst r), match snd (fst r) with
                              | Some v => v
                              | None => 0%Q
                              end))
    (metrics_df d).

End PipelineExamples.

Module ExportExamples.
Import Extractor PipelineExamples.

(** the document exported for the folder of the two reports *)
Definition exported_batch : exported :=
  match export_data_to_json "2025-06-30T12:00:00" (snd batch) (fst batch) with
  | Ok e => e
  | Raise _ =>
      {| generated_at := ""; total_years := 0; years_covered := [];
         ex_financial_data := [] |}
  end.

End ExportExamples.

(* ================================================================== *)
(** * Properties *)

(* ------------------------------------------------------------------ *)
(** ** Strings *)

Section StringFacts.

Lemma contains_char (c : ascii) (s : string) :
  contains (String c "") s = existsb_str (fun d => (d =? c)%char) s.
Proof.
  induction s as [|d s IH]; simpl; [reflexivity|].
  rewrite (Ascii.eqb_sym d c).
  destruct (c =? d)%char; simpl; [destruct s; reflexivity | exact IH].
Qed.








Lemma take_length_le (n : nat) (s : string) :
  (String.length (take n s) <= n)%nat.
Proof.
  revert s. induction n as [|n IH]; intros [|c s]; simpl; try lia.
  specialize (IH s). lia.
Qed.

Lemma take_add (n m : nat) (s : string) :
  take (n + m) s = take n s ++ take m (drop n s).
Proof.
  revert s. induction n as [|n IH]; intros s; simpl.
  - reflexivity.
  - destruct s as [|c s]; simpl.
    + destruct m; reflexivity.
    + rewrite IH. reflexivity.
Qed.


Lemma take_app_length (a b : string) : take (String.length a) (a ++ b) = a.
Proof. induction a as [|c a IH]; simpl; [destruct b|rewrite IH]; reflexivity. Qed.



End StringFacts.

(* ------------------------------------------------------------------ *)
(** ** The numeric normalizer *)

Section Normalizer.







Lemma digit_not_sign (c : ascii) :
  is_digit c = true -> (c =? "-")%char = false /\ (c =? "+")%char = false.
Proof.
  intros H. split.
  - destruct (c =? "-")%char eqn:E; [|reflexivity].
    apply Ascii.eqb_eq in E. subst c. discriminate.
  - destruct (c =? "+")%char eqn:E; [|reflexivity].
    apply Ascii.eqb_eq in E. subst c. discriminate.
Qed.



















End Normalizer.



(* ------------------------------------------------------------------ *)
(** ** Sorting *)

Section SortingFacts.
Context {A : Type}.

Lemma insert_asc_perm (key : A -> Z) (x : A) (l : list A) :
  Permutation (insert_asc key x l) (x :: l).
Proof.
  induction l as [|y l IH]; simpl; [reflexivity|].
  destruct (key y <? key x)%Z; [|reflexivity].
  rewrite IH. apply perm_swap.
Qed.

Lemma sorted_asc_perm (key : A -> Z) (l : list A) :
  Permutation (sorted_asc key l) l.
Proof.
  induction l as [|x l IH]; simpl; [reflexivity|].
  rewrite insert_asc_perm. constructor. exact IH.
Qed.

Lemma insert_asc_sorted (key : A -> Z) (x : A) (l : list A) :
  Sorted (fun a b => key a <= key b) l ->
  Sorted (fun a b => key a <= key b) (insert_asc key x l).
Proof.
  induction 1 as [|y l Hs IH Hhd]; simpl.
  - repeat constructor.
  - destruct (key y <? key x)%Z eqn:E.
    + constructor; [exact IH|].
      apply Z.ltb_lt in E.
      destruct Hhd as [|z l' Hz]; simpl.
      * constructor. lia.
      * destruct (key z <? key x)%Z; constructor; lia.
    + apply Z.ltb_ge in E. repeat constructor; auto.
Qed.

Lemma sorted_asc_sorted (key : A -> Z) (l : list A) :
  Sorted (fun a b => key a <= key b) (sorted_asc key l).
Proof.
  induction l as [|x l IH]; simpl; [constructor|].
  apply insert_asc_sorted. exact IH.
Qed.

Lemma insert_desc_perm (key : A -> Q) (x : A) (l : list A) :
  Permutation (insert_desc key x l) (x :: l).
Proof.
  induction l as [|y l IH]; simpl; [reflexivity|].
  destruct (Qle_bool (key y) (key x)); [reflexivity|].
  rewrite IH. apply perm_swap.
Qed.

Lemma sorted_desc_perm (key : A -> Q) (l : list A) :
  Permutation (sorted_desc key l) l.
Proof.
  induction l as [|x l IH]; simpl; [reflexivity|].
  rewrite insert_desc_perm. constructor. exact IH.
Qed.

Lemma insert_desc_sorted (key : A -> Q) (x : A) (l : list A) :
  Sorted (fun a b => Qle (key b) (key a)) l ->
  Sorted (fun a b => Qle (key b) (key a)) (insert_desc key x l).
Proof.
  induction 1 as [|y l Hs IH Hhd]; simpl.
  - repeat constructor.
  - destruct (Qle_bool (key y) (key x)) eqn:E.
    + apply Qle_bool_iff in E. repeat constructor; auto.
    + assert (Hlt : Qlt (key x) (key y)).
      { apply Qnot_le_lt. intros H. apply Qle_bool_iff in H. congruence. }
      constructor; [exact IH|].
      destruct Hhd as [|z l' Hz]; simpl.
      * constructor. apply Qlt_le_weak. exact Hlt.
      * destruct (Qle_bool (key z) (key x)); constructor;
          [apply Qlt_le_weak; exact Hlt | exact Hz].
Qed.

Lemma sorted_desc_sorted (key : A -> Q) (l : list A) :
  Sorted (fun a b => Qle (key b) (key a)) (sorted_desc key l).
Proof.
  induction l as [|x l IH]; simpl; [constructor|].
  apply insert_desc_sorted. exact IH.
Qed.

End SortingFacts.

(* ------------------------------------------------------------------ *)
(** ** Loops that may raise *)

Section ForEach.
Context {A S : Type} (body : S -> A -> result S).

(** a loop invariant that each successful step preserves *)
Lemma for_each_invariant (I : S -> list A -> Prop) :
  (forall s a s' done, I s done -> body s a = Ok s' -> I s' (done ++ [a])%list) ->
  forall l s s' done,
    I s done -> App.for_each body l s = Ok s' -> I s' (done ++ l)%list.
Proof.
  intros Hstep. induction l as [|a l IH]; intros s s' done HI H; simpl in H.
  - injection H as <-. rewrite app_nil_r. exact HI.
  - destruct (body s a) as [s1|e] eqn:E; simpl in H; [|discriminate].
    replace (done ++ a :: l)%list with ((done ++ [a]) ++ l)%list
      by (rewrite <- app_assoc; reflexivity).
    eapply IH; [|exact H]. eapply Hstep; eassumption.
Qed.

(** a step that raises from every state makes the loop raise *)
Lemma for_each_raises (l : list A) (a : A) (s : S) :
  In a l -> (forall s0, exists e, body s0 a = Raise e) ->
  exists e, App.for_each body l s = Raise e.
Proof.
  intros Hin Hbad. revert s.
  induction l as [|b l IH]; intros s; [contradiction|].
  simpl. destruct (body s b) as [s1|e] eqn:E; simpl; [|eauto].
  destruct Hin as [->|Hin]; [|auto].
  destruct (Hbad s) as [e He]. congruence.
Qed.

(** the steps before the first one that raises do not matter for what is
    raised *)
Lemma for_each_app (l1 l2 : list A) (s : S) :
  App.for_each body (l1 ++ l2)%list s
  = bind (App.for_each body l1 s) (App.for_each body l2).
Proof.
  revert s. induction l1 as [|a l1 IH]; intros s; simpl; [reflexivity|].
  destruct (body s a); simpl; [apply IH | reflexivity].
Qed.

End ForEach.

(* ------------------------------------------------------------------ *)
(** ** First writer wins *)

Section FirstWins.
Import App AppSpec.

Local Abbreviation years l := (map year l).
Local Abbreviation add_all l acc :=
  (fold_left (fun a y => add_yearly y a) l acc).

Lemma existsb_year_in (y : Z) (l : list yearly) :
  existsb (fun item => (year item =? y)%Z) l = true <-> In y (years l).
Proof.
  rewrite existsb_exists, in_map_iff. split.
  - intros (x & Hin & E). apply Z.eqb_eq in E. eauto.
  - intros (x & E & Hin). exists x. split; [exact Hin|]. apply Z.eqb_eq, E.
Qed.

Lemma add_yearly_cases (y : yearly) (l : list yearly) :
  (In (year y) (years l) /\ add_yearly y l = l)
  \/ (~ In (year y) (years l) /\ add_yearly y l = (l ++ [y])%list).
Proof.
  unfold add_yearly.
  destruct (existsb (fun item => (year item =? year y)%Z) l) eqn:E.
  - left. split; [apply existsb_year_in; exact E | reflexivity].
  - right. split; [|reflexivity].
    intros H. apply existsb_year_in in H. congruence.
Qed.

Lemma add_yearly_NoDup (y : yearly) (l : list yearly) :
  NoDup (years l) -> NoDup (years (add_yearly y l)).
Proof.
  intros Hl. destruct (add_yearly_cases y l) as [[_ ->]|[Hn ->]]; [exact Hl|].
  rewrite map_app. simpl.
  apply NoDup_app; [exact Hl | repeat constructor; simpl; tauto |].
  intros x Hx [<-|[]]. contradiction.
Qed.

Lemma add_all_NoDup (l acc : list yearly) :
  NoDup (years acc) -> NoDup (years (add_all l acc)).
Proof.
  revert acc. induction l as [|c l IH]; intros acc H; simpl; [exact H|].
  apply IH, add_yearly_NoDup, H.
Qed.

Lemma add_yearly_keeps (y x : yearly) (l : list yearly) :
  In x l -> In x (add_yearly y l).
Proof.
  intros H. destruct (add_yearly_cases y l) as [[_ ->]|[_ ->]]; [exact H|].
  apply in_or_app. left. exact H.
Qed.

Lemma add_all_keeps (l acc : list yearly) (x : yearly) :
  In x acc -> In x (add_all l acc).
Proof.
  revert acc. induction l as [|c l IH]; intros acc H; simpl; [exact H|].
  apply IH, add_yearly_keeps, H.
Qed.

Lemma add_yearly_year (y : yearly) (l : list yearly) :
  In (year y) (years (add_yearly y l)).
Proof.
  destruct (add_yearly_cases y l) as [[H ->]|[_ ->]]; [exact H|].
  rewrite map_app. apply in_or_app. right. left. reflexivity.
Qed.

Lemma add_all_years_keep (l acc : list yearly) (z : Z) :
  In z (years acc) -> In z (years (add_all l acc)).
Proof.
  intros H. apply in_map_iff in H. destruct H as (x & <- & Hx).
  apply in_map. apply add_all_keeps. exact Hx.
Qed.

(** every candidate's year has an entry *)
Lemma add_all_covers (l acc : list yearly) (c : yearly) :
  In c l -> In (year c) (years (add_all l acc)).
Proof.
  revert acc. induction l as [|b l IH]; intros acc H; [contradiction|].
  simpl. destruct H as [->|H]; [|apply IH, H].
  apply add_all_years_keep, add_yearly_year.
Qed.

(** an entry of the result that was not there before is the first candidate
    with its year *)
Lemma add_all_first (l acc : list yearly) (y : yearly) :
  In y (add_all l acc) ->
  In y acc
  \/ (~ In (year y) (years acc) /\ first_with_year (year y) l = Some y).
Proof.
  revert acc. induction l as [|c l IH]; intros acc H; simpl in H; [tauto|].
  unfold first_with_year. simpl.
  destruct (IH _ H) as [Hin|[Hnot Hfirst]].
  - destruct (add_yearly_cases c acc) as [[_ E]|[Hn E]]; rewrite E in Hin.
    + tauto.
    + apply in_app_or in Hin. destruct Hin as [Hin|[<-|[]]]; [tauto|].
      right. split; [exact Hn|]. rewrite Z.eqb_refl. reflexivity.
  - right.
    assert (Hne : year c <> year y).
    { intros E. apply Hnot. rewrite <- E. apply add_yearly_year. }
    split.
    + intros Hy. apply Hnot. apply in_map_iff in Hy.
      destruct Hy as (x & Ex & Hx). rewrite <- Ex.
      apply in_map, add_yearly_keeps, Hx.
    + apply Z.eqb_neq in Hne. rewrite Hne. exact Hfirst.
Qed.



End FirstWins.

(* ------------------------------------------------------------------ *)
(** ** The consolidation transform *)

Section TransformFacts.
Import App AppSpec.
Variable float_str : string -> result Q.

Local Abbreviation add_all l acc :=
  (fold_left (fun a y => add_yearly y a) l acc).

Lemma display_years_shape (key : string) (ys : list Z) :
  display_years key = Ok ys -> exists s e, ys = [s; e].
Proof.
  unfold display_years. destruct (py_int _); cbn [bind]; [|discriminate].
  destruct (nth_error (split "-" key) 1) as [x|]; cbn [bind]; [|discriminate].
  destruct (py_int x); cbn [bind]; [|discriminate].
  intros H. injection H as <-. eauto.
Qed.

Lemma process_right_issues_frame (dy : Z) (yd : year_json) (t t' : dataset) :
  process_right_issues float_str dy yd t = Ok t' ->
  industryGroups t' = industryGroups t /\ yearlyData t' = yearlyData t.
Proof.
  unfold process_right_issues.
  destruct (yj_right_issues yd) as [ri|]; [|intros [= <-]; tauto].
  destruct (negb (jval_eqb (get_or JNull (rj_ratio ri)) (JStr "N/A")));
    [|intros [= <-]; tauto].
  destruct (if negb _ then _ else _); simpl; [|discriminate].
  intros [= <-]. tauto.
Qed.

Lemma process_top_shareholders_frame (dy : Z) (yd : year_json) (t : dataset) :
  industryGroups (process_top_shareholders dy yd t) = industryGroups t
  /\ yearlyData (process_top_shareholders dy yd t) = yearlyData t.
Proof.
  unfold process_top_shareholders.
  destruct (yj_top_shareholders yd); simpl; tauto.
Qed.

Lemma process_display_year_spec (yd : year_json) (t t' : dataset) (dy : Z) :
  industryGroups t = industry_groups ->
  process_display_year float_str yd t dy = Ok t' ->
  industryGroups t' = industry_groups
  /\ exists fin, build_financials yd = Ok fin
               /\ yearlyData t'
                  = add_yearly (yearly_entry fin dy) (yearlyData t).
Proof.
  intros Hig. unfold process_display_year.
  destruct (process_right_issues float_str dy yd t) as [t1|] eqn:E1;
    simpl; [|discriminate].
  destruct (process_right_issues_frame _ _ _ _ E1) as [Hi1 Hy1].
  destruct (process_top_shareholders_frame dy yd t1) as [Hi2 Hy2].
  destruct (build_financials yd) as [fin|]; simpl; [|discriminate].
  intros [= <-]. simpl. split; [congruence|].
  exists fin. split; [reflexivity|].
  unfold yearly_entry. rewrite Hi2, Hi1, Hig, Hy2, Hy1. reflexivity.
Qed.

Lemma process_period_spec (t t' : dataset) (item : string * year_json) :
  industryGroups t = industry_groups ->
  process_period float_str t item = Ok t' ->
  industryGroups t' = industry_groups
  /\ period_ok item
  /\ yearlyData t' = add_all (period_entries item) (yearlyData t).
Proof.
  intros Hig. unfold process_period, period_ok, period_entries.
  destruct (display_years (fst item)) as [ys|] eqn:Ed; simpl; [|discriminate].
  destruct (display_years_shape _ _ Ed) as (s & e & ->). simpl.
  destruct (process_display_year float_str (snd item) t s) as [t1|] eqn:E1;
    simpl; [|discriminate].
  destruct (process_display_year float_str (snd item) t1 e) as [t2|] eqn:E2;
    simpl; [|discriminate].
  intros [= <-].
  destruct (process_display_year_spec _ _ _ _ Hig E1) as (Hi1 & f1 & Hb1 & Hy1).
  destruct (process_display_year_spec _ _ _ _ Hi1 E2) as (Hi2 & f2 & Hb2 & Hy2).
  rewrite Hb1 in *. injection Hb2 as <-.
  split; [exact Hi2|]. split.
  - exists s, e, f1. auto.
  - simpl. rewrite Hy2, Hy1. reflexivity.
Qed.

Lemma transform_loop_spec (items : list (string * year_json)) (t : dataset) :
  for_each (process_period float_str) items empty_dataset = Ok t ->
  industryGroups t = industry_groups
  /\ Forall period_ok items
  /\ yearlyData t = first_wins (flat_map period_entries items).
Proof.
  intros H.
  apply (for_each_invariant (process_period float_str)
           (fun s done =>
              industryGroups s = industry_groups
              /\ Forall period_ok done
              /\ yearlyData s = first_wins (flat_map period_entries done)))
    with (done := []) in H.
  - exact H.
  - intros s a s' done (Hig & Hok & Hy) Hstep.
    destruct (process_period_spec _ _ _ Hig Hstep) as (Hig' & Hok' & Hy').
    split; [exact Hig'|]. split.
    + apply Forall_app. split; [exact Hok | constructor; [exact Hok'|constructor]].
    + rewrite Hy', Hy. unfold first_wins.
      rewrite flat_map_app, fold_left_app. simpl. rewrite app_nil_r.
      reflexivity.
  - repeat split. constructor.
Qed.

Lemma transform_spec (cd : consolidated_json) (d : dataset) :
  transform_consolidated_data float_str cd = Ok d ->
  Forall period_ok (periods cd)
  /\ yearlyData d = sorted_asc year (first_wins (candidates cd)).
Proof.
  unfold transform_consolidated_data. fold (periods cd).
  destruct (for_each _ (periods cd) empty_dataset) as [t|] eqn:E;
    simpl; [|discriminate].
  intros [= <-]. simpl.
  destruct (transform_loop_spec _ _ E) as (_ & Hok & Hy).
  split; [exact Hok|]. rewrite Hy. reflexivity.
Qed.

End TransformFacts.

(* ------------------------------------------------------------------ *)
(** ** The CSV loader *)

Section CsvFacts.
Import App AppSpec.
Variable float_str : string -> result Q.

Local Abbreviation add_all l acc :=
  (fold_left (fun a y => add_yearly y a) l acc).

Lemma csv_right_issues_frame (ys : string) (dy : Z) (e : csv_env)
    (t t' : dataset) :
  csv_right_issues float_str ys dy e t = Ok t' -> yearlyData t' = yearlyData t.
Proof.
  unfold csv_right_issues.
  destruct (rights_csv e ys) as [read|]; [|intros [= <-]; reflexivity].
  destruct read as [rows|]; cbn [bind]; [|discriminate].
  destruct (negb (jval_eqb _ (JStr "N/A"))); [|intros [= <-]; reflexivity].
  destruct (if negb _ then _ else _); cbn [bind]; [|discriminate].
  intros [= <-]. reflexivity.
Qed.

Lemma csv_top_shareholders_frame (ys : string) (dy : Z) (e : csv_env)
    (t : dataset) :
  yearlyData (csv_top_shareholders ys dy e t) = yearlyData t.
Proof.
  unfold csv_top_shareholders. destruct (shareholders_csv e ys); reflexivity.
Qed.

Lemma csv_display_year_spec (e : csv_env) (ys : string)
    (dict : list (string * Q)) (t t' : dataset) (dy : Z) :
  csv_display_year float_str e ys dict t dy = Ok t' ->
  yearlyData t' = add_yearly (csv_yearly dict dy) (yearlyData t).
Proof.
  unfold csv_display_year.
  destruct (csv_right_issues float_str ys dy e t) as [t1|] eqn:E1;
    cbn [bind]; [|discriminate].
  intros [= <-]. simpl.
  rewrite csv_top_shareholders_frame, (csv_right_issues_frame _ _ _ _ _ E1).
  reflexivity.
Qed.

Lemma csv_period_spec (e : csv_env) (t t' : dataset) (ys : string) :
  csv_period float_str e t ys = Ok t' ->
  yearlyData t' = add_all (csv_period_entries e ys) (yearlyData t).
Proof.
  unfold csv_period, csv_period_entries.
  destruct (display_years ys) as [years|] eqn:Ed; cbn [bind]; [|discriminate].
  destruct (display_years_shape _ _ Ed) as (s & x & ->).
  destruct (metrics_csv e ys) as [[rows|]|]; cbn [bind];
    [|discriminate|intros [= <-]; reflexivity].
  simpl.
  destruct (csv_display_year float_str e ys _ t s) as [t1|] eqn:E1;
    cbn [bind]; [|discriminate].
  destruct (csv_display_year float_str e ys _ t1 x) as [t2|] eqn:E2;
    cbn [bind]; [|discriminate].
  intros [= <-].
  rewrite (csv_display_year_spec _ _ _ _ _ _ E2),
          (csv_display_year_spec _ _ _ _ _ _ E1).
  reflexivity.
Qed.

Lemma csv_loop_spec (e : csv_env) (l : list string) (t : dataset) :
  for_each (csv_period float_str e) l empty_dataset = Ok t ->
  yearlyData t = first_wins (flat_map (csv_period_entries e) l).
Proof.
  intros H.
  apply (for_each_invariant (csv_period float_str e)
           (fun s done =>
              yearlyData s = first_wins (flat_map (csv_period_entries e) done)))
    with (done := []) in H.
  - exact H.
  - intros s a s' done Hy Hstep.
    rewrite (csv_period_spec _ _ _ _ Hstep), Hy. unfold first_wins.
    rewrite flat_map_app, fold_left_app. simpl. rewrite app_nil_r.
    reflexivity.
  - reflexivity.
Qed.

Lemma load_from_csv_spec (fs : files) (c c' : cache) (d : dataset) :
  load_from_csv_files float_str fs c = (Ok d, c') ->
  yearlyData d = sorted_asc year (first_wins (csv_candidates (csv fs))).
Proof.
  unfold load_from_csv_files, csv_candidates.
  destruct (listdir (csv fs)) as [names|]; cbn [bind]; [|discriminate].
  destruct (for_each _ _ empty_dataset) as [t|] eqn:E; cbn [bind];
    [|discriminate].
  intros [= <- _]. rewrite <- (csv_loop_spec _ _ _ E).
  destruct (rightIssues _); reflexivity.
Qed.

End CsvFacts.

(* ------------------------------------------------------------------ *)
(** ** Claims on the consolidated dataset *)

Section Consolidation.
Import App AppSpec.

Lemma first_wins_sorted_facts (l : list yearly) :
  let r := sorted_asc year (first_wins l) in
  NoDup (map year r)
  /\ Sorted (fun a b => year a <= year b) r
  /\ (forall y, In y r -> first_with_year (year y) l = Some y)
  /\ (forall c, In c l -> In (year c) (map year r)).
Proof.
  cbv zeta.
  pose proof (sorted_asc_perm year (first_wins l)) as Hp.
  split; [|split; [|split]].
  - eapply Permutation_NoDup.
    + apply Permutation_map. symmetry. exact Hp.
    + apply add_all_NoDup. constructor.
  - apply sorted_asc_sorted.
  - intros y Hy. eapply Permutation_in in Hy; [|exact Hp].
    destruct (add_all_first _ _ _ Hy) as [[]|[_ H]]. exact H.
  - intros c Hc. eapply Permutation_in.
    + apply Permutation_map. symmetry. exact Hp.
    + apply add_all_covers. exact Hc.
Qed.

End Consolidation.

(** C2.  Whatever the per-period records, the yearly entries of the
    consolidated dataset have pairwise distinct years, both when it is built
    by the transform and when it is built by the CSV loader.  The entries
    are sorted by year; each one is the first (record, displayYear) pair,
    in the order the pairs are visited, that maps to its year, so a later
    pair for a year that is taken is skipped; and every pair's year has an
    entry. *)
Theorem consolidated_years_unique (float_str : string -> result Q) :
  (forall cd d,
     App.transform_consolidated_data float_str cd = Ok d ->
     NoDup (map App.year (App.yearlyData d))
     /\ Sorted (fun a b => App.year a <= App.year b) (App.yearlyData d)
     /\ (forall y, In y (App.yearlyData d) ->
           AppSpec.first_with_year (App.year y) (AppSpec.candidates cd)
           = Some y)
     /\ (forall c, In c (AppSpec.candidates cd) ->
           In (App.year c) (map App.year (App.yearlyData d))))
  /\
  (forall fs c d c',
     App.load_from_csv_files float_str fs c = (Ok d, c') ->
     NoDup (map App.year (App.yearlyData d))
     /\ Sorted (fun a b => App.year a <= App.year b) (App.yearlyData d)
     /\ (forall y, In y (App.yearlyData d) ->
           AppSpec.first_with_year (App.year y)
             (AppSpec.csv_candidates (App.csv fs)) = Some y)
     /\ (forall x, In x (AppSpec.csv_candidates (App.csv fs)) ->
           In (App.year x) (map App.year (App.yearlyData d)))).
Proof.
  split.
  - intros cd d H. destruct (transform_spec _ _ _ H) as [_ ->].
    apply first_wins_sorted_facts.
  - intros fs c d c' H. rewrite (load_from_csv_spec _ _ _ _ _ H).
    apply first_wins_sorted_facts.
Qed.

Lemma consolidated_years_unique_witness :
  exists d,
    App.transform_consolidated_data decimal_float_str
      AppExamples.sample_consolidated_data = Ok d
    /\ map App.year (App.yearlyData d) = [2019; 2020; 2021]
    /\ NoDup (map App.year (App.yearlyData d))
    /\ exists d' c',
         App.load_from_csv_files decimal_float_str AppExamples.two_csv_files
           App.empty_cache = (Ok d', c')
         /\ map App.year (App.yearlyData d') = [2019; 2020; 2021]
         /\ NoDup (map App.year (App.yearlyData d')).
Proof.
  eexists. split; [vm_compute; reflexivity|].
  split; [reflexivity|]. split.
  - apply (proj1 (consolidated_years_unique decimal_float_str)
             AppExamples.sample_consolidated_data).
    vm_compute. reflexivity.
  - eexists. eexists. split; [vm_compute; reflexivity|].
    split; [reflexivity|].
    eapply (proj2 (consolidated_years_unique decimal_float_str)
              AppExamples.two_csv_files App.empty_cache).
    vm_compute. reflexivity.
Defined.

(* ------------------------------------------------------------------ *)
(** ** Fiscal-period keys *)

Section Keys.
Import App AppSpec.

Lemma split_no_sep (c : ascii) (s : string) :
  contains (String c "") s = false -> split c s = [s].
Proof.
  rewrite contains_char.
  induction s as [|d s IH]; simpl; [reflexivity|].
  intros H. apply orb_false_iff in H. destruct H as [-> H].
  rewrite (IH H). reflexivity.
Qed.

Lemma digit_not_space (c : ascii) : is_digit c = true -> is_space c = false.
Proof.
  unfold is_digit, is_space. intros H. apply andb_true_iff in H.
  destruct H as [H1 H2]. apply Nat.leb_le in H1. apply Nat.leb_le in H2.
  apply orb_false_iff. split; apply andb_false_iff.
  - right. apply Nat.leb_gt. lia.
  - right. apply Nat.leb_gt. lia.
Qed.

Lemma rstrip_digits (s : string) :
  forallb_str is_digit s = true -> rstrip s = s.
Proof.
  induction s as [|c s IH]; simpl; [reflexivity|].
  intros H. apply andb_true_iff in H. destruct H as [Hc Hs].
  rewrite (digit_not_space c Hc), (IH Hs). reflexivity.
Qed.

Lemma strip_digits (s : string) :
  forallb_str is_digit s = true -> strip s = s.
Proof.
  intros H. unfold strip, lstrip.
  assert (E : span is_space s = 0%nat).
  { destruct s as [|c s]; simpl in *; [reflexivity|].
    apply andb_true_iff in H. destruct H as [Hc _].
    rewrite (digit_not_space c Hc). reflexivity. }
  rewrite E. simpl. apply rstrip_digits. exact H.
Qed.

Lemma int_body_digits (s : string) (b : bool) (acc : Z) :
  forallb_str is_digit s = true -> s <> "" ->
  int_body b acc s = Some (digits_value acc s).
Proof.
  revert b acc. induction s as [|c s IH]; intros b acc H Hne; [congruence|].
  simpl in *. apply andb_true_iff in H. destruct H as [Hc Hs]. rewrite Hc.
  destruct s as [|c' s']; [reflexivity|].
  apply IH; [exact Hs | discriminate].
Qed.

(** a run of digits, such as a four-digit year, is an integer literal *)
Lemma py_int_digits (s : string) :
  forallb_str is_digit s = true -> s <> "" ->
  py_int s = Ok (digits_value 0 s).
Proof.
  intros H Hne. unfold py_int. rewrite (strip_digits s H).
  destruct s as [|c s'] eqn:Es; [congruence|].
  assert (Hc : is_digit c = true)
    by (simpl in H; apply andb_true_iff in H; tauto).
  destruct (digit_not_sign c Hc) as [-> ->].
  rewrite int_body_digits; [reflexivity | exact H | discriminate].
Qed.

(** a key without the separator never gives two display years *)
Lemma display_years_dashless (key : string) :
  contains "-" key = false ->
  display_years key
  = match py_int key with
    | Ok _ => Raise IndexError
    | Raise e => Raise e
    end.
Proof.
  intros H. unfold display_years. rewrite (split_no_sep _ _ H). simpl.
  destruct (py_int key); reflexivity.
Qed.

End Keys.

Section ConsolidationClaims.
Import App AppSpec.
Variable float_str : string -> result Q.


Lemma dashless_period_raises (t : dataset) (key : string) (yd : year_json) :
  contains "-" key = false ->
  exists e, process_period float_str t (key, yd) = Raise e.
Proof.
  intros H. unfold process_period. simpl.
  rewrite (display_years_dashless key H).
  destruct (py_int key); simpl; eauto.
Qed.

End ConsolidationClaims.




(** C10.  When the cache is empty, the JSON file loads, and some
    fiscal-period key holds no ['-']: the transform raises; what it raises at
    that key is [IndexError] as soon as the key is an integer literal, which
    a run of digits such as a four-digit year is, so [IndexError] is what the
    transform raises when the periods before that key went through; and the
    loader returns what the CSV loader returns and leaves the cache as the
    CSV loader leaves it. *)
Theorem dashless_key_falls_back_to_csv
    (float_str : string -> result Q) (fs : App.files) (c : App.cache)
    (cd : App.consolidated_json) (key : string) (yd : App.year_json) :
  App.all_data c = None ->
  App.json_file fs = Some (Ok cd) ->
  In (key, yd) (AppSpec.periods cd) ->
  contains "-" key = false ->
  (exists e, App.transform_consolidated_data float_str cd = Raise e)
  /\ (forallb_str is_digit key = true -> key <> "" ->
      App.display_years key = Raise IndexError)
  /\ (forall pre post t z,
        AppSpec.periods cd = (pre ++ (key, yd) :: post)%list ->
        App.for_each (App.process_period float_str) pre App.empty_dataset
        = Ok t ->
        py_int key = Ok z ->
        App.transform_consolidated_data float_str cd = Raise IndexError)
  /\ App.load_all_financial_data float_str fs c
     = App.load_from_csv_files float_str fs c.
Proof.
  intros Hc Hj Hin Hdash.
  assert (Hraise : exists e,
             App.transform_consolidated_data float_str cd = Raise e).
  { unfold App.transform_consolidated_data. fold (AppSpec.periods cd).
    destruct (for_each_raises (App.process_period float_str)
                (AppSpec.periods cd) (key, yd) App.empty_dataset Hin)
      as [e He].
    - intros s0. apply dashless_period_raises. exact Hdash.
    - exists e. rewrite He. reflexivity. }
  split; [exact Hraise|]. split; [|split].
  - intros Hd Hne. rewrite (display_years_dashless key Hdash).
    rewrite (py_int_digits key Hd Hne). reflexivity.
  - intros pre post t z Hsplit Hpre Hz.
    unfold App.transform_consolidated_data. fold (AppSpec.periods cd).
    rewrite Hsplit, for_each_app, Hpre. simpl.
    unfold App.process_period at 1. simpl.
    rewrite (display_years_dashless key Hdash), Hz. reflexivity.
  - unfold App.load_all_financial_data. rewrite Hc, Hj. cbn [bind].
    destruct Hraise as [e ->]. reflexivity.
Qed.

Lemma dashless_key_falls_back_to_csv_witness :
  App.transform_consolidated_data decimal_float_str
    AppExamples.single_year_data = Raise IndexError
  /\ App.load_all_financial_data decimal_float_str
       AppExamples.single_year_files App.empty_cache
     = App.load_from_csv_files decimal_float_str
         AppExamples.single_year_files App.empty_cache.
Proof.
  destruct (dashless_key_falls_back_to_csv decimal_float_str
              AppExamples.single_year_files App.empty_cache
              AppExamples.single_year_data "2021"
              AppExamples.period_2020_2021
              eq_refl eq_refl (or_intror (or_introl eq_refl)) eq_refl)
    as (_ & _ & Hidx & Hload).
  split; [|exact Hload].
  eapply (Hidx [("2019-2020", AppExamples.period_2019_2020)] [] _ 2021
            eq_refl); vm_compute; reflexivity.
Defined.

(* ------------------------------------------------------------------ *)
(** ** The table-extraction strategy chain *)

Section TableChain.
Import Extractor ExtractorSpec.




Lemma lattice_found_contribution (doc : document) (page : nat) (t : table)
    (ts : list table) :
  camelot doc page Lattice None None = Ok (t :: ts) ->
  ExtractorSpec.page_contribution doc true page = t :: ts.
Proof.
  intros H. unfold ExtractorSpec.page_contribution, page_tables. rewrite H. reflexivity.
Qed.

Lemma stream_only_contribution (doc : document) (page : nat) :
  ExtractorSpec.page_contribution doc false page
  = catch (camelot doc page Stream None None) (fun _ => []).
Proof.
  unfold ExtractorSpec.page_contribution, page_tables.
  destruct (camelot doc page Stream None None); reflexivity.
Qed.

(** every table of the chain was returned by a backend call *)
Lemma tables_of_pages_origin (doc : document) (lattice : bool)
    (pages : list nat) (t : table) :
  In t (tables_of_pages doc lattice pages) ->
  exists page fl ts, camelot doc page fl None None = Ok ts /\ In t ts.
Proof.
  unfold tables_of_pages. intros H. apply in_flat_map in H.
  destruct H as (page & _ & H). unfold page_tables in H.
  destruct lattice.
  - destruct (camelot doc page Lattice None None) as [ts|] eqn:E1;
      simpl in H; [|contradiction].
    destruct ts as [|t0 ts].
    + destruct (camelot doc page Stream None None) as [ts2|] eqn:E2;
        simpl in H; [|contradiction].
      exists page, Stream, ts2. auto.
    + exists page, Lattice, (t0 :: ts). auto.
  - destruct (camelot doc page Stream None None) as [ts2|] eqn:E2;
      simpl in H; [|contradiction].
    exists page, Stream, ts2. auto.
Qed.

Lemma extract_tables_origin (doc : document) (keyword : string)
    (lattice : bool) (t : table) :
  In t (_extract_tables_from_page doc keyword lattice) ->
  exists page fl ts, camelot doc page fl None None = Ok ts /\ In t ts.
Proof.
  unfold _extract_tables_from_page.
  set (found := catch _ _).
  assert (Hf : forall x, In x found ->
             exists page fl ts, camelot doc page fl None None = Ok ts
                                /\ In x ts).
  { subst found. intros x.
    destruct (reader doc) as [pages|]; simpl; [|contradiction].
    destruct (matching_from (lower keyword) 0 pages) as [ms|]; simpl;
      [|contradiction].
    apply tables_of_pages_origin. }
  destruct found as [|t0 ts].
  - apply tables_of_pages_origin.
  - apply Hf.
Qed.

End TableChain.




(* ------------------------------------------------------------------ *)
(** ** Gross profit and its margin *)

Section GrossProfit.
Import Extractor.

Lemma num_set_num_same (k : metric) (v : Q) (d : data) :
  num (set_num k v d) k = Some v.
Proof. destruct k; reflexivity. Qed.


Lemma num_set_money_same (k : metric) (v : Q) (c : string) (d : data) :
  num (set_money k v c d) k = Some v.
Proof. destruct k; reflexivity. Qed.

Lemma num_set_money_other (k k' : metric) (v : Q) (c : string) (d : data) :
  metric_eqb k' k = false -> num (set_money k v c d) k' = num d k'.
Proof. intros H. simpl. rewrite H. reflexivity. Qed.



End GrossProfit.



(* ------------------------------------------------------------------ *)
(** ** Matches of the patterns, and the year of a report *)

Section RegexFacts.

Lemma forallb_take_le_span (p : ascii -> bool) (j : nat) (s : string) :
  (j <= span p s)%nat -> forallb_str p (take j s) = true.
Proof.
  revert s. induction j as [|j IH]; intros s H; [destruct s; reflexivity|].
  destruct s as [|c s]; simpl in *; [lia|].
  destruct (p c); [|lia]. simpl. apply IH. lia.
Qed.

Lemma length_take_le_span (p : ascii -> bool) (j : nat) (s : string) :
  (j <= span p s)%nat -> String.length (take j s) = j.
Proof.
  revert s. induction j as [|j IH]; intros s H; [destruct s; reflexivity|].
  destruct s as [|c s]; simpl in *; [lia|].
  destruct (p c); [|lia]. rewrite IH; [reflexivity | lia].
Qed.

Lemma backtrack_sound (k : string -> option nat) (s : string) (lo n r : nat) :
  (lo <= n)%nat -> Re.backtrack k s lo n = Some r ->
  exists j m, (lo <= j <= n)%nat /\ k (drop j s) = Some m /\ r = (j + m)%nat.
Proof.
  induction n as [|n IH]; intros Hlo H; cbn [Re.backtrack] in H.
  - destruct (k (drop 0 s)) as [m|] eqn:E; [|discriminate].
    injection H as <-. exists 0%nat, m. repeat split; auto; lia.
  - destruct (k (drop (S n) s)) as [m|] eqn:E.
    + injection H as <-. exists (S n), m. repeat split; auto; lia.
    + destruct (lo <=? n)%nat eqn:L; [|discriminate].
      apply Nat.leb_le in L. destruct (IH L H) as (j & m & Hj & Hk & ->).
      exists j, m. repeat split; auto; lia.
Qed.

Lemma match_here_sound (its : list Re.item) (s : string) (n : nat) :
  Re.match_here its s = Some n -> conforms its (take n s).
Proof.
  revert s n. induction its as [|it rest IH]; intros s n H; simpl in H.
  - injection H as <-. destruct s; reflexivity.
  - set (avail := span (Re.cls it) s) in *.
    set (nmax := match Re.hi it with
                 | Some h => Nat.min h avail
                 | None => avail
                 end) in *.
    destruct (Re.lo it <=? nmax)%nat eqn:L; [|discriminate].
    apply Nat.leb_le in L.
    destruct (backtrack_sound _ _ _ _ _ L H) as (j & m & Hj & Hk & ->).
    assert (Hja : (j <= avail)%nat).
    { subst nmax. destruct (Re.hi it); lia. }
    simpl. exists (take j s), (take m (drop j s)).
    split; [apply take_add|].
    split; [apply forallb_take_le_span; exact Hja|].
    rewrite (length_take_le_span _ _ _ Hja).
    split; [lia|]. split.
    + intros h Hh. subst nmax. rewrite Hh in Hj. lia.
    + apply IH. exact Hk.
Qed.

Lemma search_sound (its : list Re.item) (s m : string) :
  Re.search its s = Some m -> conforms its m.
Proof.
  induction s as [|c s IH]; simpl.
  - destruct (Re.match_here its "") as [n|] eqn:E; [|discriminate].
    intros [= <-]. apply (match_here_sound _ _ _ E).
  - destruct (Re.match_here its (String c s)) as [n|] eqn:E.
    + intros [= <-]. apply (match_here_sound _ _ _ E).
    + exact IH.
Qed.

(** a block of exactly [n] characters of a class *)
Lemma conforms_exact (p : ascii -> bool) (n : nat) (rest : list Re.item)
    (m : string) :
  conforms (Re.rep p n n :: rest) m ->
  exists a b, m = a ++ b /\ forallb_str p a = true
              /\ String.length a = n /\ conforms rest b.
Proof.
  simpl. intros (a & b & -> & Ha & Hlo & Hhi & Hr).
  exists a, b. repeat split; auto. specialize (Hhi n eq_refl). lia.
Qed.

Lemma conforms_chr (c : ascii) (rest : list Re.item) (m : string) :
  conforms (Re.chr c :: rest) m ->
  exists b, m = String c b /\ conforms rest b.
Proof.
  simpl. intros (a & b & -> & Ha & Hlo & Hhi & Hr).
  specialize (Hhi 1%nat eq_refl).
  destruct a as [|x [|y a]]; simpl in *; try lia.
  rewrite andb_true_r in Ha. apply Ascii.eqb_eq in Ha. subst x.
  exists b. auto.
Qed.

Lemma conforms_one (p : ascii -> bool) (rest : list Re.item) (m : string) :
  conforms (Re.one p :: rest) m ->
  exists c b, m = String c b /\ p c = true /\ conforms rest b.
Proof.
  simpl. intros (a & b & -> & Ha & Hlo & Hhi & Hr).
  specialize (Hhi 1%nat eq_refl).
  destruct a as [|x [|y a]]; simpl in *; try lia.
  rewrite andb_true_r in Ha. exists x, b. auto.
Qed.

Lemma conforms_lit (s : string) (rest : list Re.item) (m : string) :
  conforms (Re.lit s ++ rest)%list m ->
  exists b, m = s ++ b /\ conforms rest b.
Proof.
  revert m. induction s as [|c s IH]; intros m H; simpl in H.
  - exists m. auto.
  - change (conforms (Re.chr c :: (Re.lit s ++ rest)%list) m) in H.
    destruct (conforms_chr _ _ _ H) as (b & -> & Hb).
    destruct (IH _ Hb) as (b' & -> & Hb'). exists b'. auto.
Qed.

End RegexFacts.

Section YearFacts.
Import Extractor.

Lemma split_head (sep : ascii) (a b : string) :
  existsb_str (fun d => (d =? sep)%char) a = false ->
  hd "" (split sep (a ++ String sep b)) = a.
Proof.
  induction a as [|c a IH]; simpl; intros H.
  - rewrite Ascii.eqb_refl. reflexivity.
  - apply orb_false_iff in H. destruct H as [Hc Ha]. rewrite Hc.
    specialize (IH Ha).
    destruct (split sep (a ++ String sep b)); simpl in *; congruence.
Qed.

Lemma digits_no_dash (a : string) :
  forallb_str is_digit a = true ->
  existsb_str (fun d => (d =? "-")%char) a = false.
Proof.
  induction a as [|c a IH]; simpl; [reflexivity|].
  intros H. apply andb_true_iff in H. destruct H as [Hc Ha].
  rewrite (proj1 (digit_not_sign c Hc)), (IH Ha). reflexivity.
Qed.

Lemma forallb_str_app (p : ascii -> bool) (a b : string) :
  forallb_str p (a ++ b) = forallb_str p a && forallb_str p b.
Proof.
  induction a as [|c a IH]; simpl; [reflexivity|].
  rewrite IH, andb_assoc. reflexivity.
Qed.

(** the first component of a period that starts with digits is a number *)
Lemma int_of_year_prefix (a rest : string) (y : string) :
  forallb_str is_digit a = true -> a <> "" ->
  y = a \/ y = a ++ String "-" rest ->
  exists n, py_int (hd "" (split "-" y)) = Ok n.
Proof.
  intros Ha Hne [->| ->].
  - rewrite split_no_sep.
    + simpl. rewrite (py_int_digits a Ha Hne). eauto.
    + rewrite contains_char. apply digits_no_dash. exact Ha.
  - rewrite split_head by (apply digits_no_dash; exact Ha).
    rewrite (py_int_digits a Ha Hne). eauto.
Qed.

Lemma uint_digits (u : Decimal.uint) :
  forallb_str is_digit (NilEmpty.string_of_uint u) = true.
Proof. induction u; simpl; auto. Qed.

Lemma str_of_Z_digits (z : Z) :
  0 <= z ->
  forallb_str is_digit (str_of_Z z) = true /\ str_of_Z z <> "".
Proof.
  intros Hz. unfold str_of_Z. destruct z as [|p|p]; [| |lia].
  - split; [reflexivity | discriminate].
  - simpl. split; [apply uint_digits|].
    pose proof (DecimalPos.Unsigned.to_uint_nonnil p) as Hn.
    destruct (Pos.to_uint p); [congruence | discriminate..].
Qed.

Lemma append_empty_r (a : string) : a ++ "" = a.
Proof. induction a as [|c a IH]; simpl; congruence. Qed.

Lemma substr_app (a b : string) :
  substr 0 (String.length a) (a ++ b) = a.
Proof. unfold substr. simpl. apply take_app_length. Qed.

(** [int(self.year.split('-')[0])] never raises *)
Lemma year_num_ok (doc : document) : exists n, year_num doc = Ok n.
Proof.
  unfold year_num, year, _extract_year_from_filename.
  destruct (Re.search _ (basename (pdf_path doc))) as [m|] eqn:E1.
  { apply search_sound in E1.
    destruct (conforms_chr _ _ _ E1) as (b1 & -> & H1).
    destruct (conforms_exact _ _ _ _ H1) as (a & b2 & -> & Ha & La & H2).
    destruct a as [|c1 [|c2 [|c3 a]]]; simpl in La; try lia.
    simpl in Ha. apply andb_true_iff in Ha. destruct Ha as [Hc1 Hc2].
    rewrite andb_true_r in Hc2.
    apply (int_of_year_prefix (String "2" (String "0" (String c1 (String c2 ""))))
             ("20" ++ substr 4 2 (String "_" (String c1 (String c2 "") ++ b2)))).
    - simpl. rewrite Hc1, Hc2. reflexivity.
    - discriminate.
    - right. reflexivity. }
  destruct (Re.search [Re.rep is_digit 4 4] (basename (pdf_path doc)))
    as [m|] eqn:E2.
  { apply search_sound in E2.
    destruct (conforms_exact _ _ _ _ E2) as (a & b & -> & Ha & La & Hb).
    change (b = "") in Hb. rewrite Hb, append_empty_r.
    apply (int_of_year_prefix a "").
    - exact Ha.
    - destruct a; [simpl in La; lia | discriminate].
    - left. reflexivity. }
  set (from_content := catch _ _).
  assert (Hfc : forall y, from_content = Some y ->
             exists a rest, forallb_str is_digit a = true /\ a <> ""
                            /\ y = a ++ String "-" rest).
  { subst from_content. intros y.
    destruct (reader doc) as [pages|]; cbn [bind catch]; [|discriminate].
    destruct (pages_text (firstn 10 pages)) as [text|]; cbn [bind catch];
      [|discriminate].
    destruct (Re.search _ text) as [m|] eqn:E3; cbn [bind catch];
      [|discriminate].
    intros [= <-]. apply search_sound in E3.
    destruct (conforms_lit _ _ _ E3) as (b & -> & Hb).
    destruct (conforms_exact _ _ _ _ Hb) as (a & b2 & -> & Ha & La & H2).
    exists a, ("20" ++ substr 19 2 ("Annual Report " ++ a ++ b2)).
    split; [exact Ha|]. split; [destruct a; [simpl in La; lia|discriminate]|].
    f_equal.
    destruct a as [|c1 [|c2 [|c3 [|c4 [|c5 a]]]]]; simpl in La; try lia.
    reflexivity. }
  destruct from_content as [y|].
  - destruct (Hfc y eq_refl) as (a & rest & Ha & Hne & ->).
    apply (int_of_year_prefix a rest); auto.
  - destruct (str_of_Z_digits (Z.pos (current_year doc) - 1)) as [Hd Hne];
      [lia|].
    eapply int_of_year_prefix; [exact Hd | exact Hne | right; reflexivity].
Qed.

End YearFacts.

(* ------------------------------------------------------------------ *)
(** ** The numeric fields of the record *)

Section NumericFields.
Import Extractor ExtractorSpec.

Lemma year_num_eq (doc : document) : year_num doc = Ok (year_of doc).
Proof.
  unfold year_of. destruct (year_num_ok doc) as [n ->]. reflexivity.
Qed.

Lemma placeholder_eq (doc : document) (base step : Z) :
  placeholder doc base step = Ok (placeholder_value doc base step).
Proof. unfold placeholder. rewrite year_num_eq. reflexivity. Qed.

Lemma wf_rows (doc : document) (keyword : string) (lattice : bool) :
  well_formed doc ->
  Forall (fun row => row <> [])
    (all_rows (_extract_tables_from_page doc keyword lattice)).
Proof.
  intros Hwf. apply Forall_forall. intros row Hrow.
  unfold all_rows in Hrow. apply in_flat_map in Hrow.
  destruct Hrow as (t & Ht & Hrow).
  destruct (extract_tables_origin _ _ _ _ Ht) as (page & fl & ts & Hc & Hin).
  exact (Hwf page fl ts t row Hc Hin Hrow).
Qed.

Lemma scan_labelled_total (label : string -> bool) (accept : Q -> bool)
    (rows : list (list string)) :
  Forall (fun row => row <> []) rows ->
  exists o, scan_labelled label accept rows = Ok o.
Proof.
  induction 1 as [|row rows Hrow _ IH]; simpl; [eauto|].
  destruct row as [|c row]; [congruence|]. cbn [row0 bind].
  destruct (label (lower c)); [|exact IH].
  destruct (first_in_columns accept (c :: row)); [eauto | exact IH].
Qed.

Lemma opex_labelled_total (rows : list (list string)) (p : opex_parts) :
  Forall (fun row => row <> []) rows ->
  exists q, opex_labelled rows p = Ok q.
Proof.
  intros H. revert p.
  induction H as [|row rows Hrow _ IH]; intros p; simpl; [eauto|].
  destruct row as [|c row]; [congruence|]. cbn [row0 bind]. apply IH.
Qed.

Lemma found_ok (o : option Q) : found (Ok o) = o.
Proof. destruct o; reflexivity. Qed.

(** under [well_formed] the extraction strategies return *)
Lemma find_total_revenue_total (doc : document) :
  well_formed doc -> exists o, find_total_revenue doc = Ok o.
Proof.
  intros Hwf. unfold find_total_revenue.
  destruct (scan_labelled_total is_revenue_label nonzero
              (income_statement_rows doc)) as [o ->].
  { apply wf_rows. exact Hwf. }
  cbn [bind]. destruct o; [eauto|].
  destruct (scan_keywords _ _ _ _ _); eauto.
Qed.

Lemma find_cost_of_sales_total (doc : document) :
  well_formed doc -> exists o, find_cost_of_sales doc = Ok o.
Proof.
  intros Hwf. unfold find_cost_of_sales.
  destruct (scan_labelled_total (contains "cost of sales") nonzero
              (income_statement_rows doc)) as [o ->].
  { apply wf_rows. exact Hwf. }
  cbn [bind]. destruct o; eauto.
Qed.

Lemma find_gross_profit_total (doc : document) :
  well_formed doc -> exists o, find_gross_profit doc = Ok o.
Proof.
  intros Hwf. unfold find_gross_profit.
  destruct (scan_labelled_total (contains "gross profit") nonzero
              (income_statement_rows doc)) as [o ->].
  { apply wf_rows. exact Hwf. }
  cbn [bind]. destruct o; eauto.
Qed.

Lemma find_eps_total (doc : document) :
  well_formed doc -> exists o, find_eps doc = Ok o.
Proof.
  intros Hwf. unfold find_eps.
  destruct (scan_labelled_total is_eps_label small_positive
              (income_statement_rows doc)) as [o ->].
  { apply wf_rows. exact Hwf. }
  cbn [bind]. destruct o; [eauto|].
  destruct (scan_keywords _ _ _ _ _); eauto.
Qed.

Lemma find_operating_expenses_total (doc : document) :
  well_formed doc -> exists p, find_operating_expenses doc = Ok p.
Proof.
  intros Hwf. unfold find_operating_expenses.
  destruct (opex_labelled_total (income_statement_rows doc)
              {| selling_expenses := None; admin_expenses := None;
                 other_expenses := None |}) as [p ->].
  { apply wf_rows. exact Hwf. }
  cbn [bind]. destruct (negb _); eauto.
Qed.

(** the steps of the pass, one by one *)

Lemma revenue_step (doc : document) (d : data) :
  well_formed doc ->
  _extract_total_revenue doc d
  = Ok (set_money total_revenue (expected_revenue doc) "LKR" d).
Proof.
  intros Hwf. unfold _extract_total_revenue, expected_revenue.
  destruct (find_total_revenue_total doc Hwf) as [o ->].
  rewrite found_ok. cbn [bind]. destruct o; [reflexivity|].
  rewrite placeholder_eq. reflexivity.
Qed.

Lemma cost_of_sales_step (doc : document) (d : data) (rev : Q) :
  well_formed doc ->
  num d total_revenue = Some rev ->
  exists c,
    _extract_cost_of_sales doc d
    = Ok (set_money cost_of_sales
            (or_default (found (find_cost_of_sales doc))
               (inject_Z (py_trunc (rev * 0.75)))) c d).
Proof.
  intros Hwf Hr. unfold _extract_cost_of_sales.
  destruct (find_cost_of_sales_total doc Hwf) as [o ->].
  rewrite found_ok. cbn [bind]. destruct o; [eauto|].
  rewrite Hr. eauto.
Qed.

Lemma gross_profit_step (doc : document) (d : data) (rev cos : Q) :
  well_formed doc ->
  num d total_revenue = Some rev ->
  num d cost_of_sales = Some cos ->
  exists c,
    _extract_gross_profit doc d
    = Ok (set_money gross_profit
            (or_default (found (find_gross_profit doc)) (rev - cos)) c d).
Proof.
  intros Hwf Hr Hc. unfold _extract_gross_profit.
  destruct (find_gross_profit_total doc Hwf) as [o ->].
  rewrite found_ok. cbn [bind]. destruct o; [eauto|].
  rewrite Hr, Hc. eauto.
Qed.

Lemma margin_step (doc : document) (d : data) (rev gp : Q) :
  num d total_revenue = Some rev ->
  num d gross_profit = Some gp ->
  _calculate_gross_profit_margin doc d
  = Ok (set_num gross_profit_margin
          (if Qeq_bool rev 0
           then round2 (20 + inject_Z (year_of doc - 2019) * -0.5)
           else round2 (gp / rev * 100)) d).
Proof.
  intros Hr Hg. unfold _calculate_gross_profit_margin.
  rewrite Hr, Hg, year_num_eq. destruct (Qeq_bool rev 0); reflexivity.
Qed.


Lemma eps_step (doc : document) (d : data) :
  well_formed doc ->
  _extract_eps doc d = Ok (set_num earnings_per_share (expected_eps doc) d).
Proof.
  intros Hwf. unfold _extract_eps, expected_eps.
  destruct (find_eps_total doc Hwf) as [o ->].
  rewrite found_ok. cbn [bind]. destruct o; [reflexivity|].
  rewrite year_num_eq. reflexivity.
Qed.

Lemma nav_step (doc : document) (d : data) :
  _extract_net_asset_per_share doc d
  = Ok (set_num net_asset_per_share (expected_net_asset_per_share doc) d).
Proof.
  unfold _extract_net_asset_per_share, expected_net_asset_per_share.
  destruct (find_net_asset_per_share doc); [reflexivity|].
  rewrite year_num_eq. reflexivity.
Qed.

Lemma rights_step (doc : document) (d : data) :
  exists r, _extract_right_issues doc d = Ok (set_right_issues r d).
Proof. unfold _extract_right_issues. destruct (first_some _ _); eauto. Qed.

End NumericFields.

Section RecordComplete.
Import Extractor ExtractorSpec.

Lemma opex_step (doc : document) (d : data) (rev : Q) :
  well_formed doc ->
  num d total_revenue = Some rev ->
  exists d',
    _extract_operating_expenses doc d = Ok d'
    /\ forall k,
         num d' k
         = match k with
           | operating_expenses =>
               Some (match components (parts_found doc) with
                     | [] => inject_Z (py_trunc (rev * 0.18))
                     | l => sum_Q l
                     end)
           | selling_distribution_expenses =>
               match part_kept (selling_expenses (parts_found doc)) with
               | Some q => Some q
               | None => num d k
               end
           | administrative_expenses =>
               match part_kept (admin_expenses (parts_found doc)) with
               | Some q => Some q
               | None => num d k
               end
           | other_operating_expenses =>
               match part_kept (other_expenses (parts_found doc)) with
               | Some q => Some q
               | None => num d k
               end
           | _ => num d k
           end.
Proof.
  intros Hwf Hr. unfold _extract_operating_expenses, parts_found.
  destruct (find_operating_expenses_total doc Hwf) as [[s a o] ->].
  cbn [bind]. unfold keep_part, components, part_kept, truthy.
  cbn [selling_expenses admin_expenses other_expenses flat_map fst snd].
  destruct s as [qs|]; [destruct (nonzero qs)|];
    (destruct a as [qa|]; [destruct (nonzero qa)|]);
    (destruct o as [qo|]; [destruct (nonzero qo)|]);
    cbn [app fst snd num set_num set_money set_currency];
    rewrite ?Hr;
    (eexists; split; [reflexivity|]; intros k; destruct k; reflexivity).
Qed.


End RecordComplete.

(* ------------------------------------------------------------------ *)
(** ** The top-shareholders resolver *)

Section Dicts.

Lemma dict_set_Forall {V : Type} (P : string * V -> Prop) (k : string) (v : V)
    (d : list (string * V)) :
  P (k, v) -> Forall P d -> Forall P (dict_set String.eqb k v d).
Proof.
  intros Hk. induction 1 as [|[k' v'] d Hx Hd IH]; simpl.
  - repeat constructor. exact Hk.
  - destruct (k' =? k); constructor; auto.
Qed.

Lemma dict_set_keys {V : Type} (k : string) (v : V) (d : list (string * V)) :
  map fst (dict_set String.eqb k v d) = map fst d
  \/ (~ In k (map fst d)
      /\ map fst (dict_set String.eqb k v d) = (map fst d ++ [k])%list).
Proof.
  induction d as [|[k' v'] d IH]; simpl.
  - right. split; [tauto | reflexivity].
  - destruct (k' =? k) eqn:E.
    + apply String.eqb_eq in E. subst k'. left. reflexivity.
    + apply String.eqb_neq in E. simpl.
      destruct IH as [IH|[Hn IH]]; rewrite IH.
      * left. reflexivity.
      * right. split; [|reflexivity]. intros [H|H]; [congruence | tauto].
Qed.

Lemma dict_set_NoDup {V : Type} (k : string) (v : V) (d : list (string * V)) :
  NoDup (map fst d) -> NoDup (map fst (dict_set String.eqb k v d)).
Proof.
  intros H. destruct (dict_set_keys k v d) as [->|[Hn ->]]; [exact H|].
  apply NoDup_app; [exact H | repeat constructor; simpl; tauto |].
  intros x Hx [<-|[]]. contradiction.
Qed.

End Dicts.

Section Shareholders.
Import Extractor ExtractorSpec.

Lemma valid_pct_range (p : Q) : valid_pct p = true -> in_range p.
Proof.
  unfold valid_pct, small_positive. intros H.
  apply andb_true_iff in H. destruct H as [H1 H2].
  apply negb_true_iff in H1. apply negb_true_iff in H2. split.
  - apply Qnot_le_lt. intros L. apply Qle_bool_iff in L. congruence.
  - apply Qnot_le_lt. intros L. apply Qle_bool_iff in L. congruence.
Qed.

Lemma keep_valid_range (name : string) (pct shares : option Q)
    (n : string) (p : Q) (s : option Q) :
  keep_valid name pct shares = Some (n, p, s) -> in_range p.
Proof.
  unfold keep_valid. destruct pct as [q|]; [|discriminate].
  destruct (valid_pct q) eqn:E; [|discriminate].
  intros [= _ <- _]. apply valid_pct_range. exact E.
Qed.

Lemma no_holders_ok : holders_ok no_holders.
Proof. split; constructor. Qed.

Lemma add_holder_ok (name : string) (pct : Q) (shares : option Q) (h : holders) :
  in_range pct -> holders_ok h -> holders_ok (add_holder name pct shares h).
Proof.
  intros Hp [Hf Hn]. split; simpl.
  - apply dict_set_Forall; assumption.
  - apply dict_set_NoDup. exact Hn.
Qed.

Lemma gather_ok {R : Type}
    (step : R -> result (option (string * Q * option Q)))
    (rows : list R) (h h' : holders) :
  (forall r n p s, step r = Ok (Some (n, p, s)) -> in_range p) ->
  holders_ok h -> gather step rows h = Ok h' -> holders_ok h'.
Proof.
  intros Hstep. revert h.
  induction rows as [|r rows IH]; intros h Hh H; simpl in H.
  - injection H as <-. exact Hh.
  - destruct (step r) as [o|] eqn:E; cbn [bind] in H; [|discriminate].
    eapply IH; [|exact H].
    destruct o as [[[n p] s]|]; [|exact Hh].
    apply add_holder_ok; [|exact Hh]. eapply Hstep. exact E.
Qed.

Lemma firstn_Sorted {A : Type} (R : A -> A -> Prop) (n : nat) (l : list A) :
  Sorted R l -> Sorted R (firstn n l).
Proof.
  intros H. revert n. induction H as [|x l Hs IH Hhd]; intros n.
  - destruct n; constructor.
  - destruct n as [|n]; simpl; [constructor|].
    constructor; [apply IH|].
    destruct Hhd as [|y l' Hy]; destruct n; simpl; constructor. exact Hy.
Qed.

Lemma map_Sorted {A B : Type} (R : A -> A -> Prop) (R' : B -> B -> Prop)
    (f : A -> B) (l : list A) :
  (forall a b, R a b -> R' (f a) (f b)) ->
  Sorted R l -> Sorted R' (map f l).
Proof.
  intros Hf. induction 1 as [|x l Hs IH Hhd]; simpl; constructor; auto.
  destruct Hhd; simpl; constructor; auto.
Qed.

Lemma firstn_Forall {A : Type} (P : A -> Prop) (n : nat) (l : list A) :
  Forall P l -> Forall P (firstn n l).
Proof.
  intros H. revert n. induction H; intros [|n]; simpl; constructor; auto.
Qed.

Lemma top_20_good (h : holders) :
  Forall (fun e => in_range (snd e)) (fst h) -> good_top (top_20 h).
Proof.
  intros Hf. unfold good_top, descending, top_20. split; [|split].
  - apply Forall_map. apply firstn_Forall.
    eapply Permutation_Forall; [|exact Hf].
    symmetry. apply sorted_desc_perm.
  - eapply map_Sorted; [|apply firstn_Sorted, sorted_desc_sorted].
    intros a b Hab. exact Hab.
  - rewrite length_map. apply firstn_le_length.
Qed.

Lemma accept_spec (h : holders) (top : list (string * holder)) :
  holders_ok h -> accept h = Some top -> from_five_valid top.
Proof.
  intros [Hf Hn]. unfold accept.
  destruct (5 <=? length (fst h))%nat eqn:E; [|discriminate].
  intros [= <-]. exists h. apply Nat.leb_le in E. auto.
Qed.

Lemma from_five_valid_good (top : list (string * holder)) :
  from_five_valid top -> good_top top.
Proof. intros (h & _ & Hf & _ & ->). apply top_20_good. exact Hf. Qed.

(** gathering from no holder at all, then accepting *)
Lemma gather_accept {R : Type}
    (step : R -> result (option (string * Q * option Q)))
    (rows : list R) (o : option (list (string * holder))) :
  (forall r n p s, step r = Ok (Some (n, p, s)) -> in_range p) ->
  (h <- gather step rows no_holders ;; Ok (accept h)) = Ok o ->
  forall top, o = Some top -> from_five_valid top.
Proof.
  intros Hstep H top ->.
  destruct (gather step rows no_holders) as [h|] eqn:E; cbn [bind] in H;
    [|discriminate].
  injection H as H. eapply accept_spec; [|exact H].
  eapply gather_ok; [exact Hstep | apply no_holders_ok | exact E].
Qed.

End Shareholders.

Section TableResults.
Import Extractor ExtractorSpec.

(** a row step ends with [keep_valid]: what it keeps is in range *)
Ltac row_step H :=
  repeat match type of H with
         | context [bind ?m _] =>
             destruct m; cbn [bind] in H; try discriminate
         | context [if ?b then _ else _] => destruct b; try discriminate
         | context [match ?x with _ => _ end] => destruct x; try discriminate
         end;
  injection H as H; eapply keep_valid_range; exact H.

Lemma standard_row_range (pct_col : nat) (share_col : option nat)
    (row : list string) (n : string) (p : Q) (s : option Q) :
  standard_row pct_col share_col row = Ok (Some (n, p, s)) -> in_range p.
Proof. unfold standard_row, opt_clean. intros H. row_step H. Qed.

Lemma stream_row_range (name_col pct_col : nat) (share_col : option nat)
    (row : list string) (n : string) (p : Q) (s : option Q) :
  stream_row name_col pct_col share_col row = Ok (Some (n, p, s)) ->
  in_range p.
Proof. unfold stream_row, opt_clean. intros H. row_step H. Qed.

Lemma tabula_row_range (c : tabula_cols) (row : list tcell)
    (n : string) (p : Q) (s : option Q) :
  tabula_row c row = Ok (Some (n, p, s)) -> in_range p.
Proof. unfold tabula_row. intros H. row_step H. Qed.

Lemma grid_row_range (pct_col shares_col : option nat) (row : list string)
    (n : string) (p : Q) (s : option Q) :
  grid_row pct_col shares_col row = Ok (Some (n, p, s)) -> in_range p.
Proof. unfold grid_row, opt_clean. intros H. row_step H. Qed.

Lemma text_match_range (m : string * string * string)
    (n : string) (p : Q) (s : option Q) :
  text_match m = Ok (Some (n, p, s)) -> in_range p.
Proof. unfold text_match. intros H. row_step H. Qed.

Lemma standard_table_spec (t : table) (top : list (string * holder)) :
  standard_table t = Ok (Some top) -> from_five_valid top.
Proof.
  unfold standard_table.
  destruct (iloc (df t) 0) as [first_row|]; cbn [bind]; [|discriminate].
  destruct (standard_pct_cols _ _) as [|pct_col rest]; [discriminate|].
  intros H. eapply gather_accept; [|exact H|reflexivity].
  intros r n p s. apply standard_row_range.
Qed.

Lemma stream_table_spec (t : table) (top : list (string * holder)) :
  stream_table t = Ok (Some top) -> from_five_valid top.
Proof.
  unfold stream_table.
  destruct (_ && _); [|discriminate].
  destruct (match s_pct _ with Some i => Some i | None => _ end)
    as [pct_col|]; [|discriminate].
  intros H. eapply gather_accept; [|exact H|reflexivity].
  intros r n p s. apply stream_row_range.
Qed.

Lemma tabula_frame_spec (f : tframe) (top : list (string * holder)) :
  tabula_frame f = Ok (Some top) -> from_five_valid top.
Proof.
  unfold tabula_frame.
  destruct (5 <=? _)%nat; [|discriminate].
  destruct (any_in _ _); [|discriminate].
  intros H. eapply gather_accept; [|exact H|reflexivity].
  intros r n p s. apply tabula_row_range.
Qed.

Lemma grid_table_spec (t : table) (top : list (string * holder)) :
  grid_table t = Ok (Some top) -> from_five_valid top.
Proof.
  unfold grid_table.
  destruct (first_column (df t)) as [first_col|]; cbn [bind]; [|discriminate].
  destruct (existsb _ _); [discriminate|].
  destruct (any_in _ _); [|discriminate].
  destruct (grid_cols (df t)) as [pct_col shares_col].
  destruct (iloc (df t) 0) as [first_row|]; cbn [bind]; [|discriminate].
  intros H. eapply gather_accept; [|exact H|reflexivity].
  intros r n p s. apply grid_row_range.
Qed.

Lemma first_accepted_spec {A B : Type} (P : B -> Prop)
    (f : A -> result (option B)) (l : list A) (b : B) :
  (forall x y, f x = Ok (Some y) -> P y) ->
  first_accepted f l = Ok (Some b) -> P b.
Proof.
  intros Hf. induction l as [|x l IH]; simpl; [discriminate|].
  destruct (f x) as [[y|]|] eqn:E; cbn [bind]; [| |discriminate].
  - intros [= <-]. eapply Hf. exact E.
  - exact IH.
Qed.

Lemma first_some_spec {A B : Type} (P : B -> Prop) (f : A -> option B)
    (l : list A) (b : B) :
  (forall x y, f x = Some y -> P y) -> first_some f l = Some b -> P b.
Proof.
  intros Hf. induction l as [|x l IH]; simpl; [discriminate|].
  destruct (f x) as [y|] eqn:E; [|exact IH].
  intros [= <-]. eapply Hf. exact E.
Qed.

Lemma grid_attempt_spec (doc : document) (page : nat)
    (cfg : flavor * nat * bool) (top : list (string * holder)) :
  grid_attempt doc page cfg = Some top -> from_five_valid top.
Proof.
  unfold grid_attempt. destruct cfg as [[fl tol] bg].
  destruct (camelot doc page fl (Some tol) (Some bg)) as [tables|];
    cbn [bind catch]; [|discriminate].
  destruct (first_accepted grid_table tables) as [o|] eqn:E;
    cbn [catch]; [|discriminate].
  intros ->. eapply first_accepted_spec; [|exact E]. apply grid_table_spec.
Qed.

Lemma text_attempt_spec (doc : document) (pages : list (result string))
    (page : nat) (top : list (string * holder)) :
  text_attempt doc pages page = Some top -> from_five_valid top.
Proof.
  unfold text_attempt.
  destruct (bind (iloc pages (page - 1)) (fun p => p)) as [text|];
    cbn [bind catch]; [|discriminate].
  destruct (_ =? ""); cbn [catch]; [discriminate|].
  destruct (findall_shareholders doc _) as [|m ms]; cbn [catch];
    [discriminate|].
  destruct (gather text_match (m :: ms) no_holders) as [h|] eqn:E;
    cbn [bind catch]; [|discriminate].
  intros H. eapply accept_spec; [|exact H].
  eapply gather_ok; [|apply no_holders_ok|exact E].
  intros r n p s. apply text_match_range.
Qed.

End TableResults.

Section LegacyPath.
Import Extractor ExtractorSpec.

Lemma starts_with_forallb (q : ascii -> bool) (p s : string) :
  forallb_str q s = true -> starts_with p s = true -> forallb_str q p = true.
Proof.
  revert s. induction p as [|a p IH]; intros s Hs H; [reflexivity|].
  destruct s as [|b s]; simpl in *; [discriminate|].
  apply andb_true_iff in H. destruct H as [E H].
  apply andb_true_iff in Hs. destruct Hs as [Hb Hs].
  apply Ascii.eqb_eq in E. subst b. rewrite Hb. simpl. eapply IH; eassumption.
Qed.

(** a text made of characters of a class holds no word that has a character
    outside the class *)
Lemma contains_forallb (q : ascii -> bool) (p s : string) :
  forallb_str q s = true -> forallb_str q p = false -> contains p s = false.
Proof.
  intros Hs Hp. destruct (contains p s) eqn:E; [|reflexivity].
  assert (H : forallb_str q p = true); [|congruence].
  clear Hp. induction s as [|c s IH]; simpl in E.
  - destruct (starts_with p "") eqn:S; [|discriminate].
    eapply starts_with_forallb; eassumption.
  - destruct (starts_with p (String c s)) eqn:S.
    + eapply starts_with_forallb; eassumption.
    + simpl in Hs. apply andb_true_iff in Hs. apply IH; tauto.
Qed.

Lemma lower_digits (s : string) :
  forallb_str is_digit s = true -> lower s = s.
Proof.
  unfold lower. induction s as [|c s IH]; simpl; [reflexivity|].
  intros H. apply andb_true_iff in H. destruct H as [Hc Hs].
  rewrite (IH Hs). f_equal.
  unfold lower_char, is_upper. unfold is_digit in Hc.
  apply andb_true_iff in Hc. destruct Hc as [_ Hc]. apply Nat.leb_le in Hc.
  destruct (65 <=? code c)%nat eqn:E; [|reflexivity].
  apply Nat.leb_le in E. lia.
Qed.

Lemma join_forallb (q : ascii -> bool) (l : list string) :
  q " "%char = true ->
  Forall (fun s => forallb_str q s = true) l ->
  forallb_str q (join " " l) = true.
Proof.
  intros Hsp. unfold join. induction 1 as [|x l Hx Hl IH]; [reflexivity|].
  destruct l as [|y l]; [exact Hx|].
  change (String.concat " " (x :: y :: l))
    with (x ++ " " ++ String.concat " " (y :: l)).
  rewrite !forallb_str_app, Hx, IH. simpl. rewrite Hsp. reflexivity.
Qed.

Lemma row_values_plain (rows : list (list string)) :
  forallb_str digit_or_space (join " " (row_values rows)) = true.
Proof.
  apply join_forallb; [reflexivity|].
  unfold row_values. apply Forall_map. apply Forall_forall. intros i _.
  destruct (str_of_Z_digits (Z.of_nat i)) as [Hd _]; [lia|].
  unfold str_of_nat. rewrite (lower_digits _ Hd).
  clear -Hd. induction (str_of_Z (Z.of_nat i)) as [|c s IH]; [reflexivity|].
  simpl in *. apply andb_true_iff in Hd. destruct Hd as [Hc Hs].
  unfold digit_or_space at 1. rewrite Hc, (IH Hs). reflexivity.
Qed.

(** the table of a 2022-23 page is never taken: the row labels that are
    searched for shareholder names are the row numbers *)
Lemma legacy_table_none (t : table) (o : option (list (string * holder))) :
  legacy_table t = Ok o -> o = None.
Proof.
  unfold legacy_table.
  destruct (first_column (df t)) as [first_col|]; cbn [bind]; [|discriminate].
  destruct (existsb _ first_col); [intros [= <-]; reflexivity|].
  destruct (5 <=? length (df t))%nat; [|intros [= <-]; reflexivity].
  destruct (iloc (df t) 0) as [hs|]; cbn [bind]; [|discriminate].
  pose proof (row_values_plain (df t)) as Hp.
  assert (Hno : forall p, forallb_str digit_or_space p = false ->
                          contains p (join " " (row_values (df t))) = false).
  { intros p. apply contains_forallb. exact Hp. }
  unfold any_in. cbn [existsb].
  rewrite !Hno by reflexivity. cbn [orb]. intros [= <-]. reflexivity.
Qed.

Lemma first_accepted_none {A B : Type} (f : A -> result (option B))
    (l : list A) (o : option B) :
  (forall x y, f x = Ok y -> y = None) ->
  first_accepted f l = Ok o -> o = None.
Proof.
  intros Hf. induction l as [|x l IH]; simpl; [intros [= <-]; reflexivity|].
  destruct (f x) as [y|] eqn:E; cbn [bind]; [|discriminate].
  rewrite (Hf _ _ E). exact IH.
Qed.

Lemma legacy_attempt_none (doc : document) (page : nat) (m : flavor * nat) :
  legacy_attempt doc page m = None.
Proof.
  unfold legacy_attempt.
  destruct (camelot doc page (fst m) (Some (snd m)) None) as [tables|];
    cbn [bind catch]; [|reflexivity].
  destruct (first_accepted legacy_table tables) as [o|] eqn:E;
    cbn [catch]; [|reflexivity].
  eapply first_accepted_none; [|exact E]. apply legacy_table_none.
Qed.

Lemma first_some_none {A B : Type} (f : A -> option B) (l : list A) :
  (forall x, f x = None) -> first_some f l = None.
Proof.
  intros Hf. induction l as [|x l IH]; simpl; [reflexivity|].
  rewrite Hf. exact IH.
Qed.

Lemma extraction_2022_23_none (doc : document)
    (o : option (list (string * holder))) :
  extraction_2022_23 doc = Ok o -> o = None.
Proof.
  unfold extraction_2022_23.
  destruct (reader doc) as [pages|]; cbn [bind]; [|discriminate].
  destruct (shareholder_pages_from 0 pages) as [ps|]; cbn [bind];
    [|discriminate].
  intros [= <-]. apply first_some_none. intros page.
  exact (first_some_none _ extraction_methods (legacy_attempt_none doc page)).
Qed.

End LegacyPath.

Section Resolver.
Import Extractor ExtractorSpec.

Lemma hard_coded_good : good_top hard_coded_shareholders.
Proof.
  unfold good_top, descending. split; [|split].
  - repeat constructor.
  - repeat constructor; simpl; unfold Qle; simpl; lia.
  - simpl. lia.
Qed.

Lemma placeholder_good : good_top placeholder_shareholders.
Proof.
  unfold good_top, descending. split; [|split].
  - repeat constructor.
  - repeat constructor; vm_compute; discriminate.
  - simpl. lia.
Qed.

Lemma standard_extraction_spec (doc : document) (d d' : data) :
  standard_extraction doc d = Ok d' ->
  exists top,
    d' = set_top_shareholders top d
    /\ (from_five_valid top \/ top = placeholder_shareholders).
Proof.
  unfold standard_extraction.
  destruct (first_accepted standard_table _) as [[top|]|] eqn:E1;
    cbn [bind]; [| |discriminate].
  - intros [= <-]. exists top. split; [reflexivity|]. left.
    eapply first_accepted_spec; [|exact E1]. apply standard_table_spec.
  - destruct (first_accepted stream_table _) as [[top|]|] eqn:E2;
      cbn [bind]; [| |discriminate].
    + intros [= <-]. exists top. split; [reflexivity|]. left.
      eapply first_accepted_spec; [|exact E2]. apply stream_table_spec.
    + intros [= <-]. eauto.
Qed.

Lemma extraction_2023_24_spec (doc : document) (d d' : data) :
  extraction_2023_24 doc d = Ok d' ->
  exists top,
    d' = set_top_shareholders top d
    /\ (from_five_valid top \/ top = hard_coded_shareholders).
Proof.
  unfold extraction_2023_24.
  destruct (reader doc) as [pages|]; cbn [bind]; [|discriminate].
  destruct (find_shareholders_page pages 0) as [page|]; cbn [bind];
    [|discriminate].
  set (found := match page with Some _ => _ | None => None end).
  assert (Hf : forall top, found = Some top -> from_five_valid top).
  { subst found. intros top. destruct page as [page|]; [|discriminate].
    unfold or_else.
    destruct (catch _ _) as [t1|] eqn:E1.
    - intros [= <-]. revert E1.
      destruct (tabula_page doc page) as [tables|]; cbn [bind catch];
        [|discriminate].
      destruct (first_accepted tabula_frame tables) as [o|] eqn:E;
        cbn [catch]; [|discriminate].
      intros ->. eapply first_accepted_spec; [|exact E].
      apply tabula_frame_spec.
    - destruct (first_some (grid_attempt doc page) camelot_grid)
        as [t2|] eqn:E2.
      + intros [= <-]. eapply first_some_spec; [|exact E2].
        intros x y. apply grid_attempt_spec.
      + apply text_attempt_spec. }
  destruct found as [top|]; intros [= <-]; eauto.
Qed.

(** what the resolver stores, whatever the report *)
Lemma top_shareholders_spec (doc : document) (d d' : data) :
  _extract_top_shareholders doc d = Ok d' ->
  exists top,
    d' = set_top_shareholders top d
    /\ (from_five_valid top
        \/ top = hard_coded_shareholders
        \/ top = placeholder_shareholders).
Proof.
  unfold _extract_top_shareholders.
  destruct (_ || _).
  - intros H. destruct (extraction_2023_24_spec _ _ _ H) as (top & -> & Ht).
    exists top. tauto.
  - set (special := if _ || _ then _ else _).
    assert (Hs : forall o, special = Ok o -> o = None).
    { subst special. intros o. destruct (_ || _).
      - apply extraction_2022_23_none.
      - intros [= <-]. reflexivity. }
    destruct special as [o|]; cbn [bind]; [|discriminate].
    rewrite (Hs o eq_refl).
    intros H. destruct (standard_extraction_spec _ _ _ H) as (top & -> & Ht).
    exists top. tauto.
Qed.

Lemma stored_top_good (top : list (string * holder)) :
  from_five_valid top
  \/ top = hard_coded_shareholders
  \/ top = placeholder_shareholders ->
  good_top top.
Proof.
  intros [H|[->| ->]].
  - apply from_five_valid_good. exact H.
  - apply hard_coded_good.
  - apply placeholder_good.
Qed.

End Resolver.

(* ------------------------------------------------------------------ *)
(** ** The whole pass *)

Section WholePass.
Import Extractor ExtractorSpec.

Lemma all_metrics_unfold (doc : document) :
  extract_all_metrics doc
  = attempt (_extract_top_shareholders doc) (before_shareholders doc).
Proof. reflexivity. Qed.

(** the shareholders resolver leaves the numeric fields as they are *)
Lemma attempt_shareholders_num (doc : document) (d : data) (k : metric) :
  num (attempt (_extract_top_shareholders doc) d) k = num d k.
Proof.
  unfold attempt.
  destruct (_extract_top_shareholders doc d) as [d'|] eqn:E; [|reflexivity].
  destruct (top_shareholders_spec _ _ _ E) as (top & -> & _). reflexivity.
Qed.

Lemma attempt_rights_num (doc : document) (d : data) (k : metric) :
  num (attempt (_extract_right_issues doc) d) k = num d k.
Proof.
  unfold attempt. destruct (rights_step doc d) as [r ->]. reflexivity.
Qed.


(** under [well_formed] every numeric key holds its expected value *)
Lemma all_metrics_expected (doc : document) :
  well_formed doc ->
  forall k, num (extract_all_metrics doc) k = expected doc k.
Proof.
  intros Hwf k. rewrite all_metrics_unfold, attempt_shareholders_num.
  unfold before_shareholders. rewrite attempt_rights_num.
  unfold attempt at 1. rewrite nav_step. cbn [catch].
  unfold attempt at 1. rewrite (eps_step _ _ Hwf). cbn [catch].
  unfold attempt at 5. rewrite (revenue_step _ _ Hwf). cbn [catch].
  set (d1 := set_money total_revenue _ _ _).
  assert (H1 : num d1 total_revenue = Some (expected_revenue doc))
    by apply num_set_money_same.
  unfold attempt at 4.
  destruct (cost_of_sales_step doc d1 _ Hwf H1) as [c2 ->]. cbn [catch].
  fold (expected_cost_of_sales doc).
  set (d2 := set_money cost_of_sales _ _ _).
  assert (H2r : num d2 total_revenue = Some (expected_revenue doc))
    by (subst d2; rewrite num_set_money_other; [exact H1|reflexivity]).
  assert (H2c : num d2 cost_of_sales = Some (expected_cost_of_sales doc))
    by apply num_set_money_same.
  unfold attempt at 3.
  destruct (opex_step doc d2 _ Hwf H2r) as (d3 & -> & H3). cbn [catch].
  fold (expected_operating_expenses doc) in H3.
  assert (H3r : num d3 total_revenue = Some (expected_revenue doc))
    by (rewrite H3; exact H2r).
  assert (H3c : num d3 cost_of_sales = Some (expected_cost_of_sales doc))
    by (rewrite H3; exact H2c).
  unfold attempt at 2.
  destruct (gross_profit_step doc d3 _ _ Hwf H3r H3c) as [c4 ->].
  cbn [catch]. fold (expected_gross_profit doc).
  set (d4 := set_money gross_profit _ _ _).
  assert (H4r : num d4 total_revenue = Some (expected_revenue doc))
    by (subst d4; rewrite num_set_money_other; [exact H3r|reflexivity]).
  assert (H4g : num d4 gross_profit = Some (expected_gross_profit doc))
    by apply num_set_money_same.
  unfold attempt. rewrite (margin_step doc d4 _ _ H4r H4g). cbn [catch].
  fold (expected_margin doc).
  subst d4. destruct k; cbn; rewrite ?H3; try reflexivity;
    subst d2 d1; cbn;
    repeat match goal with
           | |- context [part_kept ?x] => destruct (part_kept x)
           end; reflexivity.
Qed.



End WholePass.

Section StoredShareholders.
Import Extractor ExtractorSpec.

Ltac frame_step H :=
  repeat match type of H with
         | context [bind ?m _] =>
             destruct m; cbn [bind] in H; try discriminate
         | context [match ?x with _ => _ end] => destruct x; try discriminate
         end;
  injection H as <-; reflexivity.

Lemma attempt_keeps_top (step : data -> result data) (d : data) :
  (forall d', step d = Ok d' -> top_shareholders d' = top_shareholders d) ->
  top_shareholders (attempt step d) = top_shareholders d.
Proof.
  intros H. unfold attempt. destruct (step d) as [d'|] eqn:E; [|reflexivity].
  apply H. reflexivity.
Qed.

Lemma keep_part_top (k : metric) (v : option Q) (acc : list Q * data) :
  top_shareholders (snd (keep_part k v acc)) = top_shareholders (snd acc).
Proof.
  unfold keep_part. destruct (truthy v); [|reflexivity].
  destruct v; reflexivity.
Qed.

Lemma revenue_top (doc : document) (d d' : data) :
  _extract_total_revenue doc d = Ok d' ->
  top_shareholders d' = top_shareholders d.
Proof.
  intros H. unfold _extract_total_revenue, placeholder in H. frame_step H.
Qed.

Lemma cost_of_sales_top (doc : document) (d d' : data) :
  _extract_cost_of_sales doc d = Ok d' ->
  top_shareholders d' = top_shareholders d.
Proof.
  intros H. unfold _extract_cost_of_sales, placeholder in H. frame_step H.
Qed.

Lemma opex_top (doc : document) (d d' : data) :
  _extract_operating_expenses doc d = Ok d' ->
  top_shareholders d' = top_shareholders d.
Proof.
  intros H. unfold _extract_operating_expenses in H.
  destruct (find_operating_expenses doc) as [p|]; cbn [bind] in H;
    [|discriminate].
  set (acc := keep_part _ _ _) in H.
  assert (Ht : top_shareholders (snd acc) = top_shareholders d)
    by (subst acc; rewrite !keep_part_top; reflexivity).
  destruct acc as [components d3]. simpl in Ht. rewrite <- Ht.
  unfold placeholder in H. frame_step H.
Qed.

Lemma gross_profit_top (doc : document) (d d' : data) :
  _extract_gross_profit doc d = Ok d' ->
  top_shareholders d' = top_shareholders d.
Proof.
  intros H. unfold _extract_gross_profit, placeholder in H. frame_step H.
Qed.

Lemma margin_top (doc : document) (d d' : data) :
  _calculate_gross_profit_margin doc d = Ok d' ->
  top_shareholders d' = top_shareholders d.
Proof.
  intros H. unfold _calculate_gross_profit_margin in H. frame_step H.
Qed.

Lemma eps_top (doc : document) (d d' : data) :
  _extract_eps doc d = Ok d' -> top_shareholders d' = top_shareholders d.
Proof. intros H. unfold _extract_eps in H. frame_step H. Qed.

Lemma nav_top (doc : document) (d d' : data) :
  _extract_net_asset_per_share doc d = Ok d' ->
  top_shareholders d' = top_shareholders d.
Proof. intros H. unfold _extract_net_asset_per_share in H. frame_step H. Qed.

Lemma rights_top (doc : document) (d d' : data) :
  _extract_right_issues doc d = Ok d' ->
  top_shareholders d' = top_shareholders d.
Proof. intros H. unfold _extract_right_issues in H. frame_step H. Qed.

Lemma before_shareholders_top (doc : document) :
  top_shareholders (before_shareholders doc) = None.
Proof.
  unfold before_shareholders.
  rewrite (attempt_keeps_top _ _ (rights_top doc _)).
  rewrite (attempt_keeps_top _ _ (nav_top doc _)).
  rewrite (attempt_keeps_top _ _ (eps_top doc _)).
  rewrite (attempt_keeps_top _ _ (margin_top doc _)).
  rewrite (attempt_keeps_top _ _ (gross_profit_top doc _)).
  rewrite (attempt_keeps_top _ _ (opex_top doc _)).
  rewrite (attempt_keeps_top _ _ (cost_of_sales_top doc _)).
  rewrite (attempt_keeps_top _ _ (revenue_top doc _)).
  reflexivity.
Qed.

(** the list the pass stores, when it stores one *)
Lemma stored_top_origin (doc : document) (top : list (string * holder)) :
  top_shareholders (extract_all_metrics doc) = Some top ->
  from_five_valid top
  \/ top = hard_coded_shareholders
  \/ top = placeholder_shareholders.
Proof.
  rewrite all_metrics_unfold. unfold attempt.
  destruct (_extract_top_shareholders doc (before_shareholders doc))
    as [d'|] eqn:E; cbn [catch].
  - destruct (top_shareholders_spec _ _ _ E) as (top' & -> & Ht).
    intros [= <-]. exact Ht.
  - rewrite before_shareholders_top. discriminate.
Qed.

End StoredShareholders.

(* ------------------------------------------------------------------ *)
(** ** Claims on the extraction record *)



(** a table without columns makes the revenue resolver raise; the pass goes
    on and resolves the margin from the year *)
Lemma exception_is_caught_locally :
  Extractor._extract_total_revenue DocExamples.empty_row_table
    Extractor.empty_data = Raise KeyError
  /\ value_is
       (Extractor.num
          (Extractor.extract_all_metrics DocExamples.empty_row_table)
          gross_profit_margin) 20.
Proof.
  split; [vm_compute; reflexivity|].
  eexists. split; [vm_compute; reflexivity | reflexivity].
Qed.

(** C5 does not hold of the standard approach, which has no test for
    size bands.  On a page that holds the distribution by holding size above
    the ranked list, a report of 2019-20 gets the size bands stored as its
    shareholders; with the ranked list alone it gets the shareholders. *)
Theorem size_band_table_is_taken :
  option_map (map fst)
    (Extractor.top_shareholders
       (Extractor.extract_all_metrics DocExamples.decoy_and_genuine))
  = Some ["Over 1,000,000"; "100,001 to 1,000,000"; "10,001 to 100,000";
          "1,001 to 10,000"; "Less than 1,000"]
  /\ option_map (map fst)
       (Extractor.top_shareholders
          (Extractor.extract_all_metrics DocExamples.genuine_only))
     = Some ["Melstacorp PLC"; "Mr S E Captain"; "HWIC Asia Fund";
             "Paints and General Industries Limited";
             "Asian Development Bank"; "CIC Holdings PLC"].
Proof. split; vm_compute; reflexivity. Qed.




(** C8.  A table is accepted, by any of the table readers of the resolver,
    only when it gives at least five pairs of a name and a valid percentage;
    the table reader of the 2022-23 pages accepts none.  The list the pass
    stores is sorted by percentage, descending, and has at most twenty
    entries: it is the first twenty of such pairs, or the list written in
    the code for the 2023-24 report, or the placeholder list. *)
Theorem shareholders_sorted_and_capped :
  (forall t top,
     Extractor.standard_table t = Ok (Some top)
     \/ Extractor.stream_table t = Ok (Some top)
     \/ Extractor.grid_table t = Ok (Some top)
     \/ Extractor.legacy_table t = Ok (Some top) ->
     ExtractorSpec.from_five_valid top)
  /\ (forall f top,
        Extractor.tabula_frame f = Ok (Some top) ->
        ExtractorSpec.from_five_valid top)
  /\ (forall doc top,
        Extractor.top_shareholders (Extractor.extract_all_metrics doc)
        = Some top ->
        ExtractorSpec.descending top
        /\ (length top <= 20)%nat
        /\ (ExtractorSpec.from_five_valid top
            \/ top = Extractor.hard_coded_shareholders
            \/ top = Extractor.placeholder_shareholders)).
Proof.
  split; [|split].
  - intros t top [H|[H|[H|H]]].
    + apply (standard_table_spec t top H).
    + apply (stream_table_spec t top H).
    + apply (grid_table_spec t top H).
    + pose proof (legacy_table_none t _ H). discriminate.
  - intros f top H. apply (tabula_frame_spec f top H).
  - intros doc top H. pose proof (stored_top_origin doc top H) as Ho.
    destruct (stored_top_good top Ho) as (_ & Hs & Hl). auto.
Qed.

Lemma shareholders_sorted_and_capped_witness :
  exists top,
    Extractor.top_shareholders
      (Extractor.extract_all_metrics DocExamples.genuine_only) = Some top
    /\ ExtractorSpec.descending top
    /\ (length top <= 20)%nat
    /\ (ExtractorSpec.from_five_valid top
        \/ top = Extractor.hard_coded_shareholders
        \/ top = Extractor.placeholder_shareholders).
Proof.
  eexists. split; [vm_compute; reflexivity|].
  apply (proj2 (proj2 shareholders_sorted_and_capped)
           DocExamples.genuine_only).
  vm_compute. reflexivity.
Defined.

(* ------------------------------------------------------------------ *)
(** * Further properties of the consolidated dataset *)

Section RightsIssues.
Import App AppSpec DatasetSpec.
Variable float_str : string -> result Q.











End RightsIssues.


Section TopShareholders.
Import App AppSpec DatasetSpec.
Variable float_str : string -> result Q.

Lemma dict_get_set {V : Type} (k k' : Z) (v : V) (d : list (Z * V)) :
  dict_get Z.eqb k' (dict_set Z.eqb k v d)
  = if (k =? k')%Z then Some v else dict_get Z.eqb k' d.
Proof.
  induction d as [|[k0 v0] d IH]; simpl.
  - reflexivity.
  - destruct (k0 =? k)%Z eqn:E0; simpl.
    + apply Z.eqb_eq in E0. subst k0. destruct (k =? k')%Z; reflexivity.
    + destruct (k0 =? k')%Z eqn:E1.
      * apply Z.eqb_eq in E1. subst k0. rewrite Z.eqb_sym, E0. reflexivity.
      * exact IH.
Qed.

Lemma dict_set_keys_Z {V : Type} (k : Z) (v : V) (d : list (Z * V)) :
  NoDup (map fst d) -> NoDup (map fst (dict_set Z.eqb k v d)).
Proof.
  induction d as [|[k0 v0] d IH]; simpl; intros H.
  - repeat constructor. simpl. tauto.
  - inversion H as [|? ? Hn Hd]; subst.
    destruct (k0 =? k)%Z eqn:E0; simpl.
    + apply Z.eqb_eq in E0. subst k0. constructor; assumption.
    + apply Z.eqb_neq in E0. constructor; [|apply IH; exact Hd].
      intros Hin. apply Hn. clear - Hin E0.
      induction d as [|[k1 v1] d IH]; simpl in *.
      * destruct Hin as [Hin|[]]. congruence.
      * destruct (k1 =? k)%Z eqn:E1; simpl in Hin.
        -- apply Z.eqb_eq in E1. subst k1.
           destruct Hin as [Hin|Hin]; [congruence | right; exact Hin].
        -- destruct Hin as [Hin|Hin]; [left; exact Hin | right; auto].
Qed.

Lemma dict_set_Forall_Z {V : Type} (P : V -> Prop) (k : Z) (v : V)
    (d : list (Z * V)) :
  P v -> Forall (fun e => P (snd e)) d ->
  Forall (fun e => P (snd e)) (dict_set Z.eqb k v d).
Proof.
  intros Hv. induction 1 as [|[k0 v0] d Hx Hd IH]; simpl.
  - repeat constructor. exact Hv.
  - destruct (k0 =? k)%Z; constructor; auto.
Qed.

Lemma last_assigned_snoc (y k : Z) (v : list shareholder)
    (l : list (Z * list shareholder)) :
  last_assigned y (l ++ [(k, v)])
  = if (k =? y)%Z then Some v else last_assigned y l.
Proof.
  unfold last_assigned. rewrite rev_app_distr. simpl.
  destruct (k =? y)%Z; reflexivity.
Qed.

Lemma process_right_issues_holders (dy : Z) (yd : year_json)
    (t t' : dataset) :
  process_right_issues float_str dy yd t = Ok t' ->
  topShareholders t' = topShareholders t.
Proof.
  unfold process_right_issues. intros H.
  destruct (yj_right_issues yd) as [ri|]; [|injection H as <-; reflexivity].
  destruct (negb (jval_eqb (get_or JNull (rj_ratio ri)) (JStr "N/A")));
    [|injection H as <-; reflexivity].
  destruct (if negb _ then _ else _) as [p|e]; simpl in H; [|discriminate].
  injection H as <-. reflexivity.
Qed.

Lemma process_display_year_holders (yd : year_json) (t t' : dataset)
    (dy : Z) (done : list (Z * list shareholder)) :
  process_display_year float_str yd t dy = Ok t' ->
  holders_follow t done ->
  holders_follow t'
    (done ++ match yj_top_shareholders yd with
             | Some l =>
                 [(dy, sorted_desc sh_percentage (map shareholder_of l))]
             | None => []
             end).
Proof.
  unfold process_display_year. intros H (Hget & Hnd & Hs).
  destruct (process_right_issues float_str dy yd t) as [t1|e] eqn:E1;
    simpl in H; [|discriminate].
  destruct (build_financials yd) as [fin|e]; simpl in H; [|discriminate].
  injection H as <-. simpl.
  apply process_right_issues_holders in E1.
  unfold process_top_shareholders.
  unfold holders_follow.
  destruct (yj_top_shareholders yd) as [l|]; simpl; rewrite E1.
  - split; [|split].
    + intros y. rewrite dict_get_set, last_assigned_snoc, Hget. reflexivity.
    + apply dict_set_keys_Z. exact Hnd.
    + apply dict_set_Forall_Z; [apply sorted_desc_sorted | exact Hs].
  - rewrite app_nil_r. split; [exact Hget | split; assumption].
Qed.

Lemma process_period_holders (t t' : dataset) (item : string * year_json)
    (done : list (Z * list shareholder)) :
  process_period float_str t item = Ok t' ->
  holders_follow t done ->
  holders_follow t' (done ++ holder_assignments item).
Proof.
  unfold process_period, holder_assignments. intros H Hf.
  destruct (display_years (fst item)) as [ys|e]; simpl in H; [|discriminate].
  set (one := fun y : Z =>
                match yj_top_shareholders (snd item) with
                | Some l =>
                    [(y, sorted_desc sh_percentage (map shareholder_of l))]
                | None => []
                end).
  assert (Hall : holders_follow t' (done ++ flat_map one ys)).
  { revert t done H Hf.
    induction ys as [|y ys IH]; intros t done H Hf; simpl in H.
    - injection H as <-. simpl. rewrite app_nil_r. exact Hf.
    - destruct (process_display_year float_str (snd item) t y) as [t1|e]
        eqn:E1; simpl in H; [|discriminate].
      simpl. rewrite app_assoc. apply (IH t1); [exact H|].
      apply (process_display_year_holders _ _ _ _ _ E1 Hf). }
  replace (match yj_top_shareholders (snd item) with
           | Some l => map _ ys
           | None => []
           end) with (flat_map one ys); [exact Hall|].
  unfold one. clear. destruct (yj_top_shareholders (snd item)).
  - induction ys as [|y ys IH]; simpl; [reflexivity | rewrite IH; reflexivity].
  - induction ys as [|y ys IH]; simpl; [reflexivity | exact IH].
Qed.

Lemma periods_holders (items : list (string * year_json)) (t t' : dataset)
    (done : list (Z * list shareholder)) :
  for_each (process_period float_str) items t = Ok t' ->
  holders_follow t done ->
  holders_follow t' (done ++ flat_map holder_assignments items).
Proof.
  revert t done. induction items as [|item items IH]; intros t done H Hf;
    simpl in H.
  - injection H as <-. simpl. rewrite app_nil_r. exact Hf.
  - destruct (process_period float_str t item) as [t1|e] eqn:E1; simpl in H;
      [|discriminate].
    simpl. rewrite app_assoc. apply (IH t1); [exact H|].
    apply (process_period_holders _ _ _ _ E1 Hf).
Qed.

Lemma transform_holders (cd : consolidated_json) (d : dataset) :
  transform_consolidated_data float_str cd = Ok d ->
  holders_follow d (flat_map holder_assignments (periods cd)).
Proof.
  unfold transform_consolidated_data. fold (periods cd). intros H.
  destruct (for_each _ _ empty_dataset) as [t|e] eqn:E; simpl in H;
    [|discriminate].
  injection H as <-.
  apply (periods_holders _ _ _ [] E).
  split; [|split]; simpl; [reflexivity | constructor | constructor].
Qed.

End TopShareholders.

(** The shareholders of a year: the last writer wins.  When the transform
    returns, [topShareholders] holds, for every year, the list of the
    last (period, display year) pair with that year whose period has
    shareholders, and nothing for a year without such a pair; no year is
    held twice; every list is sorted by percentage, descending.  (The yearly
    entry of a year comes from the first pair instead.) *)
Theorem shareholders_last_writer_wins
    (float_str : string -> result Q)
    (cd : App.consolidated_json) (d : App.dataset) :
  App.transform_consolidated_data float_str cd = Ok d ->
  (forall y,
     dict_get Z.eqb y (App.topShareholders d)
     = DatasetSpec.last_assigned y
         (flat_map DatasetSpec.holder_assignments (AppSpec.periods cd)))
  /\ NoDup (map fst (App.topShareholders d))
  /\ Forall
       (fun e =>
          Sorted (fun a b => (App.sh_percentage b <= App.sh_percentage a)%Q)
            (snd e))
       (App.topShareholders d).
Proof.
  intros H. exact (transform_holders float_str cd d H).
Qed.

Lemma shareholders_last_writer_wins_witness :
  exists d,
    App.transform_consolidated_data decimal_float_str
      AppExamples.sample_consolidated_data = Ok d
    /\ dict_get Z.eqb 2020 (App.topShareholders d)
       = DatasetSpec.last_assigned 2020
           (flat_map DatasetSpec.holder_assignments
              (AppSpec.periods AppExamples.sample_consolidated_data))
    /\ option_map (map App.sh_percentage)
         (dict_get Z.eqb 2020 (App.topShareholders d))
       = Some [35.5%Q; 12.5%Q]
    /\ option_map (fun y => App.revenue (App.y_financials y))
         (find (fun y => (App.year y =? 2020)%Z) (App.yearlyData d))
       = Some (Some 120000%Q).
Proof.
  eexists. split; [vm_compute; reflexivity|]. split.
  - refine (proj1 (shareholders_last_writer_wins decimal_float_str
                     AppExamples.sample_consolidated_data _ _) 2020).
    vm_compute. reflexivity.
  - split; vm_compute; reflexivity.
Defined.

Section ShareCount.
Import App DatasetSpec.


End ShareCount.


Section IncompletePeriods.
Import App AppSpec.
Variable float_str : string -> result Q.




End IncompletePeriods.



Section Cache.
Import App.
Variable float_str : string -> result Q.

Lemma csv_loader_cache (fs : files) (c c' : cache) (r : result dataset) :
  load_from_csv_files float_str fs c = (r, c') ->
  match r with
  | Ok d => all_data c' = Some d /\ raw_json_data c' = raw_json_data c
  | Raise _ => c' = c
  end.
Proof.
  unfold load_from_csv_files.
  destruct (bind (listdir (csv fs)) _) as [all|x]; intros [= <- <-].
  - split; reflexivity.
  - reflexivity.
Qed.

Lemma loader_cache (fs : files) (c c' : cache) (r : result dataset) :
  load_all_financial_data float_str fs c = (r, c') ->
  match r with
  | Ok d => all_data c' = Some d
  | Raise _ => c' = c
  end.
Proof.
  unfold load_all_financial_data.
  destruct (all_data c) as [d0|] eqn:Ec.
  - intros [= <- <-]. exact Ec.
  - destruct (json_file fs) as [read|].
    + destruct (bind read _) as [[td cd]|x].
      * intros [= <- <-]. reflexivity.
      * intros H. pose proof (csv_loader_cache _ _ _ _ H) as Hc.
        destruct r; [apply Hc | exact Hc].
    + intros H. pose proof (csv_loader_cache _ _ _ _ H) as Hc.
      destruct r; [apply Hc | exact Hc].
Qed.

End Cache.

(** The cache.  A load that returns a dataset leaves it in the cache, and
    every later load returns that dataset and leaves the cache alone,
    whatever the files hold by then; a load that raises leaves the cache as
    it was; after [clear_cache] the files are read again. *)
Theorem loaded_data_is_served_from_cache
    (float_str : string -> result Q) (fs : App.files) (c : App.cache) :
  (forall d c',
     App.load_all_financial_data float_str fs c = (Ok d, c') ->
     App.all_data c' = Some d
     /\ forall fs', App.load_all_financial_data float_str fs' c' = (Ok d, c'))
  /\ (forall e c',
        App.load_all_financial_data float_str fs c = (Raise e, c') -> c' = c)
  /\ App.load_all_financial_data float_str fs (Api.clear_cache c)
     = match App.json_file fs with
       | Some (Ok cd) =>
           match App.transform_consolidated_data float_str cd with
           | Ok d =>
               (Ok d, {| App.all_data := Some d;
                         App.raw_json_data := Some cd |})
           | Raise _ => App.load_from_csv_files float_str fs App.empty_cache
           end
       | _ => App.load_from_csv_files float_str fs App.empty_cache
       end.
Proof.
  split; [|split].
  - intros d c' H. pose proof (loader_cache float_str _ _ _ _ H) as Hc.
    simpl in Hc. split; [exact Hc|].
    intros fs'. unfold App.load_all_financial_data. rewrite Hc. reflexivity.
  - intros e c' H. exact (loader_cache float_str _ _ _ _ H).
  - unfold App.load_all_financial_data, Api.clear_cache. simpl.
    destruct (App.json_file fs) as [[cd|x]|]; simpl; try reflexivity.
    destruct (App.transform_consolidated_data float_str cd); reflexivity.
Qed.

Section CsvFileNames.
Import App AppSpec.
Variable float_str : string -> result Q.

Lemma dashless_csv_period_raises (e : csv_env) (t : dataset) (ys : string) :
  contains "-" ys = false ->
  exists x, csv_period float_str e t ys = Raise x.
Proof.
  intros Hd. unfold csv_period. rewrite (display_years_dashless ys Hd).
  destruct (py_int ys); simpl; eauto.
Qed.

Lemma dashless_csv_raises (fs : files) (c : cache) (names : list string)
    (f : string) :
  listdir (csv fs) = Ok names ->
  In f names ->
  starts_with "financial_metrics_" f = true ->
  contains "-" (year_of_filename f) = false ->
  exists x, load_from_csv_files float_str fs c = (Raise x, c).
Proof.
  intros Hl Hin Hs Hd. unfold load_from_csv_files. rewrite Hl. cbn [bind].
  destruct (for_each_raises (csv_period float_str (csv fs))
              (map year_of_filename
                 (filter (starts_with "financial_metrics_") names))
              (year_of_filename f) empty_dataset) as [x Hx].
  - apply in_map. apply filter_In. split; assumption.
  - intros s0. apply dashless_csv_period_raises. exact Hd.
  - exists x. rewrite Hx. reflexivity.
Qed.

End CsvFileNames.

(** The CSV loader has no guard on the names of the metrics files.  When the
    year in the name of one of them holds no ['-'], the CSV loader raises
    and leaves the cache as it was; then the loader raises too when there is
    no JSON file, when the JSON file cannot be read or when the transform
    raises, since the fallback is not in a [try]. *)
Theorem single_year_file_breaks_csv_loader
    (float_str : string -> result Q) (fs : App.files) (c : App.cache)
    (names : list string) (f : string) :
  App.listdir (App.csv fs) = Ok names ->
  In f names ->
  starts_with "financial_metrics_" f = true ->
  contains "-" (App.year_of_filename f) = false ->
  (exists x, App.load_from_csv_files float_str fs c = (Raise x, c))
  /\ (App.all_data c = None ->
      (forall cd, App.json_file fs = Some (Ok cd) ->
                  exists e, App.transform_consolidated_data float_str cd
                            = Raise e) ->
      exists x, App.load_all_financial_data float_str fs c = (Raise x, c)).
Proof.
  intros Hl Hin Hs Hd.
  pose proof (dashless_csv_raises float_str fs c names f Hl Hin Hs Hd) as Hcsv.
  split; [exact Hcsv|].
  intros Hc Hjson. unfold App.load_all_financial_data. rewrite Hc.
  destruct (App.json_file fs) as [[cd|x]|]; simpl; try exact Hcsv.
  destruct (Hjson cd eq_refl) as [e He]. rewrite He. simpl. exact Hcsv.
Qed.

Lemma single_year_file_breaks_csv_loader_witness :
  (exists x,
     App.load_from_csv_files decimal_float_str
       MoreExamples.single_year_csv_files App.empty_cache
     = (Raise x, App.empty_cache))
  /\ App.load_all_financial_data decimal_float_str
       MoreExamples.single_year_csv_files App.empty_cache
     = (Raise IndexError, App.empty_cache).
Proof.
  split; [|vm_compute; reflexivity].
  refine (proj1 (single_year_file_breaks_csv_loader decimal_float_str
                   MoreExamples.single_year_csv_files App.empty_cache
                   _ "financial_metrics_2021.csv" eq_refl _ _ _)).
  - simpl. tauto.
  - reflexivity.
  - reflexivity.
Defined.

(* ------------------------------------------------------------------ *)
(** * The API routes *)

Section FilteredRoutes.
Import App AppSpec Api ApiSpec.
Variable float_str : string -> result Q.

Lemma split_not_nil (sep : ascii) (s : string) : split sep s <> [].
Proof.
  destruct s as [|c s]; simpl; [discriminate|].
  destruct (c =? sep)%char; [discriminate|].
  destruct (split sep s); discriminate.
Qed.

Lemma arg_list_not_nil (arg : option string) : arg_list arg <> Some [].
Proof.
  unfold arg_list. destruct arg as [s|]; [|discriminate].
  destruct (s =? ""); [discriminate|].
  intros [= H]. exact (split_not_nil _ _ H).
Qed.

Lemma increasing_years (l : list yearly) :
  Sorted (fun a b => year a <= year b) l -> NoDup (map year l) ->
  StronglySorted Z.lt (map year l).
Proof.
  intros Hs Hn. apply Sorted_StronglySorted in Hs.
  - induction Hs as [|a l Hl IH Ha]; simpl; [constructor|].
    inversion Hn as [|? ? Hnotin Hn']; subst.
    constructor; [apply IH; exact Hn'|].
    apply Forall_forall. intros y Hy. apply in_map_iff in Hy.
    destruct Hy as (b & <- & Hb).
    rewrite Forall_forall in Ha. specialize (Ha b Hb).
    assert (year a <> year b).
    { intros E. apply Hnotin. rewrite E. apply in_map. exact Hb. }
    lia.
  - intros a b c. lia.
Qed.

Lemma first_wins_entries (l : list yearly) (y : yearly) :
  In y (sorted_asc year (first_wins l)) -> In y l.
Proof.
  intros H.
  destruct (first_wins_sorted_facts l) as (_ & _ & Hfirst & _).
  specialize (Hfirst y H). unfold first_with_year in Hfirst.
  apply find_some in Hfirst. apply Hfirst.
Qed.

Lemma loaded_regular (d : dataset) : loaded float_str d -> regular d.
Proof.
  intros [(cd & H)|(fs & c & c' & H)].
  - destruct (transform_spec float_str cd d H) as [_ Hy].
    destruct (first_wins_sorted_facts (candidates cd)) as (Hn & Hs & _ & _).
    rewrite <- Hy in Hn, Hs.
    split; [|apply increasing_years; assumption].
    apply Forall_forall. intros y Hin. rewrite Hy in Hin.
    apply first_wins_entries in Hin. unfold candidates in Hin.
    apply in_flat_map in Hin. destruct Hin as (item & _ & Hin).
    unfold period_entries in Hin.
    destruct (display_years (fst item)); [|contradiction].
    destruct (build_financials (snd item)); [|contradiction].
    apply in_map_iff in Hin. destruct Hin as (yr & <- & _). reflexivity.
  - pose proof (load_from_csv_spec float_str fs c c' d H) as Hy.
    destruct (first_wins_sorted_facts (csv_candidates (csv fs)))
      as (Hn & Hs & _ & _).
    rewrite <- Hy in Hn, Hs.
    split; [|apply increasing_years; assumption].
    apply Forall_forall. intros y Hin. rewrite Hy in Hin.
    apply first_wins_entries in Hin. unfold csv_candidates in Hin.
    destruct (listdir (csv fs)); [|contradiction].
    apply in_flat_map in Hin. destruct Hin as (ys & _ & Hin).
    unfold csv_period_entries in Hin.
    destruct (display_years ys); [|contradiction].
    destruct (metrics_csv (csv fs) ys) as [[rows|]|]; try contradiction.
    apply in_map_iff in Hin. destruct Hin as (yr & <- & _). reflexivity.
Qed.

Lemma filter_increasing (p : yearly -> bool) (l : list yearly) :
  StronglySorted Z.lt (map year l) ->
  StronglySorted Z.lt (map year (filter p l)).
Proof.
  induction l as [|a l IH]; simpl; intros H; [constructor|].
  inversion H as [|? ? Hl Ha]; subst.
  destruct (p a); simpl; [|apply IH; exact Hl].
  constructor; [apply IH; exact Hl|].
  apply Forall_forall. intros y Hy. rewrite Forall_forall in Ha. apply Ha.
  apply in_map_iff in Hy. destruct Hy as (b & <- & Hb).
  apply in_map. apply filter_In in Hb. apply Hb.
Qed.

Lemma groups_all_or_nothing (groups : option string) (item : yearly) :
  y_industryGroups item = industry_groups ->
  negb (skipped_by_groups (arg_list groups) item) = names_a_group groups.
Proof.
  intros Hg. unfold skipped_by_groups, names_a_group.
  pose proof (arg_list_not_nil groups) as Hne.
  destruct (arg_list groups) as [[|g l]|]; [congruence| |reflexivity].
  rewrite Hg, negb_involutive. reflexivity.
Qed.

Lemma selected_groups (years groups : option string) (d : dataset) :
  regular d ->
  selected years groups d
  = if names_a_group groups then selected years None d else [].
Proof.
  intros [Hg _]. unfold selected.
  induction (yearlyData d) as [|item l IH]; simpl.
  - destruct (names_a_group groups); reflexivity.
  - inversion Hg as [|? ? Hitem Hl]; subst.
    rewrite (groups_all_or_nothing groups item Hitem), (IH Hl).
    destruct (names_a_group groups); simpl.
    + rewrite andb_true_r.
      destruct (negb (skipped_by_years (arg_list years) item)); reflexivity.
    + rewrite andb_false_r. reflexivity.
Qed.

Lemma selected_years (years : option string) (d : dataset) (y : Z) :
  In y (map year (selected years None d))
  <-> In y (map year (yearlyData d)) /\ wanted years y.
Proof.
  unfold selected, wanted, skipped_by_years. simpl.
  pose proof (arg_list_not_nil years) as Hne.
  rewrite !in_map_iff. split.
  - intros (item & <- & Hin). apply filter_In in Hin. destruct Hin as [Hin Hk].
    split; [exists item; auto|].
    destruct (arg_list years) as [[|x l]|]; [congruence| |exact I].
    rewrite andb_true_r in Hk. apply negb_true_iff in Hk.
    apply negb_false_iff in Hk. exact Hk.
  - intros [(item & <- & Hin) Hw]. exists item. split; [reflexivity|].
    apply filter_In. split; [exact Hin|].
    destruct (arg_list years) as [[|x l]|]; [congruence| |reflexivity].
    rewrite Hw. reflexivity.
Qed.

End FilteredRoutes.

(** The routes filtered by years and industry groups, on a dataset a loader
    returned.  The industry filter keeps every year or none: the rows are
    those of the request without it when it is absent, empty or names one of
    the six groups, and there is no row otherwise.  A year has a row exactly
    when the dataset has an entry for it and the years filter is absent,
    empty or lists the year as [str] prints it.  The rows come in
    increasing order of year, one per year, and the five routes give the
    same years. *)
Theorem filters_of_the_yearly_routes
    (float_str : string -> result Q) (d : App.dataset)
    (years groups : option string) :
  ApiSpec.loaded float_str d ->
  Api.selected years groups d
  = (if ApiSpec.names_a_group groups then Api.selected years None d else [])
  /\ (forall y,
        In y (map Api.rr_year (Api.get_revenue_data years None d))
        <-> In y (map App.year (App.yearlyData d)) /\ ApiSpec.wanted years y)
  /\ StronglySorted Z.lt
       (map Api.rr_year (Api.get_revenue_data years groups d))
  /\ map Api.cr_year (Api.get_cost_vs_expenses years groups d)
     = map Api.rr_year (Api.get_revenue_data years groups d)
  /\ map fst (Api.get_gross_profit_margin years groups d)
     = map Api.rr_year (Api.get_revenue_data years groups d)
  /\ map fst (Api.get_eps_data years groups d)
     = map Api.rr_year (Api.get_revenue_data years groups d)
  /\ map fst (Api.get_net_asset_per_share years groups d)
     = map Api.rr_year (Api.get_revenue_data years groups d).
Proof.
  intros Hl. pose proof (loaded_regular float_str d Hl) as Hr.
  assert (Hrows : forall g,
             map Api.rr_year (Api.get_revenue_data years g d)
             = map App.year (Api.selected years g d)).
  { intros g. unfold Api.get_revenue_data. rewrite map_map. reflexivity. }
  split; [apply selected_groups; exact Hr|].
  split; [intros y; rewrite Hrows; apply selected_years|].
  split.
  { rewrite Hrows. apply filter_increasing. apply Hr. }
  unfold Api.get_cost_vs_expenses, Api.get_gross_profit_margin,
    Api.get_eps_data, Api.get_net_asset_per_share, Api.get_revenue_data.
  rewrite !map_map. repeat split; reflexivity.
Qed.

Lemma filters_of_the_yearly_routes_witness :
  exists d,
    App.transform_consolidated_data decimal_float_str
      AppExamples.sample_consolidated_data = Ok d
    /\ Api.selected (Some "2020,2021") (Some "Leisure,Mining") d
       = Api.selected (Some "2020,2021") None d
    /\ map Api.rr_year (Api.get_revenue_data (Some "2020,2021") None d)
       = [2020; 2021]
    /\ Api.get_revenue_data None (Some "Mining") d = [].
Proof.
  eexists. split; [vm_compute; reflexivity|]. split.
  - refine (proj1 (filters_of_the_yearly_routes decimal_float_str _
                     (Some "2020,2021") (Some "Leisure,Mining") _)).
    left. exists AppExamples.sample_consolidated_data.
    vm_compute. reflexivity.
  - split; vm_compute; reflexivity.
Defined.

Section ClosestYear.
Import App Api ApiSpec.

Lemma min_by_spec (key : Z -> Z) (l : list Z) (best : Z) :
  In (min_by key best l) (best :: l)
  /\ forall x, In x (best :: l) -> key (min_by key best l) <= key x.
Proof.
  revert best. induction l as [|a l IH]; intros best; simpl.
  - split; [left; reflexivity|]. intros x [<-|[]]. lia.
  - destruct (key a <? key best)%Z eqn:E.
    + apply Z.ltb_lt in E. destruct (IH a) as [Hin Hmin]. split.
      * simpl in Hin. tauto.
      * intros x [<-|[<-|Hx]].
        -- specialize (Hmin a (or_introl eq_refl)). lia.
        -- apply Hmin. left. reflexivity.
        -- apply Hmin. right. exact Hx.
    + apply Z.ltb_ge in E. destruct (IH best) as [Hin Hmin]. split.
      * simpl in Hin. tauto.
      * intros x [<-|[<-|Hx]].
        -- apply Hmin. left. reflexivity.
        -- specialize (Hmin best (or_introl eq_refl)). lia.
        -- apply Hmin. right. exact Hx.
Qed.

Lemma dict_get_key {V : Type} (k : Z) (d : list (Z * V)) :
  In k (map fst d) -> exists v, dict_get Z.eqb k d = Some v.
Proof.
  induction d as [|[k0 v0] d IH]; simpl; [contradiction|].
  intros [<-|Hin].
  - rewrite Z.eqb_refl. eauto.
  - destruct (k0 =? k)%Z; [eauto | exact (IH Hin)].
Qed.

Lemma dict_get_missing {V : Type} (k : Z) (d : list (Z * V)) :
  dict_get Z.eqb k d = None -> ~ In k (map fst d).
Proof.
  intros H Hin. destruct (dict_get_key k d Hin) as [v Hv]. congruence.
Qed.

End ClosestYear.

(** The shareholders route.  Without a year it answers 400; a year that is
    not an integer literal raises [ValueError].  Otherwise it answers with
    the list held for the year when there is one; with the empty list when
    no year has shareholders; and else with the list of a year that has
    some and is as close to the year asked for as any. *)
Theorem shareholders_of_the_closest_year (data : App.dataset) :
  Api.get_shareholders None data = Ok Api.Status400
  /\ Api.get_shareholders (Some "") data = Ok Api.Status400
  /\ (forall y, y <> "" -> py_int y = Raise ValueError ->
        Api.get_shareholders (Some y) data = Raise ValueError)
  /\ (forall y wanted,
        y <> "" -> py_int y = Ok wanted ->
        exists l,
          Api.get_shareholders (Some y) data = Ok (Api.Status200 l)
          /\ match dict_get Z.eqb wanted (App.topShareholders data) with
             | Some held => l = held
             | None =>
                 (App.topShareholders data = [] /\ l = [])
                 \/ exists k,
                      dict_get Z.eqb k (App.topShareholders data) = Some l
                      /\ forall k',
                           In k' (map fst (App.topShareholders data)) ->
                           ApiSpec.distance wanted k
                           <= ApiSpec.distance wanted k'
             end).
Proof.
  split; [reflexivity|]. split; [reflexivity|]. split.
  - intros y Hy Hint. unfold Api.get_shareholders.
    apply String.eqb_neq in Hy. rewrite Hy, Hint. reflexivity.
  - intros y wanted Hy Hint. unfold Api.get_shareholders.
    apply String.eqb_neq in Hy. rewrite Hy, Hint. cbn [bind].
    destruct (dict_get Z.eqb wanted (App.topShareholders data)) as [held|]
      eqn:E.
    + exists held. split; reflexivity.
    + destruct (App.topShareholders data) as [|[k0 v0] rest] eqn:Et.
      * exists []. split; [reflexivity|]. left. split; reflexivity.
      * cbn [map fst].
        set (closest := Api.min_by (fun x => Z.abs (x - wanted)) k0
                          (map fst rest)).
        destruct (min_by_spec (fun x => Z.abs (x - wanted)) (map fst rest) k0)
          as [Hin Hmin]. fold closest in Hin, Hmin.
        destruct (dict_get_key closest ((k0, v0) :: rest) Hin) as [v Hv].
        exists v. split.
        -- unfold Api.lookup_or_empty. rewrite Hv. reflexivity.
        -- right. exists closest. split; [exact Hv|].
           intros k' Hk'. unfold ApiSpec.distance. apply Hmin. exact Hk'.
Qed.

Section Overview.
Import App Api ApiSpec.

Lemma max_of_spec (l : list Z) (first : Z) :
  In (max_of first l) (first :: l)
  /\ forall x, In x (first :: l) -> x <= max_of first l.
Proof.
  unfold max_of. revert first. induction l as [|a l IH]; intros first; simpl.
  - split; [left; reflexivity|]. intros x [<-|[]]. lia.
  - destruct (IH (Z.max first a)) as [Hin Hmax]. split.
    + destruct Hin as [Hin|Hin]; [|tauto].
      destruct (Z.max_spec first a) as [[_ E]|[_ E]]; rewrite E in *; tauto.
    + intros x [<-|[<-|Hx]].
      * specialize (Hmax _ (or_introl eq_refl)). lia.
      * specialize (Hmax _ (or_introl eq_refl)). lia.
      * apply Hmax. right. exact Hx.
Qed.

Lemma find_year_some (l : list yearly) (y : Z) :
  In y (map year l) ->
  exists item, find (fun item => (year item =? y)%Z) l = Some item
               /\ In item l /\ year item = y.
Proof.
  induction l as [|a l IH]; simpl; [contradiction|].
  destruct (year a =? y)%Z eqn:E.
  - intros _. exists a. apply Z.eqb_eq in E. auto.
  - intros [H|H]; [apply Z.eqb_neq in E; contradiction|].
    destruct (IH H) as (item & Hf & Hin & Hy). exists item. auto.
Qed.

Lemma find_year_none (l : list yearly) (y : Z) :
  find (fun item => (year item =? y)%Z) l = None <-> ~ In y (map year l).
Proof.
  split.
  - intros Hf Hin. destruct (find_year_some l y Hin) as (item & H & _).
    congruence.
  - intros Hn. destruct (find _ l) as [item|] eqn:E; [|reflexivity].
    apply find_some in E. destruct E as [Hin Hy]. apply Z.eqb_eq in Hy.
    exfalso. apply Hn. rewrite <- Hy. apply in_map. exact Hin.
Qed.

End Overview.

(** The overview route.  On a dataset without yearly entries it answers
    404.  On any other it raises or answers 200, never 404, and the
    overview it answers with is that of the greatest year: the five figures
    are those of an entry of that year, the growth rates are there exactly
    when the year before has an entry, and at most five shareholders are
    listed, the first ones held for that year. *)
Theorem overview_of_the_latest_year (data : App.dataset) :
  (App.yearlyData data = [] ->
   Api.get_dashboard_overview data = Ok Api.Status404)
  /\ (App.yearlyData data <> [] ->
      Api.get_dashboard_overview data <> Ok Api.Status404
      /\ Api.get_dashboard_overview data <> Ok Api.Status400
      /\ forall o,
           Api.get_dashboard_overview data = Ok (Api.Status200 o) ->
           (forall y, In y (map App.year (App.yearlyData data)) ->
                      y <= Api.latestYear o)
           /\ (exists item,
                 In item (App.yearlyData data)
                 /\ App.year item = Api.latestYear o
                 /\ Api.o_revenue o = App.revenue (App.y_financials item)
                 /\ Api.o_grossProfit o
                    = App.grossProfit (App.y_financials item)
                 /\ Api.o_grossProfitMargin o
                    = App.grossProfitMargin (App.y_financials item)
                 /\ Api.o_eps o = App.eps (App.y_financials item)
                 /\ Api.o_netAssetPerShare o
                    = App.netAssetPerShare (App.y_financials item))
           /\ (Api.growthRates o = None
               <-> ~ In (Api.latestYear o - 1)
                      (map App.year (App.yearlyData data)))
           /\ Api.o_topShareholders o
              = firstn 5 (Api.lookup_or_empty (Api.latestYear o)
                            (App.topShareholders data))
           /\ (length (Api.o_topShareholders o) <= 5)%nat).
Proof.
  unfold Api.get_dashboard_overview. split.
  - intros ->. reflexivity.
  - intros Hne. destruct (App.yearlyData data) as [|first rest] eqn:Ey;
      [congruence|]. clear Hne.
    set (latest := Api.max_of (App.year first) (map App.year rest)).
    destruct (max_of_spec (map App.year rest) (App.year first))
      as [Hin Hmax]. fold latest in Hin, Hmax.
    change (App.year first :: map App.year rest)
      with (map App.year (first :: rest)) in Hin, Hmax.
    destruct (find_year_some (first :: rest) latest Hin)
      as (item & Hf & Hitem & Hy).
    rewrite Hf.
    destruct (find (fun item0 => (App.year item0 =? latest - 1)%Z)
                (first :: rest)) as [prev|] eqn:Ep.
    + destruct (Api.growth_rate (App.revenue (App.y_financials item))
                  (App.revenue (App.y_financials prev))) as [r|x];
        cbn [bind]; [|repeat split; discriminate].
      destruct (Api.growth_rate (App.grossProfit (App.y_financials item))
                  (App.grossProfit (App.y_financials prev))) as [g|x];
        cbn [bind]; [|repeat split; discriminate].
      destruct (Api.growth_rate (App.eps (App.y_financials item))
                  (App.eps (App.y_financials prev))) as [e|x];
        cbn [bind]; [|repeat split; discriminate].
      split; [discriminate|]. split; [discriminate|].
      intros o Ho. injection Ho as <-.
      split; [exact Hmax|].
      split; [exists item; repeat split; solve [assumption | reflexivity]|].
      split.
      * split; [discriminate|]. intros Hn. exfalso. apply Hn.
        change (In (latest - 1) (map App.year (first :: rest))).
        apply find_some in Ep. destruct Ep as [Hp Hpy].
        apply Z.eqb_eq in Hpy. rewrite <- Hpy.
        apply (in_map App.year _ _ Hp).
      * split; [reflexivity|].
        change (length (firstn 5 (Api.lookup_or_empty latest
                                    (App.topShareholders data))) <= 5)%nat.
        apply firstn_le_length.
    + cbn [bind]. split; [discriminate|]. split; [discriminate|].
      intros o Ho. injection Ho as <-.
      split; [exact Hmax|].
      split; [exists item; repeat split; solve [assumption | reflexivity]|].
      split.
      * split; [|reflexivity]. intros _.
        change (~ In (latest - 1) (map App.year (first :: rest))).
        apply (proj1 (find_year_none (first :: rest) (latest - 1))).
        exact Ep.
      * split; [reflexivity|].
        change (length (firstn 5 (Api.lookup_or_empty latest
                                    (App.topShareholders data))) <= 5)%nat.
        apply firstn_le_length.
Qed.

Section Factors.
Import Api.

Lemma dict_get_some_in {K V : Type} (eqb : K -> K -> bool) (k : K) (v : V)
    (d : list (K * V)) :
  dict_get eqb k d = Some v -> In v (map snd d).
Proof.
  induction d as [|[k0 v0] d IH]; simpl; [discriminate|].
  destruct (eqb k0 k); [intros [= ->]; left; reflexivity|].
  intros H. right. exact (IH H).
Qed.

Lemma dict_get_none_str {V : Type} (k : string) (d : list (string * V)) :
  ~ In k (map fst d) -> dict_get String.eqb k d = None.
Proof.
  induction d as [|[k0 v0] d IH]; simpl; [reflexivity|].
  intros Hn. destruct (k0 =? k) eqn:E.
  - apply String.eqb_eq in E. tauto.
  - apply IH. tauto.
Qed.

Lemma dict_get_none_Z {V : Type} (k : Z) (d : list (Z * V)) :
  ~ In k (map fst d) -> dict_get Z.eqb k d = None.
Proof.
  induction d as [|[k0 v0] d IH]; simpl; [reflexivity|].
  intros Hn. destruct (k0 =? k)%Z eqn:E.
  - apply Z.eqb_eq in E. tauto.
  - apply IH. tauto.
Qed.

Lemma factor_of_bounds (table : list (string * list (Z * Q))) (lo hi : Q)
    (g : string) (y : Z) :
  Forall (fun by_year =>
            Forall (fun f => (lo <= f)%Q /\ (f <= hi)%Q) (map snd by_year))
    (map snd table) ->
  (lo <= 1.0)%Q -> (1.0 <= hi)%Q ->
  (lo <= factor_of table g y)%Q /\ (factor_of table g y <= hi)%Q.
Proof.
  intros Ht Hlo Hhi. unfold factor_of.
  destruct (dict_get String.eqb g table) as [by_year|] eqn:Eg; [|auto].
  destruct (dict_get Z.eqb y by_year) as [f|] eqn:Ey; [|auto].
  apply dict_get_some_in in Eg. apply dict_get_some_in in Ey.
  rewrite Forall_forall in Ht. specialize (Ht _ Eg).
  rewrite Forall_forall in Ht. exact (Ht _ Ey).
Qed.

Lemma factor_of_default (table : list (string * list (Z * Q)))
    (g : string) (y : Z) :
  (~ In g (map fst table)
   \/ forall by_year, In by_year (map snd table) -> ~ In y (map fst by_year)) ->
  factor_of table g y = 1.0%Q.
Proof.
  intros H. unfold factor_of.
  destruct (dict_get String.eqb g table) as [by_year|] eqn:Eg; [|reflexivity].
  destruct H as [H|H].
  - rewrite (dict_get_none_str g table H) in Eg. discriminate.
  - apply dict_get_some_in in Eg.
    rewrite (dict_get_none_Z y by_year (H _ Eg)). reflexivity.
Qed.

Lemma Qmult_le_l_weak (x y z : Q) :
  (0 <= z)%Q -> (x <= y)%Q -> (z * x <= z * y)%Q.
Proof.
  intros Hz Hxy. rewrite (Qmult_comm z x), (Qmult_comm z y).
  apply Qmult_le_compat_r; assumption.
Qed.

End Factors.

(** The industry factors.  A historical factor lies between 0.4 and 1.25 and
    a future factor between 1 and 1.45, so that the adjusted forecast of a
    value that is not negative is never below the value; for a group that
    is not one of the six, or a year outside 2019..2023 (2024..2027 for the
    future factors), the value is returned as it is. *)
Theorem industry_factors_are_bounded (value : Q) (group : string) (y : Z) :
  ((0.4 <= Api.factor_of Api.industry_factors group y)%Q
   /\ (Api.factor_of Api.industry_factors group y <= 1.25)%Q)
  /\ ((1 <= Api.factor_of Api.future_factors group y)%Q
      /\ (Api.factor_of Api.future_factors group y <= 1.45)%Q)
  /\ (~ In group App.industry_groups \/ y < 2019 \/ 2023 < y ->
      Qeq (Api.apply_industry_factor value group y) value)
  /\ (~ In group App.industry_groups \/ y < 2024 \/ 2027 < y ->
      Qeq (Api.apply_industry_future_factor value group y) value)
  /\ ((0 <= value)%Q ->
      (value <= Api.apply_industry_future_factor value group y)%Q
      /\ (Api.apply_industry_future_factor value group y <= value * 1.45)%Q).
Proof.
  assert (Hh : (0.4 <= Api.factor_of Api.industry_factors group y)%Q
               /\ (Api.factor_of Api.industry_factors group y <= 1.25)%Q).
  { apply factor_of_bounds; [|discriminate|discriminate].
    repeat (constructor;
            [repeat (constructor; [split; discriminate|]); constructor|]).
    constructor. }
  assert (Hf : (1 <= Api.factor_of Api.future_factors group y)%Q
               /\ (Api.factor_of Api.future_factors group y <= 1.45)%Q).
  { apply factor_of_bounds; [|discriminate|discriminate].
    repeat (constructor;
            [repeat (constructor; [split; discriminate|]); constructor|]).
    constructor. }
  split; [exact Hh|]. split; [exact Hf|]. split; [|split].
  - intros H. unfold Api.apply_industry_factor.
    rewrite factor_of_default; [ring|].
    destruct H as [H|H]; [left; exact H | right].
    intros by_year Hb. simpl in Hb.
    repeat (destruct Hb as [<-|Hb]; [simpl; lia|]). contradiction.
  - intros H. unfold Api.apply_industry_future_factor.
    rewrite factor_of_default; [ring|].
    destruct H as [H|H]; [left; exact H | right].
    intros by_year Hb. simpl in Hb.
    repeat (destruct Hb as [<-|Hb]; [simpl; lia|]). contradiction.
  - intros Hv. unfold Api.apply_industry_future_factor.
    destruct Hf as [Hlo Hhi]. split.
    + apply Qle_trans with (value * 1)%Q.
      * rewrite Qmult_1_r. apply Qle_refl.
      * apply Qmult_le_l_weak; assumption.
    + apply Qmult_le_l_weak; assumption.
Qed.

Section Forecasts.
Import Api.

Lemma for_indexed_years (values : list Q) (years : list Z) (i : nat)
    (r : list point) :
  for_indexed (fun i year => v <- item_at values i ;;
                             Ok {| p_year := year; p_value := v |})
    i years = Ok r ->
  map p_year r = years.
Proof.
  revert i r. induction years as [|y years IH]; intros i r H; simpl in H.
  - injection H as <-. reflexivity.
  - destruct (item_at values i) as [v|x]; simpl in H; [|discriminate].
    destruct (for_indexed _ (S i) years) as [ps|x] eqn:E; simpl in H;
      [|discriminate].
    injection H as <-. simpl. rewrite (IH _ _ E). reflexivity.
Qed.

Lemma range_length (a b : Z) : length (range a b) = Z.to_nat (b - a).
Proof. unfold range. rewrite length_map, length_seq. reflexivity. Qed.

End Forecasts.

(** The linear forecast.  When it returns, the forecast has one point for
    each of the [forecast_years] years that follow the last year of the
    history, in order; the two bounds have a point for each of these years,
    at 1.1 and 0.9 times the forecast value.  So the forecast lies between
    the lower and the upper bound when its value is not negative, and the
    bounds are the other way round, the upper one below the lower one, when
    it is negative. *)
Theorem linear_forecast_years_and_band
    (model : Type)
    (fit : list Z -> list Q -> result model)
    (score : model -> list Z -> list Q -> result Q)
    (predict : model -> list Z -> result (list Q))
    (years : list Z) (values : list Q) (forecast_years : Z)
    (r : Api.forecast_result) :
  Api.linear_regression_forecast model fit score predict years values
    forecast_years = Ok r ->
  map Api.p_year (Api.forecast r)
  = Api.range (last years 0 + 1) (last years 0 + forecast_years + 1)
  /\ length (Api.forecast r) = Z.to_nat forecast_years
  /\ map Api.p_year (Api.ci_upper r) = map Api.p_year (Api.forecast r)
  /\ map Api.p_year (Api.ci_lower r) = map Api.p_year (Api.forecast r)
  /\ forall i p,
       nth_error (Api.forecast r) i = Some p ->
       exists u l,
         nth_error (Api.ci_upper r) i = Some u
         /\ nth_error (Api.ci_lower r) i = Some l
         /\ Api.p_value u = (Api.p_value p * 1.1)%Q
         /\ Api.p_value l = (Api.p_value p * 0.9)%Q
         /\ ((0 <= Api.p_value p)%Q ->
             (Api.p_value l <= Api.p_value p)%Q
             /\ (Api.p_value p <= Api.p_value u)%Q)
         /\ ((Api.p_value p < 0)%Q ->
             (Api.p_value u < Api.p_value p)%Q
             /\ (Api.p_value p < Api.p_value l)%Q).
Proof.
  unfold Api.linear_regression_forecast. intros H.
  destruct (fit years values) as [m|x]; simpl in H; [|discriminate].
  destruct (score m years values) as [acc|x]; simpl in H; [|discriminate].
  destruct years as [|y0 ys]; simpl in H; [discriminate|].
  set (last_year := last (y0 :: ys) 0) in *.
  change (match ys with [] => y0 | _ :: _ => last ys 0 end)
    with last_year in H.
  destruct (predict m _) as [future_values|x]; simpl in H; [|discriminate].
  destruct (Api.for_indexed _ 0 _) as [forecast_data|x] eqn:E; simpl in H;
    [|discriminate].
  injection H as <-. simpl.
  pose proof (for_indexed_years _ _ _ _ E) as Hy.
  split; [exact Hy|]. split.
  { rewrite <- (length_map Api.p_year), Hy, range_length. f_equal. lia. }
  split; [rewrite map_map; reflexivity|].
  split; [rewrite map_map; reflexivity|].
  intros i p Hp.
  exists {| Api.p_year := Api.p_year p;
            Api.p_value := (Api.p_value p * 1.1)%Q |},
         {| Api.p_year := Api.p_year p;
            Api.p_value := (Api.p_value p * 0.9)%Q |}.
  split; [rewrite nth_error_map, Hp; reflexivity|].
  split; [rewrite nth_error_map, Hp; reflexivity|].
  split; [reflexivity|]. split; [reflexivity|]. simpl.
  destruct (Api.p_value p) as [n d]. unfold Qle, Qlt. simpl.
  split; intros Hs; split; nia.
Qed.

Lemma linear_forecast_years_and_band_witness :
  exists r,
    Api.linear_regression_forecast unit
      (fun _ _ => Ok tt) (fun _ _ _ => Ok 1%Q)
      (fun _ future => Ok (map (fun y => inject_Z (2 * y - 4100)) future))
      [2019; 2020; 2021] [100%Q; 110%Q; 120%Q] 2 = Ok r
    /\ map Api.p_year (Api.forecast r) = [2022; 2023]
    /\ length (Api.forecast r) = 2%nat.
Proof.
  eexists. split; [vm_compute; reflexivity|].
  destruct (linear_forecast_years_and_band unit
              (fun _ _ => Ok tt) (fun _ _ _ => Ok 1%Q)
              (fun _ future =>
                 Ok (map (fun y => inject_Z (2 * y - 4100)) future))
              [2019; 2020; 2021] [100%Q; 110%Q; 120%Q] 2 _ eq_refl)
    as (Hy & Hl & _).
  split; [exact Hy | exact Hl].
Defined.

(** The fallbacks of the forecasting models.  The LSTM forecast is the ARIMA
    forecast when the history has fewer than five values, and the seasonal
    forecast when it has fewer than four; the ARIMA forecast is the linear
    forecast when its own computation raises; and whenever the linear
    forecast returns, each of the three other models returns too. *)
Theorem forecasts_fall_back_to_linear
    (model : Type)
    (fit : list Z -> list Q -> result model)
    (score : model -> list Z -> list Q -> result Q)
    (predict : model -> list Z -> result (list Q))
    (arima_body : list Z -> list Q -> Z -> result Api.forecast_result)
    (lstm_imports : result unit)
    (lstm_body : list Z -> list Q -> Z -> result Api.forecast_result)
    (seasonal_imports : result unit)
    (seasonal_body : list Z -> list Q -> Z -> result Api.forecast_result)
    (years : list Z) (values : list Q) (n : Z) :
  let linear :=
    Api.linear_regression_forecast model fit score predict years values n in
  let arima :=
    Api.arima_forecast model fit score predict arima_body years values n in
  let lstm :=
    Api.lstm_forecast model fit score predict arima_body lstm_imports
      lstm_body years values n in
  let seasonal :=
    Api.seasonal_decomposition_forecast model fit score predict arima_body
      seasonal_imports seasonal_body years values n in
  ((length values < 5)%nat -> lstm = arima)
  /\ ((length values < 4)%nat -> seasonal = arima)
  /\ ((exists e, arima_body years values n = Raise e) -> arima = linear)
  /\ (is_ok linear = true ->
      is_ok arima = true /\ is_ok lstm = true /\ is_ok seasonal = true)
  /\ (forall e, arima = Raise e -> linear = Raise e)
  /\ (forall e, lstm = Raise e -> linear = Raise e)
  /\ (forall e, seasonal = Raise e -> linear = Raise e).
Proof.
  intros linear arima lstm seasonal.
  assert (Ha : forall e, arima = Raise e -> linear = Raise e).
  { intros e. subst arima linear. unfold Api.arima_forecast, Api.or_fall_back.
    destruct (arima_body years values n); [discriminate | auto]. }
  assert (Hl : forall e, lstm = Raise e -> linear = Raise e).
  { intros e H. apply Ha. subst lstm arima.
    unfold Api.lstm_forecast, Api.or_fall_back in H.
    destruct (bind lstm_imports _); [discriminate | exact H]. }
  assert (Hs : forall e, seasonal = Raise e -> linear = Raise e).
  { intros e H. apply Ha. subst seasonal arima.
    unfold Api.seasonal_decomposition_forecast, Api.or_fall_back in H.
    destruct (bind seasonal_imports _); [discriminate | exact H]. }
  split; [|split; [|split; [|split]]].
  - intros Hlen. subst lstm arima. unfold Api.lstm_forecast.
    apply Nat.ltb_lt in Hlen. rewrite Hlen.
    destruct lstm_imports as [[]|x]; reflexivity.
  - intros Hlen. subst seasonal arima.
    unfold Api.seasonal_decomposition_forecast.
    apply Nat.ltb_lt in Hlen. rewrite Hlen.
    destruct seasonal_imports as [[]|x]; reflexivity.
  - intros [e He]. subst arima linear. unfold Api.arima_forecast.
    rewrite He. reflexivity.
  - intros Hok.
    assert (Hno : forall r : result Api.forecast_result,
               (forall e, r = Raise e -> linear = Raise e) -> is_ok r = true).
    { intros [r|e] H; [reflexivity|]. rewrite (H e eq_refl) in Hok.
      discriminate. }
    auto.
  - auto.
Qed.

(* ------------------------------------------------------------------ *)
(** ** The financial ratios *)

Section Ratios.
Import App AppSpec Api ApiSpec RatioSpec.
Variable float_str : string -> result Q.







End Ratios.


(* ------------------------------------------------------------------ *)
(** * Further properties of the extractor *)

Section YearLabels.
Import App Extractor.

Lemma split_plain (sep : ascii) (b : string) :
  existsb_str (fun d => (d =? sep)%char) b = false -> split sep b = [b].
Proof.
  intros H. apply split_no_sep. rewrite contains_char. exact H.
Qed.

Lemma split_two (sep : ascii) (a b : string) :
  existsb_str (fun d => (d =? sep)%char) a = false ->
  existsb_str (fun d => (d =? sep)%char) b = false ->
  split sep (a ++ String sep b) = [a; b].
Proof.
  intros Ha Hb. induction a as [|c a IH]; simpl.
  - rewrite Ascii.eqb_refl, (split_plain sep b Hb). reflexivity.
  - simpl in Ha. apply orb_false_iff in Ha. destruct Ha as [Hc Ha].
    rewrite Hc, (IH Ha). reflexivity.
Qed.

Lemma display_years_two (a b : string) :
  forallb_str is_digit a = true -> a <> "" ->
  forallb_str is_digit b = true -> b <> "" ->
  display_years (a ++ String "-" b)
  = Ok [digits_value 0 a; digits_value 0 b].
Proof.
  intros Ha Hna Hb Hnb. unfold display_years.
  rewrite split_two by (apply digits_no_dash; assumption).
  cbn [hd nth_error].
  rewrite (py_int_digits a Ha Hna), (py_int_digits b Hb Hnb). reflexivity.
Qed.

Lemma display_years_single (m : string) :
  forallb_str is_digit m = true -> m <> "" ->
  display_years m = Raise IndexError.
Proof.
  intros Hm Hne. rewrite display_years_dashless.
  - rewrite (py_int_digits m Hm Hne). reflexivity.
  - rewrite contains_char. apply digits_no_dash. exact Hm.
Qed.

Lemma digit_val_range (c : ascii) :
  is_digit c = true -> 0 <= digit_val c <= 9.
Proof.
  unfold is_digit, digit_val. intros H. apply andb_true_iff in H.
  destruct H as [H1 H2]. apply Nat.leb_le in H1. apply Nat.leb_le in H2. lia.
Qed.


Lemma existsb_str_app (p : ascii -> bool) (a b : string) :
  existsb_str p (a ++ b) = existsb_str p a || existsb_str p b.
Proof.
  induction a as [|c a IH]; simpl; [reflexivity|].
  rewrite IH, orb_assoc. reflexivity.
Qed.

Lemma label_chars_plain (c : ascii) (y : string) :
  LabelSpec.label_char c = false ->
  forallb_str LabelSpec.label_char y = true ->
  existsb_str (fun d => (d =? c)%char) y = false.
Proof.
  intros Hc. induction y as [|d y IH]; simpl; [reflexivity|].
  intros H. apply andb_true_iff in H. destruct H as [Hd Hy].
  rewrite (IH Hy), orb_false_r.
  destruct (d =? c)%char eqn:E; [|reflexivity].
  apply Ascii.eqb_eq in E. congruence.
Qed.

Lemma digits_are_label_chars (a : string) :
  forallb_str is_digit a = true ->
  forallb_str LabelSpec.label_char a = true.
Proof.
  induction a as [|c a IH]; simpl; [reflexivity|].
  intros H. apply andb_true_iff in H. destruct H as [Hc Ha].
  unfold LabelSpec.label_char at 1. rewrite Hc, (IH Ha). reflexivity.
Qed.

Lemma file_name_gives_label (y : string) :
  forallb_str LabelSpec.label_char y = true ->
  year_of_filename ("financial_metrics_" ++ y ++ ".csv") = y.
Proof.
  intros Hy. unfold year_of_filename.
  assert (Hu : split "_" (y ++ ".csv") = [y ++ ".csv"]).
  { apply split_plain. rewrite existsb_str_app.
    rewrite (label_chars_plain "_" y eq_refl Hy). reflexivity. }
  simpl. rewrite Hu. simpl.
  change (y ++ ".csv") with (y ++ String "." "csv").
  rewrite split_two; [reflexivity | | reflexivity].
  apply (label_chars_plain "." y eq_refl Hy).
Qed.

(** the three forms of a label *)
Lemma label_form (doc : document) :
  match Re.search LabelSpec.two_year_pattern (basename (pdf_path doc)),
        Re.search LabelSpec.single_year_pattern (basename (pdf_path doc)) with
  | Some _, _ =>
      exists c1 c2 c3 c4,
        is_digit c1 = true /\ is_digit c2 = true
        /\ is_digit c3 = true /\ is_digit c4 = true
        /\ year doc
           = String "2" (String "0" (String c1 (String c2 "")))
             ++ String "-" (String "2" (String "0" (String c3 (String c4 ""))))
  | None, Some m =>
      year doc = m /\ String.length m = 4%nat
      /\ forallb_str is_digit m = true
  | None, None =>
      exists a b,
        forallb_str is_digit a = true /\ a <> ""
        /\ forallb_str is_digit b = true /\ b <> ""
        /\ year doc = a ++ String "-" b
  end.
Proof.
  unfold year, _extract_year_from_filename, LabelSpec.two_year_pattern,
    LabelSpec.single_year_pattern.
  destruct (Re.search [Re.chr "_"; Re.rep is_digit 2 2; Re.chr "-";
                       Re.rep is_digit 2 2] (basename (pdf_path doc)))
    as [m|] eqn:E1.
  { apply search_sound in E1.
    destruct (conforms_chr _ _ _ E1) as (b1 & -> & H1).
    destruct (conforms_exact _ _ _ _ H1) as (a & b2 & -> & Ha & La & H2).
    destruct (conforms_chr _ _ _ H2) as (b3 & -> & H3).
    destruct (conforms_exact _ _ _ _ H3) as (a' & b4 & -> & Ha' & La' & H4).
    change (b4 = "") in H4. subst b4.
    destruct a as [|c1 [|c2 [|c a]]]; simpl in La; try lia.
    destruct a' as [|c3 [|c4 [|c a']]]; simpl in La'; try lia.
    simpl in Ha, Ha'.
    apply andb_true_iff in Ha. destruct Ha as [Hc1 Hc2].
    rewrite andb_true_r in Hc2.
    apply andb_true_iff in Ha'. destruct Ha' as [Hc3 Hc4].
    rewrite andb_true_r in Hc4.
    exists c1, c2, c3, c4. repeat split; try assumption. }
  destruct (Re.search [Re.rep is_digit 4 4] (basename (pdf_path doc)))
    as [m|] eqn:E2.
  { apply search_sound in E2.
    destruct (conforms_exact _ _ _ _ E2) as (a & b & -> & Ha & La & Hb).
    change (b = "") in Hb. rewrite Hb, append_empty_r.
    repeat split; assumption. }
  set (from_content := catch _ _).
  assert (Hfc : forall y, from_content = Some y ->
             exists a b, forallb_str is_digit a = true /\ a <> ""
                         /\ forallb_str is_digit b = true /\ b <> ""
                         /\ y = a ++ String "-" b).
  { subst from_content. intros y.
    destruct (reader doc) as [pages|]; cbn [bind catch]; [|discriminate].
    destruct (pages_text (firstn 10 pages)) as [text|]; cbn [bind catch];
      [|discriminate].
    destruct (Re.search _ text) as [m|] eqn:E3; cbn [bind catch];
      [|discriminate].
    intros [= <-]. apply search_sound in E3.
    destruct (conforms_lit _ _ _ E3) as (b & -> & Hb).
    destruct (conforms_exact _ _ _ _ Hb) as (a & b2 & -> & Ha & La & H2).
    destruct (conforms_one _ _ _ H2) as (c & b3 & -> & Hc & H3).
    destruct (conforms_exact _ _ _ _ H3) as (a' & b4 & -> & Ha' & La' & H4).
    change (b4 = "") in H4. subst b4.
    destruct a as [|c1 [|c2 [|c3 [|c4 [|c5 a]]]]]; simpl in La; try lia.
    destruct a' as [|d1 [|d2 [|d3 a']]]; simpl in La'; try lia.
    exists (String c1 (String c2 (String c3 (String c4 "")))),
           (String "2" (String "0" (String d1 (String d2 "")))).
    split; [exact Ha|]. split; [discriminate|].
    split; [exact Ha'|]. split; [discriminate|]. reflexivity. }
  destruct from_content as [y|].
  - exact (Hfc y eq_refl).
  - destruct (str_of_Z_digits (Z.pos (current_year doc) - 1)) as [Hd Hne];
      [lia|].
    destruct (str_of_Z_digits (Z.pos (current_year doc))) as [Hd' Hne'];
      [lia|].
    exists (str_of_Z (Z.pos (current_year doc) - 1)),
           (str_of_Z (Z.pos (current_year doc))).
    repeat split; assumption.
Qed.

End YearLabels.

(** The label of a report and its display years.  When the file name holds
    [_YY-YY], the label is [20YY-20YY] and the consolidation reads the two
    years 2000 + YY from it.  When it does not but holds four digits in a
    row, the label is these four digits, and the consolidation raises
    [IndexError] on it.  In every other case the label holds two years and
    the consolidation reads them.  A label is made of digits and ['-']
    only, and the year the loader reads from the name of the metrics file
    written for the report is the label. *)
Theorem label_of_a_report (doc : Extractor.document) :
  (if Re.found LabelSpec.two_year_pattern
        (Extractor.basename (Extractor.pdf_path doc))
   then exists a b,
          0 <= a < 100 /\ 0 <= b < 100
          /\ String.length (Extractor.year doc) = 9%nat
          /\ App.display_years (Extractor.year doc)
             = Ok [2000 + a; 2000 + b]
   else if Re.found LabelSpec.single_year_pattern
             (Extractor.basename (Extractor.pdf_path doc))
   then String.length (Extractor.year doc) = 4%nat
        /\ forallb_str is_digit (Extractor.year doc) = true
        /\ App.display_years (Extractor.year doc) = Raise IndexError
   else exists s e, App.display_years (Extractor.year doc) = Ok [s; e])
  /\ forallb_str LabelSpec.label_char (Extractor.year doc) = true
  /\ App.year_of_filename (Extractor.metrics_file_name doc)
     = Extractor.year doc.
Proof.
  pose proof (label_form doc) as Hf. unfold Re.found.
  destruct (Re.search LabelSpec.two_year_pattern
              (Extractor.basename (Extractor.pdf_path doc))) as [m1|].
  { destruct Hf as (c1 & c2 & c3 & c4 & H1 & H2 & H3 & H4 & Hy).
    assert (Hd : forall c d, is_digit c = true -> is_digit d = true ->
               forallb_str is_digit
                 (String "2" (String "0" (String c (String d "")))) = true).
    { intros c d Hc Hd. simpl. rewrite Hc, Hd. reflexivity. }
    split; [|split].
    - exists (10 * digit_val c1 + digit_val c2),
             (10 * digit_val c3 + digit_val c4).
      pose proof (digit_val_range c1 H1). pose proof (digit_val_range c2 H2).
      pose proof (digit_val_range c3 H3). pose proof (digit_val_range c4 H4).
      split; [lia|]. split; [lia|]. rewrite Hy. split; [reflexivity|].
      rewrite display_years_two;
        [|apply Hd; assumption|discriminate|apply Hd; assumption|discriminate].
      cbn [digits_value].
      change (digit_val "2") with 2. change (digit_val "0") with 0.
      f_equal. f_equal; [lia|]. f_equal. lia.
    - rewrite Hy. simpl. unfold LabelSpec.label_char.
      rewrite H1, H2, H3, H4. reflexivity.
    - unfold Extractor.metrics_file_name. apply file_name_gives_label.
      rewrite Hy. simpl. unfold LabelSpec.label_char.
      rewrite H1, H2, H3, H4. reflexivity. }
  destruct (Re.search LabelSpec.single_year_pattern
              (Extractor.basename (Extractor.pdf_path doc))) as [m2|].
  { destruct Hf as (Hy & Hl & Hd). split; [|split].
    - rewrite Hy. split; [exact Hl|]. split; [exact Hd|].
      apply display_years_single; [exact Hd|].
      destruct m2; [discriminate | discriminate].
    - rewrite Hy. apply digits_are_label_chars. exact Hd.
    - unfold Extractor.metrics_file_name. apply file_name_gives_label.
      rewrite Hy. apply digits_are_label_chars. exact Hd. }
  destruct Hf as (a & b & Ha & Hna & Hb & Hnb & Hy).
  assert (Hl : forallb_str LabelSpec.label_char (Extractor.year doc) = true).
  { rewrite Hy, forallb_str_app. simpl.
    rewrite (digits_are_label_chars a Ha), (digits_are_label_chars b Hb).
    reflexivity. }
  split; [|split].
  - rewrite Hy. eexists. eexists. apply display_years_two; assumption.
  - exact Hl.
  - unfold Extractor.metrics_file_name. apply file_name_gives_label. exact Hl.
Qed.

Section GuessedPages.
Import Extractor.

Lemma static_guess_not_empty (keyword_lower : string) :
  static_guess keyword_lower <> [].
Proof.
  unfold static_guess.
  repeat match goal with
         | |- context [if ?b then _ else _] => destruct b
         end; discriminate.
Qed.

Lemma small_number_below (w : string) :
  forallb_str is_digit w && (String.length w <=? 3)%nat = true ->
  (Z.to_nat (digits_value 0 w) < 1000)%nat.
Proof.
  intros H. apply andb_true_iff in H. destruct H as [Hd Hl].
  apply Nat.leb_le in Hl.
  destruct w as [|c1 [|c2 [|c3 [|c4 w]]]]; simpl in Hl; try lia;
    simpl in Hd; cbn [digits_value];
    repeat match goal with
           | H : _ && _ = true |- _ =>
               apply andb_true_iff in H; destruct H
           end;
    repeat match goal with
           | H : is_digit ?c = true |- _ =>
               apply digit_val_range in H
           end; lia.
Qed.

Lemma numbers_near_spec (keyword_lower text : string) (l : list nat) :
  numbers_near keyword_lower text = Some l ->
  l <> [] /\ Forall (fun n => (n < 1000)%nat) l.
Proof.
  unfold numbers_near.
  destruct (contains keyword_lower text); [|discriminate].
  apply (first_some_spec (fun l0 : list nat => l0 <> [] /\ Forall (fun n => (n < 1000)%nat) l0)). intros i l1.
  destruct (contains keyword_lower _); [|discriminate].
  apply (first_some_spec (fun l0 : list nat => l0 <> [] /\ Forall (fun n => (n < 1000)%nat) l0)). intros line l2.
  destruct (small_numbers line) as [|w ws] eqn:E; [discriminate|].
  intros [= <-]. split; [discriminate|].
  apply Forall_forall. intros n Hn.
  apply (in_map_iff (fun n => Z.to_nat (digits_value 0 n)) (w :: ws)) in Hn.
  destruct Hn as (x & <- & Hx).
  rewrite <- E in Hx. unfold small_numbers in Hx.
  apply filter_In in Hx. apply small_number_below. apply Hx.
Qed.

End GuessedPages.

(** The pages guessed for a keyword.  The list is never empty.  It is the
    list written in the code for the keyword when the reader raises, and
    also when no contents page names the keyword; any other list is made of
    numbers below 1000, read near the keyword on a contents page. *)
Theorem guessed_pages_are_never_empty
    (doc : Extractor.document) (keyword : string) :
  Extractor._guess_pages_for_keyword doc keyword <> []
  /\ (forall e, Extractor.reader doc = Raise e ->
        Extractor._guess_pages_for_keyword doc keyword
        = Extractor.static_guess (lower keyword))
  /\ (Extractor._guess_pages_for_keyword doc keyword
      = Extractor.static_guess (lower keyword)
      \/ Forall (fun n => (n < 1000)%nat)
           (Extractor._guess_pages_for_keyword doc keyword)).
Proof.
  unfold Extractor._guess_pages_for_keyword.
  set (from_contents := catch _ _).
  assert (Hc : forall l, from_contents = Some l ->
             l <> [] /\ Forall (fun n => (n < 1000)%nat) l).
  { subst from_contents. intros l.
    destruct (Extractor.reader doc) as [pages|]; cbn [bind catch];
      [|discriminate].
    destruct (Extractor.traverse _ (firstn 20 pages)) as [texts|];
      cbn [bind catch]; [|discriminate].
    apply (first_some_spec (fun l0 : list nat => l0 <> [] /\ Forall (fun n => (n < 1000)%nat) l0)).
    intros text l'. apply numbers_near_spec. }
  split; [|split].
  - destruct from_contents as [l|].
    + apply (Hc l eq_refl).
    + apply static_guess_not_empty.
  - intros e He. subst from_contents. rewrite He. reflexivity.
  - destruct from_contents as [l|].
    + right. apply (Hc l eq_refl).
    + left. reflexivity.
Qed.

Section TableOrigin.
Import Extractor.

Lemma tables_of_pages_flavor (doc : document) (lattice : bool)
    (pages : list nat) (t : table) :
  In t (tables_of_pages doc lattice pages) ->
  exists page ts,
    In page pages /\ In t ts
    /\ ((lattice = true /\ camelot doc page Lattice None None = Ok ts)
        \/ (camelot doc page Stream None None = Ok ts
            /\ (lattice = true ->
                camelot doc page Lattice None None = Ok []))).
Proof.
  unfold tables_of_pages. intros H. apply in_flat_map in H.
  destruct H as (page & Hp & H). unfold page_tables in H.
  exists page. destruct lattice.
  - destruct (camelot doc page Lattice None None) as [ts|] eqn:E1;
      simpl in H; [|contradiction].
    destruct ts as [|t0 ts].
    + destruct (camelot doc page Stream None None) as [ts2|] eqn:E2;
        simpl in H; [|contradiction].
      exists ts2. auto.
    + exists (t0 :: ts). auto.
  - destruct (camelot doc page Stream None None) as [ts2|] eqn:E2;
      simpl in H; [|contradiction].
    exists ts2. split; [exact Hp|]. split; [exact H|].
    right. split; [reflexivity | discriminate].
Qed.

End TableOrigin.

(** Where the tables of the chain come from.  Every table the chain returns
    was returned by a backend call with the default options, for a page that
    holds the keyword or, when these pages gave no table, for a guessed
    page.  It comes from the ruled-border backend only when that mode was
    asked for, and from the whitespace-alignment backend on a page only
    when the ruled-border backend was not asked for or returned no table for
    that page. *)
Theorem chain_tables_come_from_the_backends
    (doc : Extractor.document) (keyword : string) (lattice : bool)
    (t : Extractor.table) :
  In t (Extractor._extract_tables_from_page doc keyword lattice) ->
  exists page ts,
    In t ts
    /\ ((exists pages ms,
           Extractor.reader doc = Ok pages
           /\ Extractor.matching_from (lower keyword) 0 pages = Ok ms
           /\ In page ms)
        \/ In page (Extractor._guess_pages_for_keyword doc keyword))
    /\ ((lattice = true
         /\ Extractor.camelot doc page Extractor.Lattice None None = Ok ts)
        \/ (Extractor.camelot doc page Extractor.Stream None None = Ok ts
            /\ (lattice = true ->
                Extractor.camelot doc page Extractor.Lattice None None
                = Ok []))).
Proof.
  unfold Extractor._extract_tables_from_page.
  destruct (Extractor.reader doc) as [pages|] eqn:Er; cbn [bind catch].
  - destruct (Extractor.matching_from (lower keyword) 0 pages) as [ms|]
      eqn:Em; cbn [bind catch].
    + destruct (Extractor.tables_of_pages doc lattice ms) as [|t0 ts0] eqn:Et.
      * intros H. apply tables_of_pages_flavor in H.
        destruct H as (page & ts & Hp & Hin & Hfl).
        exists page, ts. split; [exact Hin|]. split; [right; exact Hp|].
        exact Hfl.
      * rewrite <- Et. intros H. apply tables_of_pages_flavor in H.
        destruct H as (page & ts & Hp & Hin & Hfl).
        exists page, ts. split; [exact Hin|]. split; [|exact Hfl].
        left. exists pages, ms. auto.
    + intros H. apply tables_of_pages_flavor in H.
      destruct H as (page & ts & Hp & Hin & Hfl).
      exists page, ts. split; [exact Hin|]. split; [right; exact Hp|].
      exact Hfl.
  - intros H. apply tables_of_pages_flavor in H.
    destruct H as (page & ts & Hp & Hin & Hfl).
    exists page, ts. split; [exact Hin|]. split; [right; exact Hp|].
    exact Hfl.
Qed.

Lemma chain_tables_come_from_the_backends_witness :
  exists page ts,
    In DocExamples.income_table ts
    /\ Extractor.camelot DocExamples.lattice_empty page Extractor.Stream
         None None = Ok ts
    /\ Extractor.camelot DocExamples.lattice_empty page Extractor.Lattice
         None None = Ok [].
Proof.
  destruct (chain_tables_come_from_the_backends DocExamples.lattice_empty
              "Income Statement" true DocExamples.income_table)
    as (page & ts & Hin & _ & [[_ Hl]|[Hs Hl]]).
  - vm_compute. left. reflexivity.
  - exfalso. revert Hin Hl. unfold DocExamples.lattice_empty.
    cbn [Extractor.camelot DocExamples.one_page].
    destruct (page =? 1)%nat; intros Hin [= <-]; contradiction.
  - exists page, ts. split; [exact Hin|]. split; [exact Hs|].
    exact (Hl eq_refl).
Defined.

Section PlausibleValues.
Import Extractor ExtractorSpec.

Lemma clean_if_accepts (accept : Q -> bool) (cell : string) (v : Q) :
  clean_if accept cell = Some v -> accept v = true.
Proof.
  unfold clean_if. destruct (_clean_numeric_value cell) as [q|]; [|discriminate].
  destruct (accept q) eqn:E; [|discriminate]. intros [= <-]. exact E.
Qed.

Lemma first_in_columns_accepts (accept : Q -> bool) (row : list string)
    (v : Q) :
  first_in_columns accept row = Some v -> accept v = true.
Proof.
  apply (first_some_spec (fun v => accept v = true)).
  intros x y. apply clean_if_accepts.
Qed.

Lemma first_in_cells_accepts (accept : Q -> bool) (row : list string)
    (v : Q) :
  first_in_cells accept row = Some v -> accept v = true.
Proof.
  apply (first_some_spec (fun v => accept v = true)).
  intros x y. apply clean_if_accepts.
Qed.

Lemma scan_labelled_accepts (label : string -> bool) (accept : Q -> bool)
    (rows : list (list string)) (v : Q) :
  scan_labelled label accept rows = Ok (Some v) -> accept v = true.
Proof.
  induction rows as [|row rows IH]; simpl; [discriminate|].
  destruct (row0 row) as [c|]; cbn [bind]; [|discriminate].
  destruct (label (lower c)); [|exact IH].
  destruct (first_in_columns accept row) as [q|] eqn:E; [|exact IH].
  intros [= <-]. eapply first_in_columns_accepts. exact E.
Qed.

Lemma scan_text_accepts (test : string -> bool) (accept : Q -> bool)
    (rows : list (list string)) (v : Q) :
  scan_text test accept rows = Some v -> accept v = true.
Proof.
  apply (first_some_spec (fun v => accept v = true)).
  intros row y. destruct (test (row_text row)); [|discriminate].
  apply first_in_cells_accepts.
Qed.

Lemma scan_keywords_accepts (doc : document) (keywords : list string)
    (lattice : bool) (test : string -> bool) (accept : Q -> bool) (v : Q) :
  scan_keywords doc keywords lattice test accept = Some v -> accept v = true.
Proof.
  apply (first_some_spec (fun v => accept v = true)).
  intros keyword y. apply scan_text_accepts.
Qed.

Lemma find_eps_accepts (doc : document) (v : Q) :
  find_eps doc = Ok (Some v) -> small_positive v = true.
Proof.
  unfold find_eps.
  destruct (scan_labelled is_eps_label small_positive
              (income_statement_rows doc)) as [[q|]|] eqn:E1; cbn [bind];
    [| |discriminate].
  - intros [= <-]. eapply scan_labelled_accepts. exact E1.
  - destruct (scan_keywords doc _ false is_basic_eps small_positive)
      as [q|] eqn:E2.
    + intros [= <-]. eapply scan_keywords_accepts. exact E2.
    + intros [= H]. eapply scan_keywords_accepts. exact H.
Qed.

Lemma find_nav_accepts (doc : document) (v : Q) :
  find_net_asset_per_share doc = Some v -> positive_value v = true.
Proof.
  unfold find_net_asset_per_share.
  destruct (scan_keywords doc ["Summary Indicators"] false is_nav_text
              positive_value) as [q|] eqn:E1.
  - intros [= <-]. eapply scan_keywords_accepts. exact E1.
  - apply scan_keywords_accepts.
Qed.

Lemma positive_value_lt (v : Q) : positive_value v = true -> (0 < v)%Q.
Proof.
  unfold positive_value. intros H. apply negb_true_iff in H.
  apply Qnot_le_lt. intros L. apply Qle_bool_iff in L. congruence.
Qed.

Lemma plausible_price_range (v : Q) :
  plausible_price v = true -> (0 < v)%Q /\ (v < 1000)%Q.
Proof.
  unfold plausible_price. intros H.
  apply andb_true_iff in H. destruct H as [H1 H2].
  apply negb_true_iff in H1. apply negb_true_iff in H2. split.
  - apply Qnot_le_lt. intros L. apply Qle_bool_iff in L. congruence.
  - apply Qnot_le_lt. intros L. apply Qle_bool_iff in L. congruence.
Qed.

Lemma rights_row_price (f : rights_found) (row : list string) :
  (forall p, f_issue_price f = Some p -> plausible_price p = true) ->
  forall p, f_issue_price (rights_row f row) = Some p ->
            plausible_price p = true.
Proof.
  intros Hf p. unfold rights_row.
  destruct (contains "ratio" (row_text row)).
  { destruct (find (contains ":") row); simpl; apply Hf. }
  destruct (contains "price" (row_text row) || contains "issue" (row_text row)).
  { destruct (first_in_cells plausible_price row) as [v|] eqn:E; simpl;
      [|apply Hf].
    intros [= <-]. eapply first_in_cells_accepts. exact E. }
  destruct (contains "date" (row_text row)); [|apply Hf].
  destruct (find (Re.found date_re) row); simpl; apply Hf.
Qed.

Lemma rights_rows_price (rows : list (list string)) (f : rights_found) :
  (forall p, f_issue_price f = Some p -> plausible_price p = true) ->
  forall p, f_issue_price (fold_left rights_row rows f) = Some p ->
            plausible_price p = true.
Proof.
  revert f. induction rows as [|row rows IH]; intros f Hf; simpl; [exact Hf|].
  apply IH. apply rights_row_price. exact Hf.
Qed.

Lemma or_na_not_empty (s : option string) : or_na s <> "".
Proof.
  unfold or_na, nonempty. destruct s as [t|]; [|discriminate].
  destruct (t =? "") eqn:E; simpl; [discriminate|].
  apply String.eqb_neq. exact E.
Qed.

Lemma rights_of_table_plausible (t : table) (r : rights) :
  rights_of_table t = Some r -> RecordSpec.plausible_rights r.
Proof.
  unfold rights_of_table.
  set (f := fold_left rights_row (df t) _).
  destruct (nonempty (f_ratio f) || truthy (f_issue_price f)
            || nonempty (f_date f)); [|discriminate].
  intros [= <-]. split; [apply or_na_not_empty|].
  split; [apply or_na_not_empty|]. simpl. intros p Hp.
  apply plausible_price_range.
  destruct (truthy (f_issue_price f)); [|discriminate].
  subst f. eapply rights_rows_price; [|exact Hp]. discriminate.
Qed.

Lemma rights_step_plausible (doc : document) (d : data) :
  exists r, _extract_right_issues doc d = Ok (set_right_issues r d)
            /\ RecordSpec.plausible_rights r.
Proof.
  unfold _extract_right_issues.
  destruct (first_some _ _) as [r|] eqn:E.
  - exists r. split; [reflexivity|].
    revert E. apply (first_some_spec RecordSpec.plausible_rights).
    intros keyword r'.
    apply (first_some_spec RecordSpec.plausible_rights).
    intros t r''. apply rights_of_table_plausible.
  - eexists. split; [reflexivity|].
    split; [discriminate|]. split; [discriminate|]. discriminate.
Qed.

Lemma stored_rights_plausible (doc : document) :
  exists r, right_issues (extract_all_metrics doc) = Some r
            /\ RecordSpec.plausible_rights r.
Proof.
  rewrite all_metrics_unfold.
  assert (Hb : exists r, right_issues (before_shareholders doc) = Some r
                         /\ RecordSpec.plausible_rights r).
  { unfold before_shareholders. unfold attempt at 1.
    destruct (rights_step_plausible doc
                (attempt (_extract_net_asset_per_share doc)
                   (attempt (_extract_eps doc)
                      (attempt (_calculate_gross_profit_margin doc)
                         (attempt (_extract_gross_profit doc)
                            (attempt (_extract_operating_expenses doc)
                               (attempt (_extract_cost_of_sales doc)
                                  (attempt (_extract_total_revenue doc)
                                     empty_data))))))))
      as (r & -> & Hr).
    exists r. split; [reflexivity | exact Hr]. }
  unfold attempt.
  destruct (_extract_top_shareholders doc (before_shareholders doc))
    as [d'|] eqn:E; cbn [catch]; [|exact Hb].
  destruct (top_shareholders_spec _ _ _ E) as (top & -> & _). exact Hb.
Qed.

Lemma stored_nav (doc : document) :
  num (extract_all_metrics doc) net_asset_per_share
  = Some (expected_net_asset_per_share doc).
Proof.
  rewrite all_metrics_unfold, attempt_shareholders_num.
  unfold before_shareholders. rewrite attempt_rights_num.
  unfold attempt at 1. rewrite nav_step. cbn [catch].
  apply num_set_num_same.
Qed.

End PlausibleValues.

(** The figures the pass stores.  For a document whose tables have at least
    one column, the earnings per share stored are a value of the tables
    strictly between 0 and 100, or the placeholder of the year.  For every
    document, the net asset per share stored is a positive value of the
    tables or the placeholder of the year, and the rights issue stored has a
    ratio and a date that are not empty and, when it has a price, one
    strictly between 0 and 1000. *)
Theorem stored_figures_are_plausible (doc : Extractor.document) :
  (ExtractorSpec.well_formed doc ->
   exists v,
     Extractor.num (Extractor.extract_all_metrics doc) earnings_per_share
     = Some v
     /\ (ExtractorSpec.in_range v
         \/ v = round2 (7 + inject_Z (ExtractorSpec.year_of doc - 2019) * 0.5)))
  /\ (exists v,
        Extractor.num (Extractor.extract_all_metrics doc) net_asset_per_share
        = Some v
        /\ ((0 < v)%Q
            \/ v = round2
                     (150 + inject_Z (ExtractorSpec.year_of doc - 2019) * 5)))
  /\ (exists r,
        Extractor.right_issues (Extractor.extract_all_metrics doc) = Some r
        /\ RecordSpec.plausible_rights r).
Proof.
  split; [|split].
  - intros Hwf. rewrite (all_metrics_expected doc Hwf). simpl.
    eexists. split; [reflexivity|]. unfold ExtractorSpec.expected_eps.
    destruct (Extractor.find_eps doc) as [[v|]|] eqn:E; simpl.
    + left. apply valid_pct_range. eapply find_eps_accepts. exact E.
    + right. reflexivity.
    + right. reflexivity.
  - rewrite stored_nav. eexists. split; [reflexivity|].
    unfold ExtractorSpec.expected_net_asset_per_share.
    destruct (Extractor.find_net_asset_per_share doc) as [v|] eqn:E; simpl.
    + left. apply positive_value_lt. eapply find_nav_accepts. exact E.
    + right. reflexivity.
  - apply stored_rights_plausible.
Qed.

Lemma stored_figures_are_plausible_witness :
  exists v,
    Extractor.num
      (Extractor.extract_all_metrics DocExamples.no_gross_profit_row)
      earnings_per_share = Some v
    /\ (ExtractorSpec.in_range v
        \/ v = round2
                 (7 + inject_Z
                        (ExtractorSpec.year_of DocExamples.no_gross_profit_row
                         - 2019) * 0.5)).
Proof.
  apply (proj1 (stored_figures_are_plausible DocExamples.no_gross_profit_row)).
  intros page fl ts t row Hc Ht Hrow. simpl in Hc.
  destruct (page =? 1)%nat; [destruct fl|]; injection Hc as <-;
    simpl in Ht; try contradiction.
  destruct Ht as [<-|[]]. simpl in Hrow.
  destruct Hrow as [<-|[<-|[<-|[]]]]; discriminate.
Defined.

Section OperatingExpenses.
Import Extractor ExtractorSpec RecordSpec.

Lemma stored_components_expected (doc : document) :
  well_formed doc ->
  stored_components (extract_all_metrics doc) = components (parts_found doc).
Proof.
  intros Hwf. unfold stored_components, components. simpl.
  rewrite !(all_metrics_expected doc Hwf). reflexivity.
Qed.

Lemma part_kept_nonzero (v : option Q) (q : Q) :
  part_kept v = Some q -> ~ Qeq q 0.
Proof.
  unfold part_kept. destruct v as [x|]; simpl; [|discriminate].
  unfold nonzero. destruct (Qeq_bool x 0) eqn:E; simpl; [discriminate|].
  intros [= <-]. apply Qeq_bool_neq. exact E.
Qed.

Lemma components_nonzero (p : opex_parts) :
  Forall (fun q => ~ Qeq q 0) (components p).
Proof.
  unfold components. simpl.
  repeat (apply Forall_app; split); try constructor;
    match goal with
    | |- Forall _ (match part_kept ?v with _ => _ end) =>
        destruct (part_kept v) as [q|] eqn:E; constructor;
        [eapply part_kept_nonzero; exact E | constructor]
    end.
Qed.

End OperatingExpenses.

(** The operating expenses are the sum of their components.  For a document
    whose tables have at least one column, the record holds the selling and
    distribution, the administrative and the other operating expenses that
    were found and are not zero, each under its own key, and the operating
    expenses it holds are their sum; when none was found they are 18% of the
    revenue held, truncated to an integer. *)
Theorem operating_expenses_are_the_sum (doc : Extractor.document) :
  ExtractorSpec.well_formed doc ->
  exists rev,
    Extractor.num (Extractor.extract_all_metrics doc) total_revenue = Some rev
    /\ Extractor.num (Extractor.extract_all_metrics doc) operating_expenses
       = Some (match RecordSpec.stored_components
                       (Extractor.extract_all_metrics doc) with
               | [] => inject_Z (py_trunc (rev * 0.18))
               | l => Extractor.sum_Q l
               end)
    /\ Forall (fun q => ~ Qeq q 0)
         (RecordSpec.stored_components (Extractor.extract_all_metrics doc)).
Proof.
  intros Hwf. exists (ExtractorSpec.expected_revenue doc).
  rewrite (stored_components_expected doc Hwf).
  rewrite !(all_metrics_expected doc Hwf).
  split; [reflexivity|]. split; [reflexivity|]. apply components_nonzero.
Qed.

Lemma operating_expenses_are_the_sum_witness :
  exists rev,
    Extractor.num (Extractor.extract_all_metrics MoreDocs.with_expenses)
      total_revenue = Some rev
    /\ Extractor.num (Extractor.extract_all_metrics MoreDocs.with_expenses)
         operating_expenses
       = Some (match RecordSpec.stored_components
                       (Extractor.extract_all_metrics MoreDocs.with_expenses)
               with
               | [] => inject_Z (py_trunc (rev * 0.18))
               | l => Extractor.sum_Q l
               end)
    /\ Forall (fun q => ~ Qeq q 0)
         (RecordSpec.stored_components
            (Extractor.extract_all_metrics MoreDocs.with_expenses)).
Proof.
  apply (operating_expenses_are_the_sum MoreDocs.with_expenses).
  intros page fl ts t row Hc Ht Hrow. simpl in Hc.
  destruct (page =? 1)%nat; [destruct fl|]; injection Hc as <-;
    simpl in Ht; try contradiction.
  destruct Ht as [<-|[]]. simpl in Hrow.
  destruct Hrow as [<-|[<-|[<-|[<-|[]]]]]; discriminate.
Defined.

Section WithoutTables.
Import Extractor ExtractorSpec RecordSpec.

Lemma round_half_even_comp (x y : Q) :
  Qeq x y -> round_half_even x = round_half_even y.
Proof.
  intros H. unfold round_half_even.
  rewrite (Qfloor_comp x y H).
  assert (Hc : Qcompare (x - inject_Z (Qfloor y)) (1 # 2)
               = Qcompare (y - inject_Z (Qfloor y)) (1 # 2)).
  { apply Qcompare_comp; [rewrite H; reflexivity | reflexivity]. }
  rewrite Hc. reflexivity.
Qed.

Lemma round2_comp (x y : Q) : Qeq x y -> round2 x = round2 y.
Proof.
  intros H. unfold round2.
  rewrite (round_half_even_comp (x * 100) (y * 100)); [reflexivity|].
  rewrite H. reflexivity.
Qed.

Lemma py_trunc_Z (z : Z) : py_trunc (inject_Z z) = z.
Proof.
  unfold py_trunc. destruct (Qle_bool 0 (inject_Z z));
    [apply Qfloor_Z | apply Qceiling_Z].
Qed.

Lemma py_trunc_comp (x y : Q) : Qeq x y -> py_trunc x = py_trunc y.
Proof.
  intros H. unfold py_trunc.
  assert (Hb : Qle_bool 0 x = Qle_bool 0 y).
  { destruct (Qle_bool 0 x) eqn:Ex, (Qle_bool 0 y) eqn:Ey; try reflexivity.
    - apply Qle_bool_iff in Ex. rewrite H in Ex. apply Qle_bool_iff in Ex.
      congruence.
    - apply Qle_bool_iff in Ey. rewrite <- H in Ey. apply Qle_bool_iff in Ey.
      congruence. }
  rewrite Hb, (Qfloor_comp x y H), (Qceiling_comp x y H). reflexivity.
Qed.

Lemma tables_of_pages_none (doc : document) (lattice : bool)
    (pages : list nat) :
  without_tables doc -> tables_of_pages doc lattice pages = [].
Proof.
  intros [Hc _]. unfold tables_of_pages.
  induction pages as [|page pages IH]; simpl; [reflexivity|].
  rewrite IH, app_nil_r. unfold page_tables.
  destruct lattice.
  - destruct (Hc page Lattice) as [E|[e E]]; rewrite E; cbn [bind catch];
      [|reflexivity].
    destruct (Hc page Stream) as [E'|[e' E']]; rewrite E'; reflexivity.
  - destruct (Hc page Stream) as [E'|[e' E']]; rewrite E'; reflexivity.
Qed.

Lemma chain_none (doc : document) (keyword : string) (lattice : bool) :
  without_tables doc -> _extract_tables_from_page doc keyword lattice = [].
Proof.
  intros H. unfold _extract_tables_from_page.
  assert (Hc : catch
                 (pages <- reader doc ;;
                  matching_pages <- matching_from (lower keyword) 0 pages ;;
                  Ok (tables_of_pages doc lattice matching_pages))
                 (fun _ => []) = []).
  { destruct (reader doc) as [pages|]; cbn [bind catch]; [|reflexivity].
    destruct (matching_from (lower keyword) 0 pages); cbn [bind catch];
      [|reflexivity].
    apply tables_of_pages_none. exact H. }
  rewrite Hc. apply tables_of_pages_none. exact H.
Qed.

Lemma scan_keywords_none (doc : document) (keywords : list string)
    (lattice : bool) (test : string -> bool) (accept : Q -> bool) :
  without_tables doc ->
  scan_keywords doc keywords lattice test accept = None.
Proof.
  intros H. unfold scan_keywords. apply first_some_none.
  intros keyword. rewrite (chain_none doc keyword lattice H). reflexivity.
Qed.

Lemma without_tables_well_formed (doc : document) :
  without_tables doc -> well_formed doc.
Proof.
  intros [Hc _] page fl ts t row E Ht.
  destruct (Hc page fl) as [E'|[e E']]; rewrite E' in E; [|discriminate].
  injection E as <-. contradiction.
Qed.

Lemma nothing_found (doc : document) :
  without_tables doc ->
  find_total_revenue doc = Ok None
  /\ find_cost_of_sales doc = Ok None
  /\ find_gross_profit doc = Ok None
  /\ find_eps doc = Ok None
  /\ find_net_asset_per_share doc = None
  /\ find_operating_expenses doc
     = Ok {| selling_expenses := None; admin_expenses := None;
             other_expenses := None |}.
Proof.
  intros H.
  assert (Hi : income_statement_rows doc = []).
  { unfold income_statement_rows. rewrite (chain_none doc _ _ H).
    reflexivity. }
  unfold find_total_revenue, find_cost_of_sales, find_gross_profit, find_eps,
    find_net_asset_per_share, find_operating_expenses.
  rewrite Hi, !(scan_keywords_none doc _ _ _ _ H). cbn [scan_labelled bind].
  split; [|split; [|split; [|split; [|split]]]]; try reflexivity.
  - destruct H as [_ [E|[e E]]]; rewrite E; reflexivity.
  - simpl. rewrite !(chain_none doc _ _ H). reflexivity.
Qed.

End WithoutTables.

Section PlaceholderRecord.
Import Extractor ExtractorSpec RecordSpec.

Lemma trunc_of_integer (x : Q) (m : Z) :
  Qeq x (inject_Z m) -> py_trunc x = m.
Proof. intros H. rewrite (py_trunc_comp _ _ H). apply py_trunc_Z. Qed.

Lemma rights_not_found (doc : document) (d : data) :
  without_tables doc ->
  _extract_right_issues doc d
  = Ok (set_right_issues
          {| ratio := "N/A"; issue_price := None; date := "N/A" |} d).
Proof.
  intros H. unfold _extract_right_issues.
  rewrite first_some_none; [reflexivity|].
  intros keyword. rewrite (chain_none doc keyword false H). reflexivity.
Qed.

Lemma stored_rights_not_found (doc : document) :
  without_tables doc ->
  right_issues (extract_all_metrics doc)
  = Some {| ratio := "N/A"; issue_price := None; date := "N/A" |}.
Proof.
  intros H. rewrite all_metrics_unfold.
  assert (Hb : right_issues (before_shareholders doc)
               = Some {| ratio := "N/A"; issue_price := None;
                         date := "N/A" |}).
  { unfold before_shareholders. unfold attempt at 1.
    rewrite (rights_not_found doc _ H). reflexivity. }
  unfold attempt.
  destruct (_extract_top_shareholders doc (before_shareholders doc))
    as [d'|] eqn:E; cbn [catch]; [|exact Hb].
  destruct (top_shareholders_spec _ _ _ E) as (top & -> & _). exact Hb.
Qed.

Lemma placeholder_margin (y : Z) :
  (if Qeq_bool (inject_Z (100000000 + (y - 2019) * 10000000)) 0
   then round2 (20 + inject_Z (y - 2019) * -0.5)
   else round2
          ((inject_Z (100000000 + (y - 2019) * 10000000)
            - inject_Z (7500000 * (y - 2009)))
           / inject_Z (100000000 + (y - 2019) * 10000000) * 100))
  = 25%Q.
Proof.
  destruct (Qeq_bool _ 0) eqn:E.
  - apply Qeq_bool_iff in E. unfold Qeq in E. cbn [Qnum Qden inject_Z] in E.
    assert (Hy : y = 2009) by lia. subst y. vm_compute. reflexivity.
  - apply Qeq_bool_neq in E.
    rewrite (round2_comp _ 25); [reflexivity|].
    assert (H : Qeq (inject_Z (100000000 + (y - 2019) * 10000000)
                     - inject_Z (7500000 * (y - 2009)))
                    (inject_Z (100000000 + (y - 2019) * 10000000) * (1 # 4))).
    { unfold Qeq, Qminus, Qplus, Qopp, Qmult, inject_Z.
      cbn [Qnum Qden]. lia. }
    rewrite H. field. exact E.
Qed.

End PlaceholderRecord.

(** The record of a report without tables.  When no backend finds a table
    or a frame, every figure is a function of the first year of the label,
    [y]: the revenue is 10000000 (y - 2009), the cost of sales three
    quarters of it, the operating expenses 18% of it and the gross profit a
    quarter of it; the margin is 25 whatever the year; the earnings and the
    net asset per share are the placeholders of the year, and the rights
    issue is ['N/A']. *)
Theorem record_of_a_report_without_tables (doc : Extractor.document) :
  RecordSpec.without_tables doc ->
  Extractor.num (Extractor.extract_all_metrics doc) total_revenue
  = Some (inject_Z (10000000 * (ExtractorSpec.year_of doc - 2009)))
  /\ Extractor.num (Extractor.extract_all_metrics doc) cost_of_sales
     = Some (inject_Z (7500000 * (ExtractorSpec.year_of doc - 2009)))
  /\ Extractor.num (Extractor.extract_all_metrics doc) operating_expenses
     = Some (inject_Z (1800000 * (ExtractorSpec.year_of doc - 2009)))
  /\ value_is
       (Extractor.num (Extractor.extract_all_metrics doc) gross_profit)
       (inject_Z (2500000 * (ExtractorSpec.year_of doc - 2009)))
  /\ Extractor.num (Extractor.extract_all_metrics doc) gross_profit_margin
     = Some 25%Q
  /\ Extractor.num (Extractor.extract_all_metrics doc) earnings_per_share
     = Some (round2 (7 + inject_Z (ExtractorSpec.year_of doc - 2019) * 0.5))
  /\ Extractor.num (Extractor.extract_all_metrics doc) net_asset_per_share
     = Some (round2 (150 + inject_Z (ExtractorSpec.year_of doc - 2019) * 5))
  /\ Extractor.right_issues (Extractor.extract_all_metrics doc)
     = Some {| Extractor.ratio := "N/A"; Extractor.issue_price := None;
               Extractor.date := "N/A" |}.
Proof.
  intros H. pose proof (without_tables_well_formed doc H) as Hwf.
  destruct (nothing_found doc H) as (Hr & Hc & Hg & He & Hn & Ho).
  set (y := ExtractorSpec.year_of doc).
  assert (Erev : ExtractorSpec.expected_revenue doc
                 = inject_Z (100000000 + (y - 2019) * 10000000)).
  { unfold ExtractorSpec.expected_revenue. rewrite Hr. reflexivity. }
  assert (Ecos : ExtractorSpec.expected_cost_of_sales doc
                 = inject_Z (7500000 * (y - 2009))).
  { unfold ExtractorSpec.expected_cost_of_sales. rewrite Hc, Erev.
    cbn [ExtractorSpec.found ExtractorSpec.or_default].
    f_equal. apply trunc_of_integer.
    unfold Qeq, Qmult, inject_Z. cbn [Qnum Qden]. lia. }
  assert (Eopex : ExtractorSpec.expected_operating_expenses doc
                  = inject_Z (1800000 * (y - 2009))).
  { unfold ExtractorSpec.expected_operating_expenses,
      ExtractorSpec.parts_found. rewrite Ho, Erev.
    change (ExtractorSpec.components _) with (@nil Q). lazy beta iota.
    f_equal. apply trunc_of_integer.
    unfold Qeq, Qmult, inject_Z. cbn [Qnum Qden]. lia. }
  assert (Egp : ExtractorSpec.expected_gross_profit doc
                = (inject_Z (100000000 + (y - 2019) * 10000000)
                   - inject_Z (7500000 * (y - 2009)))%Q).
  { unfold ExtractorSpec.expected_gross_profit. rewrite Hg, Erev, Ecos.
    reflexivity. }
  rewrite !(all_metrics_expected doc Hwf). cbn [ExtractorSpec.expected].
  rewrite Ecos, Eopex.
  split; [rewrite Erev; do 2 f_equal; lia|].
  split; [reflexivity|]. split; [reflexivity|]. split.
  { eexists. split; [reflexivity|]. rewrite Egp.
    unfold Qeq, Qminus, Qplus, Qopp, inject_Z. cbn [Qnum Qden]. lia. }
  split.
  { unfold ExtractorSpec.expected_margin. rewrite Egp, Erev.
    f_equal. apply placeholder_margin. }
  split.
  { unfold ExtractorSpec.expected_eps. rewrite He. reflexivity. }
  split.
  { unfold ExtractorSpec.expected_net_asset_per_share. rewrite Hn.
    reflexivity. }
  apply stored_rights_not_found. exact H.
Qed.

Lemma record_of_a_report_without_tables_witness :
  Extractor.num (Extractor.extract_all_metrics MoreDocs.report_20_21)
    total_revenue
  = Some (inject_Z
            (10000000 * (ExtractorSpec.year_of MoreDocs.report_20_21 - 2009)))
  /\ Extractor.num (Extractor.extract_all_metrics MoreDocs.report_20_21)
       gross_profit_margin = Some 25%Q.
Proof.
  destruct (record_of_a_report_without_tables MoreDocs.report_20_21)
    as (Hr & _ & _ & _ & Hm & _).
  - split.
    + intros page fl. left. reflexivity.
    + left. reflexivity.
  - split; [exact Hr | exact Hm].
Defined.

(** The special handling of the 2022-23 report stores nothing.  Its test
    for shareholder names looks at the numbers of the rows and not at the
    rows, so it returns no list whatever the tables; a report other than
    that of 2023-24 is therefore resolved by the standard approach, unless
    the report is that of 2022-23 and reading its pages raises: then the
    resolver raises and the record is left without shareholders. *)
Theorem special_handling_2022_23_stores_nothing
    (doc : Extractor.document) (d : Extractor.data) :
  (forall o, Extractor.extraction_2022_23 doc = Ok o -> o = None)
  /\ (contains "23-24" (Extractor.pdf_path doc)
      || contains "2023-2024" (Extractor.year doc) = false ->
      Extractor._extract_top_shareholders doc d
      = Extractor.standard_extraction doc d
      \/ (contains "22-23" (Extractor.pdf_path doc)
          || contains "2022-2023" (Extractor.year doc) = true
          /\ exists e,
               Extractor.extraction_2022_23 doc = Raise e
               /\ Extractor._extract_top_shareholders doc d = Raise e
               /\ Extractor.top_shareholders
                    (Extractor.extract_all_metrics doc) = None)).
Proof.
  split; [apply extraction_2022_23_none|].
  intros H.
  assert (Hu : forall d0,
             Extractor._extract_top_shareholders doc d0
             = if contains "22-23" (Extractor.pdf_path doc)
                  || contains "2022-2023" (Extractor.year doc)
               then match Extractor.extraction_2022_23 doc with
                    | Ok (Some top) =>
                        Ok (Extractor.set_top_shareholders top d0)
                    | Ok None => Extractor.standard_extraction doc d0
                    | Raise e => Raise e
                    end
               else Extractor.standard_extraction doc d0).
  { intros d0. unfold Extractor._extract_top_shareholders. rewrite H.
    destruct (contains "22-23" (Extractor.pdf_path doc)
              || contains "2022-2023" (Extractor.year doc));
      [|reflexivity].
    destruct (Extractor.extraction_2022_23 doc) as [[top|]|e]; reflexivity. }
  destruct (contains "22-23" (Extractor.pdf_path doc)
            || contains "2022-2023" (Extractor.year doc)) eqn:E22;
    [|left; apply Hu].
  destruct (Extractor.extraction_2022_23 doc) as [o|e] eqn:E.
  - pose proof (extraction_2022_23_none doc o E) as ->. left. apply Hu.
  - right. split; [reflexivity|]. exists e.
    split; [reflexivity|]. split; [apply Hu|].
    rewrite all_metrics_unfold. unfold Extractor.attempt at 1.
    rewrite Hu. cbn [catch]. apply before_shareholders_top.
Qed.

Lemma special_handling_2022_23_stores_nothing_witness :
  Extractor._extract_top_shareholders LegacyDocs.report_22_23
    Extractor.empty_data
  = Extractor.standard_extraction LegacyDocs.report_22_23
      Extractor.empty_data
  /\ Extractor.top_shareholders
       (Extractor.extract_all_metrics LegacyDocs.unreadable_22_23) = None.
Proof.
  split.
  - destruct (proj2 (special_handling_2022_23_stores_nothing
                       LegacyDocs.report_22_23 Extractor.empty_data)
                eq_refl) as [H|(_ & e & He & _)].
    + exact H.
    + vm_compute in He. discriminate.
  - destruct (proj2 (special_handling_2022_23_stores_nothing
                       LegacyDocs.unreadable_22_23 Extractor.empty_data)
                eq_refl) as [H|(_ & e & _ & _ & Hn)].
    + vm_compute. reflexivity.
    + exact Hn.
Defined.

(* ------------------------------------------------------------------ *)
(** * From the reports to the dashboard *)

Section MetricsFile.
Import App Extractor.

Lemma written_rows (d : data) (rows : list (string * Q)) :
  PipelineSpec.written_for d rows ->
  exists v1 v2 v3 v4 v5 v6 v7,
    rows = [ ("Total Revenue", v1); ("Cost of Sales", v2);
             ("Operating Expenses", v3); ("Gross Profit", v4);
             ("Gross Profit Margin (%)", v5); ("Earnings Per Share", v6);
             ("Net Asset Per Share", v7) ]
    /\ num d total_revenue = Some v1 /\ num d cost_of_sales = Some v2
    /\ num d operating_expenses = Some v3 /\ num d gross_profit = Some v4
    /\ num d gross_profit_margin = Some v5
    /\ num d earnings_per_share = Some v6
    /\ num d net_asset_per_share = Some v7.
Proof.
  unfold PipelineSpec.written_for, metrics_df. intros H.
  repeat match goal with
         | H : Forall2 _ _ (_ :: _) |- _ =>
             inversion H as [|[? ?] ? ? ? [? ?] ?]; subst; clear H
         | H : Forall2 _ _ [] |- _ => inversion H; subst; clear H
         end.
  cbn [fst snd] in *. subst.
  do 7 eexists. split; [reflexivity|]. repeat split; symmetry; assumption.
Qed.

End MetricsFile.

(** The metrics file of a report, read back.  From the rows
    [save_data_to_csv] writes for a record, the CSV loader takes the
    revenue, the cost of sales, the operating expenses, the gross profit,
    the earnings per share and the net asset per share as they were
    extracted.  The margin it takes is 0, whatever the record holds: the row
    is written with the label [Gross Profit Margin (%)] and looked up under
    [gross_profit_margin]. *)
Theorem saved_margin_is_not_read_back (d : Extractor.data)
    (rows : list (string * Q)) (display_year : Z) :
  PipelineSpec.written_for d rows ->
  let fin :=
    App.y_financials (App.csv_yearly (App.metrics_dict_of rows) display_year) in
  App.revenue fin = Extractor.num d total_revenue
  /\ App.costOfSales fin = Extractor.num d cost_of_sales
  /\ App.operatingExpenses fin = Extractor.num d operating_expenses
  /\ App.grossProfit fin = Extractor.num d gross_profit
  /\ App.eps fin = Extractor.num d earnings_per_share
  /\ App.netAssetPerShare fin = Extractor.num d net_asset_per_share
  /\ App.grossProfitMargin fin = Some 0%Q
  /\ App.grossProfitMarginFormatted fin = Some "0.00%"
  /\ dict_get String.eqb "gross_profit_margin_(%)" (App.metrics_dict_of rows)
     = Extractor.num d gross_profit_margin.
Proof.
  intros H. destruct (written_rows d rows H)
    as (v1 & v2 & v3 & v4 & v5 & v6 & v7 & -> & H1 & H2 & H3 & H4 & H5 & H6 & H7).
  cbv zeta. rewrite H1, H2, H3, H4, H5, H6, H7.
  unfold App.csv_yearly.
  cbn [App.y_financials App.revenue App.costOfSales App.operatingExpenses
       App.grossProfit App.eps App.netAssetPerShare App.grossProfitMargin
       App.grossProfitMarginFormatted].
  repeat split; vm_compute; reflexivity.
Qed.

Lemma saved_margin_is_not_read_back_witness :
  Extractor.num (Extractor.extract_all_metrics DocExamples.no_gross_profit_row)
    gross_profit_margin = Some 30%Q
  /\ App.grossProfitMargin
       (App.y_financials
          (App.csv_yearly
             (App.metrics_dict_of
                (PipelineExamples.rows_of
                   (Extractor.extract_all_metrics
                      DocExamples.no_gross_profit_row)))
             2020))
     = Some 0%Q.
Proof.
  split; [vm_compute; reflexivity|].
  apply (saved_margin_is_not_read_back
           (Extractor.extract_all_metrics DocExamples.no_gross_profit_row)
           (PipelineExamples.rows_of
              (Extractor.extract_all_metrics DocExamples.no_gross_profit_row))
           2020).
  vm_compute. repeat constructor.
Defined.

(* ------------------------------------------------------------------ *)
(** ** The loop over the reports of a folder *)

Section StringDicts.
Context {V : Type}.

Lemma dict_get_set_str (k k' : string) (v : V) (d : list (string * V)) :
  dict_get String.eqb k' (dict_set String.eqb k v d)
  = if (k =? k') then Some v else dict_get String.eqb k' d.
Proof.
  induction d as [|[k0 v0] d IH]; simpl; [reflexivity|].
  destruct (k0 =? k) eqn:E0; simpl.
  - apply String.eqb_eq in E0. subst k0.
    destruct (k =? k'); reflexivity.
  - rewrite IH. destruct (k0 =? k') eqn:E1; [|reflexivity].
    apply String.eqb_eq in E1. subst k0. rewrite String.eqb_sym, E0.
    reflexivity.
Qed.

Lemma dict_get_in_keys (k : string) (d : list (string * V)) :
  In k (map fst d) <-> dict_get String.eqb k d <> None.
Proof.
  induction d as [|[k0 v0] d IH]; simpl; [tauto|].
  destruct (k0 =? k) eqn:E0.
  - apply String.eqb_eq in E0. subst k0. split; [discriminate | tauto].
  - rewrite <- IH. split; [|tauto].
    intros [->|H]; [|exact H]. rewrite String.eqb_refl in E0. discriminate.
Qed.

Lemma dict_get_In (k : string) (v : V) (d : list (string * V)) :
  dict_get String.eqb k d = Some v -> In (k, v) d.
Proof.
  induction d as [|[k0 v0] d IH]; simpl; [discriminate|].
  destruct (k0 =? k) eqn:E0.
  - apply String.eqb_eq in E0. subst k0. intros [= ->]. left. reflexivity.
  - intros H. right. apply IH, H.
Qed.

End StringDicts.

Lemma dict_set_same_keys {V W : Type} (k : string) (v : V) (w : W)
    (d1 : list (string * V)) (d2 : list (string * W)) :
  map fst d1 = map fst d2 ->
  map fst (dict_set String.eqb k v d1) = map fst (dict_set String.eqb k w d2).
Proof.
  revert d2. induction d1 as [|[k1 v1] d1 IH]; intros [|[k2 v2] d2]; simpl;
    try discriminate; [reflexivity|].
  intros [= -> H]. destruct (k2 =? k); simpl; [congruence|].
  rewrite (IH d2 H). reflexivity.
Qed.

Lemma find_app_or {A : Type} (p : A -> bool) (l1 l2 : list A) :
  find p (l1 ++ l2)
  = match find p l1 with Some x => Some x | None => find p l2 end.
Proof.
  induction l1 as [|a l1 IH]; simpl; [reflexivity|].
  destruct (p a); [reflexivity | exact IH].
Qed.

Lemma find_filter_and {A : Type} (q p : A -> bool) (l : list A) :
  find p (filter q l) = find (fun x => q x && p x) l.
Proof.
  induction l as [|a l IH]; simpl; [reflexivity|].
  destruct (q a); simpl; [|exact IH].
  destruct (p a); [reflexivity | exact IH].
Qed.

Lemma find_pointwise {A : Type} (p q : A -> bool) (l : list A) :
  (forall x, p x = q x) -> find p l = find q l.
Proof.
  intros H. induction l as [|a l IH]; simpl; [reflexivity|].
  rewrite H, IH. reflexivity.
Qed.

Section SortedKeys.
Import Extractor.

Lemma insert_key_perm (k : string) (l : list string) :
  Permutation (insert_key k l) (k :: l).
Proof.
  induction l as [|x l IH]; simpl; [reflexivity|].
  destruct (String.leb k x); [reflexivity|].
  rewrite IH. apply perm_swap.
Qed.

Lemma sorted_keys_perm (l : list string) : Permutation (sorted_keys l) l.
Proof.
  induction l as [|x l IH]; simpl; [reflexivity|].
  rewrite insert_key_perm. constructor. exact IH.
Qed.

Lemma insert_key_sorted (k : string) (l : list string) :
  PipelineSpec.ascending l -> PipelineSpec.ascending (insert_key k l).
Proof.
  unfold PipelineSpec.ascending.
  induction l as [|x l IH]; simpl; intros H.
  - repeat constructor.
  - destruct (String.leb k x) eqn:E.
    + constructor; [exact H | constructor; exact E].
    + inversion H as [|? ? Hs Hh]; subst.
      constructor; [apply IH, Hs|].
      assert (Hxk : String.leb x k = true).
      { destruct (String.leb_total k x) as [H1|H1]; [congruence | exact H1]. }
      destruct l as [|y l]; simpl.
      * constructor. exact Hxk.
      * destruct (String.leb k y); constructor; [exact Hxk|].
        inversion Hh; assumption.
Qed.

Lemma sorted_keys_sorted (l : list string) :
  PipelineSpec.ascending (sorted_keys l).
Proof.
  induction l as [|x l IH]; simpl; [constructor|].
  apply insert_key_sorted, IH.
Qed.

End SortedKeys.

Section ExportFacts.
Import Extractor.

Local Abbreviation export_year raw_data formatted_data :=
  (fun year =>
     year_data <- item_of raw_data year ;;
     formatted_year_data <- item_of formatted_data year ;;
     Ok (year, financial_metrics year_data formatted_year_data)).

(** an entry of the exported document *)
Local Abbreviation exported_from raw_data formatted_data :=
  (fun item : string * exported_year =>
     exists d f,
       dict_get String.eqb (fst item) raw_data = Some d
       /\ dict_get String.eqb (fst item) formatted_data = Some f
       /\ snd item = financial_metrics d f).

Lemma traverse_export (raw_data : list (string * data))
    (formatted_data : list (string * display)) (years : list string)
    (l : list (string * exported_year)) :
  traverse (export_year raw_data formatted_data) years = Ok l ->
  map fst l = years /\ Forall (exported_from raw_data formatted_data) l.
Proof.
  revert l. induction years as [|y years IH]; intros l; simpl.
  - intros [= <-]. split; [reflexivity | constructor].
  - unfold item_of at 1 2.
    destruct (dict_get String.eqb y raw_data) as [d|] eqn:Ed;
      cbn [bind]; [|discriminate].
    destruct (dict_get String.eqb y formatted_data) as [f|] eqn:Ef;
      cbn [bind]; [|discriminate].
    destruct (traverse _ years) as [l'|] eqn:Et; cbn [bind]; [|discriminate].
    intros [= <-]. destruct (IH l' eq_refl) as [Hk Hall].
    split; [simpl; congruence|].
    constructor; [|exact Hall]. exists d, f. auto.
Qed.

Lemma traverse_export_ok (raw_data : list (string * data))
    (formatted_data : list (string * display)) (years : list string) :
  (forall y, In y years ->
             dict_get String.eqb y raw_data <> None
             /\ dict_get String.eqb y formatted_data <> None) ->
  exists l, traverse (export_year raw_data formatted_data) years = Ok l.
Proof.
  induction years as [|y years IH]; intros H; simpl; [eauto|].
  destruct (H y (or_introl eq_refl)) as [Hr Hf]. unfold item_of at 1 2.
  destruct (dict_get String.eqb y raw_data) as [d|]; [|congruence].
  destruct (dict_get String.eqb y formatted_data) as [f|]; [|congruence].
  cbn [bind].
  destruct IH as [l' ->]; [intros y' Hy'; apply H; right; exact Hy'|].
  cbn [bind]. eauto.
Qed.

Lemma export_spec (now : string) (raw_data : list (string * data))
    (formatted_data : list (string * display)) (e : exported) :
  export_data_to_json now raw_data formatted_data = Ok e ->
  total_years e = length raw_data
  /\ years_covered e = sorted_keys (map fst raw_data)
  /\ map fst (ex_financial_data e) = years_covered e
  /\ Forall (exported_from raw_data formatted_data) (ex_financial_data e).
Proof.
  unfold export_data_to_json.
  destruct (traverse _ (sorted_keys (map fst raw_data))) as [l|] eqn:Et;
    cbn [bind]; [|discriminate].
  intros [= <-]. cbn [total_years years_covered ex_financial_data].
  destruct (traverse_export _ _ _ _ Et) as [Hk Hall]. auto.
Qed.

Lemma export_ok (now : string) (raw_data : list (string * data))
    (formatted_data : list (string * display)) :
  (forall y, In y (map fst raw_data) ->
             dict_get String.eqb y formatted_data <> None) ->
  exists e, export_data_to_json now raw_data formatted_data = Ok e.
Proof.
  intros H. unfold export_data_to_json.
  destruct (traverse_export_ok raw_data formatted_data
              (sorted_keys (map fst raw_data))) as [l ->].
  - intros y Hy.
    apply (Permutation_in _ (sorted_keys_perm _)) in Hy.
    split; [apply dict_get_in_keys, Hy | apply H, Hy].
  - cbn [bind]. eauto.
Qed.

End ExportFacts.

Section Batch.
Import Extractor.
Variable save : document -> data -> result unit.

Local Abbreviation saved_with y :=
  (fun doc => is_ok (save doc (extract_all_metrics doc)) && (year doc =? y)).

Lemma process_report_cases
    (acc : list (string * display) * list (string * data)) (doc : document) :
  (is_ok (save doc (extract_all_metrics doc)) = true
   /\ process_report save acc doc
      = (dict_set String.eqb (year doc)
           (format_data_for_display (extract_all_metrics doc)) (fst acc),
         dict_set String.eqb (year doc) (extract_all_metrics doc) (snd acc)))
  \/ (is_ok (save doc (extract_all_metrics doc)) = false
      /\ process_report save acc doc = acc).
Proof.
  unfold process_report.
  destruct (save doc (extract_all_metrics doc)) as [u|x]; cbn [bind catch is_ok].
  - left. split; reflexivity.
  - right. split; reflexivity.
Qed.

Lemma batch_loop (l : list document)
    (acc : list (string * display) * list (string * data)) :
  map fst (fst acc) = map fst (snd acc) ->
  NoDup (map fst (snd acc)) ->
  (forall y, dict_get String.eqb y (fst acc)
             = option_map format_data_for_display
                 (dict_get String.eqb y (snd acc))) ->
  let r := fold_left (process_report save) l acc in
  map fst (fst r) = map fst (snd r)
  /\ NoDup (map fst (snd r))
  /\ (forall y, dict_get String.eqb y (fst r)
                = option_map format_data_for_display
                    (dict_get String.eqb y (snd r)))
  /\ forall y, dict_get String.eqb y (snd r)
               = match find (saved_with y) (rev l) with
                 | Some doc => Some (extract_all_metrics doc)
                 | None => dict_get String.eqb y (snd acc)
                 end.
Proof.
  revert acc. induction l as [|doc l IH]; intros acc Hk Hn Hf; cbv zeta.
  - simpl. auto.
  - cbn [fold_left rev].
    assert (Hstep :
      map fst (fst (process_report save acc doc))
      = map fst (snd (process_report save acc doc))
      /\ NoDup (map fst (snd (process_report save acc doc)))
      /\ (forall y, dict_get String.eqb y (fst (process_report save acc doc))
                    = option_map format_data_for_display
                        (dict_get String.eqb y
                           (snd (process_report save acc doc))))
      /\ forall y, dict_get String.eqb y (snd (process_report save acc doc))
                   = if saved_with y doc then Some (extract_all_metrics doc)
                     else dict_get String.eqb y (snd acc)).
    { destruct (process_report_cases acc doc) as [[Hs ->]|[Hs ->]];
        rewrite Hs; cbn [fst snd andb].
      - split; [apply dict_set_same_keys, Hk|].
        split; [apply dict_set_NoDup, Hn|].
        split; intros y; rewrite !dict_get_set_str;
          [rewrite Hf|]; destruct (year doc =? y); reflexivity.
      - auto. }
    destruct Hstep as (Hk' & Hn' & Hf' & Hg').
    destruct (IH _ Hk' Hn' Hf') as (H1 & H2 & H3 & H4).
    split; [exact H1|]. split; [exact H2|]. split; [exact H3|].
    intros y. rewrite H4, find_app_or.
    destruct (find _ (rev l)); [reflexivity|].
    simpl. rewrite Hg'. destruct (saved_with y doc); reflexivity.
Qed.

End Batch.

(** The loop over the reports of a folder.  Under a label the two dicts hold
    the record, and its display form, of the last PDF of the folder with
    this label that was extracted and saved; a file that is no PDF and a
    report whose save raised leave no trace.  The two dicts have the same
    keys in the same order, so the export of the result never raises: it
    lists the labels in the order of [sorted], once each, and holds for
    each label the entry made of the record and of its display form. *)
Theorem batch_keeps_the_last_report_of_a_label
    (folder : list Extractor.document)
    (save : Extractor.document -> Extractor.data -> result unit) :
  let all_data := fst (Extractor.extract_data_from_multiple_reports folder save) in
  let all_raw_data :=
    snd (Extractor.extract_data_from_multiple_reports folder save) in
  (forall y,
      dict_get String.eqb y all_raw_data
      = option_map Extractor.extract_all_metrics
          (find (PipelineSpec.processed save y) (rev folder)))
  /\ (forall y,
         dict_get String.eqb y all_data
         = option_map Extractor.format_data_for_display
             (dict_get String.eqb y all_raw_data))
  /\ map fst all_data = map fst all_raw_data
  /\ NoDup (map fst all_raw_data)
  /\ forall now,
       exists e,
         Extractor.export_data_to_json now all_raw_data all_data = Ok e
         /\ Extractor.total_years e = length all_raw_data
         /\ map fst (Extractor.ex_financial_data e) = Extractor.years_covered e
         /\ PipelineSpec.ascending (Extractor.years_covered e)
         /\ Permutation (Extractor.years_covered e) (map fst all_raw_data)
         /\ forall y ey,
              In (y, ey) (Extractor.ex_financial_data e) ->
              exists d,
                dict_get String.eqb y all_raw_data = Some d
                /\ ey = Extractor.financial_metrics d
                          (Extractor.format_data_for_display d).
Proof.
  cbv zeta. unfold Extractor.extract_data_from_multiple_reports.
  destruct (batch_loop save
              (filter (fun doc => Extractor.is_pdf (Extractor.pdf_path doc))
                 folder) ([], []))
    as (Hk & Hn & Hf & Hg); [reflexivity | constructor | reflexivity |].
  set (r := fold_left _ _ _) in *.
  split; [|split; [exact Hf|split; [exact Hk|split; [exact Hn|]]]].
  - intros y. rewrite Hg, <- filter_rev, find_filter_and.
    unfold PipelineSpec.processed.
    rewrite (find_pointwise _ (PipelineSpec.processed save y))
      by (intros doc; unfold PipelineSpec.processed; apply andb_assoc).
    destruct (find _ (rev folder)); reflexivity.
  - intros now.
    destruct (export_ok now (snd r) (fst r)) as [e He].
    { intros y Hy. rewrite Hf. apply dict_get_in_keys in Hy.
      destruct (dict_get String.eqb y (snd r)); [discriminate | congruence]. }
    exists e. split; [exact He|].
    destruct (export_spec _ _ _ _ He) as (Ht & Hy & Hm & Hall).
    split; [exact Ht|]. split; [exact Hm|].
    split; [rewrite Hy; apply sorted_keys_sorted|].
    split; [rewrite Hy; apply sorted_keys_perm|].
    intros y ey Hin. rewrite Forall_forall in Hall.
    destruct (Hall _ Hin) as (d & f & Hd & Hfd & Hey). simpl in *.
    exists d. split; [exact Hd|].
    rewrite Hf, Hd in Hfd. injection Hfd as <-. exact Hey.
Qed.

(* ------------------------------------------------------------------ *)
(** ** The exported document under the consolidation transform *)

Section Served.
Import App AppSpec.
Variable float_str : string -> result Q.

Local Abbreviation loaded d f :=
  (Extractor.loaded_year (Extractor.financial_metrics d f)).

(** the rights issue a record gives under a display year *)
Local Abbreviation issue_at dy d ri :=
  (exists r,
      Extractor.right_issues d = Some r
      /\ Extractor.ratio r <> "N/A"
      /\ ri_year ri = dy
      /\ ri_ratio ri = JStr (Extractor.ratio r)
      /\ ri_issuePrice ri = Extractor.issue_price r
      /\ ri_description ri = "Rights issue").

Lemma loaded_financials (d : Extractor.data) (f : Extractor.display) :
  match Extractor.num d earnings_per_share with
  | Some v =>
      exists fin, build_financials (loaded d f) = Ok fin
                  /\ PipelineSpec.figures_of d fin
  | None => build_financials (loaded d f) = Raise TypeError
  end.
Proof.
  unfold build_financials, metric_of, Extractor.loaded_year,
    Extractor.financial_metrics.
  cbn [yj_metrics Extractor.ey_metrics Extractor.is_money option_map bind
       value Extractor.em_value].
  destruct (Extractor.num d earnings_per_share) as [v|] eqn:Ev;
    [|reflexivity].
  eexists. split; [reflexivity|].
  unfold PipelineSpec.figures_of.
  cbn [revenue costOfSales operatingExpenses grossProfit grossProfitMargin
       eps netAssetPerShare value Extractor.em_value].
  rewrite Ev. repeat split.
Qed.

Lemma add_right_issue_in (r x : right_issue) (l : list right_issue) :
  In x (add_right_issue r l) -> In x l \/ x = r.
Proof.
  unfold add_right_issue. destruct (existsb _ l); [tauto|].
  intros H. apply in_app_or in H. destruct H as [H|[<-|[]]]; tauto.
Qed.

Lemma add_right_issue_keeps (r x : right_issue) (l : list right_issue) :
  In x l -> In x (add_right_issue r l).
Proof.
  unfold add_right_issue. destruct (existsb _ l); [tauto|].
  intros H. apply in_or_app. tauto.
Qed.

Lemma add_right_issue_has (r : right_issue) (l : list right_issue) (s : string) :
  ri_ratio r = JStr s ->
  exists x, In x (add_right_issue r l)
            /\ ri_year x = ri_year r /\ ri_ratio x = JStr s.
Proof.
  intros Hr. unfold add_right_issue.
  destruct (existsb _ l) eqn:E.
  - apply existsb_exists in E. destruct E as (x & Hin & Hx).
    apply andb_true_iff in Hx. destruct Hx as [Hy Hq].
    apply Z.eqb_eq in Hy. exists x. split; [exact Hin|]. split; [exact Hy|].
    rewrite Hr in Hq. destruct (ri_ratio x) as [|q|s']; simpl in Hq;
      try discriminate.
    apply String.eqb_eq in Hq. congruence.
  - exists r. split; [apply in_or_app; right; left; reflexivity|]. auto.
Qed.

(** the rights issue of an exported record, under one display year *)
Lemma loaded_rights (dy : Z) (d : Extractor.data) (f : Extractor.display)
    (t : dataset) :
  exists t',
    process_right_issues float_str dy (loaded d f) t = Ok t'
    /\ (forall ri, In ri (rightIssues t) -> In ri (rightIssues t'))
    /\ (forall ri, In ri (rightIssues t') ->
                   In ri (rightIssues t) \/ issue_at dy d ri)
    /\ (forall r, Extractor.right_issues d = Some r ->
                  Extractor.ratio r <> "N/A" ->
                  exists ri, In ri (rightIssues t')
                             /\ ri_year ri = dy
                             /\ ri_ratio ri = JStr (Extractor.ratio r)).
Proof.
  unfold process_right_issues, Extractor.loaded_year,
    Extractor.financial_metrics.
  cbn [yj_right_issues Extractor.ey_right_issues].
  destruct (Extractor.right_issues d) as [r|]; cbn [option_map].
  2:{ exists t. split; [reflexivity|]. split; [auto|]. split; [auto|].
      intros r [=]. }
  cbn [rj_ratio rj_issue_price get_or jval_eqb].
  destruct (Extractor.ratio r =? "N/A") eqn:En; cbn [negb].
  { apply String.eqb_eq in En.
    exists t. split; [reflexivity|]. split; [auto|]. split; [auto|].
    intros r' [= <-] Hne. contradiction. }
  assert (Hne : Extractor.ratio r <> "N/A").
  { intros E. rewrite E in En. discriminate. }
  assert (Hp : (if negb (jval_eqb
                           match Extractor.issue_price r with
                           | Some q => JNum q
                           | None => JStr "N/A"
                           end (JStr "N/A"))
                then q <- py_float float_str
                            match Extractor.issue_price r with
                            | Some q => JNum q
                            | None => JStr "N/A"
                            end ;; Ok (Some q)
                else Ok None) = Ok (Extractor.issue_price r)).
  { destruct (Extractor.issue_price r); reflexivity. }
  rewrite Hp. cbn [bind].
  eexists. split; [reflexivity|]. cbn [with_rightIssues rightIssues].
  split; [intros ri; apply add_right_issue_keeps|]. split.
  - intros ri Hin. apply add_right_issue_in in Hin.
    destruct Hin as [Hin | ->]; [left; exact Hin|].
    right. exists r. cbn. auto 10.
  - intros r' [= <-] _.
    match goal with
    | |- context [add_right_issue ?x _] =>
        destruct (add_right_issue_has x (rightIssues t) (Extractor.ratio r)
                    eq_refl) as (ri & Hin & Hy & Hr)
    end.
    exists ri. auto.
Qed.

Lemma process_top_shareholders_rights (dy : Z) (yd : year_json) (t : dataset) :
  rightIssues (process_top_shareholders dy yd t) = rightIssues t.
Proof.
  unfold process_top_shareholders.
  destruct (yj_top_shareholders yd); reflexivity.
Qed.

Lemma loaded_display_year (d : Extractor.data) (f : Extractor.display)
    (t : dataset) (dy : Z) :
  Extractor.num d earnings_per_share <> None ->
  exists t',
    process_display_year float_str (loaded d f) t dy = Ok t'
    /\ (forall ri, In ri (rightIssues t) -> In ri (rightIssues t'))
    /\ (forall ri, In ri (rightIssues t') ->
                   In ri (rightIssues t) \/ issue_at dy d ri)
    /\ (forall r, Extractor.right_issues d = Some r ->
                  Extractor.ratio r <> "N/A" ->
                  exists ri, In ri (rightIssues t')
                             /\ ri_year ri = dy
                             /\ ri_ratio ri = JStr (Extractor.ratio r)).
Proof.
  intros He. unfold process_display_year.
  destruct (loaded_rights dy d f t) as (t1 & -> & Hk & Ho & Hh). cbn [bind].
  pose proof (loaded_financials d f) as Hb.
  destruct (Extractor.num d earnings_per_share); [|congruence].
  destruct Hb as (fin & -> & _). cbn [bind].
  eexists. split; [reflexivity|].
  cbn [with_yearlyData rightIssues].
  rewrite process_top_shareholders_rights. auto.
Qed.

Lemma loaded_period (y : string) (d : Extractor.data) (f : Extractor.display)
    (t : dataset) :
  PipelineSpec.readable y d ->
  exists t',
    process_period float_str t (y, loaded d f) = Ok t'
    /\ (forall ri, In ri (rightIssues t) -> In ri (rightIssues t'))
    /\ (forall ri, In ri (rightIssues t') ->
                   In ri (rightIssues t) \/ PipelineSpec.issue_of y d ri)
    /\ (forall r ys z,
           Extractor.right_issues d = Some r ->
           Extractor.ratio r <> "N/A" ->
           display_years y = Ok ys -> In z ys ->
           exists ri, In ri (rightIssues t')
                      /\ ri_year ri = z
                      /\ ri_ratio ri = JStr (Extractor.ratio r)).
Proof.
  intros [Hy He]. unfold process_period. cbn [fst snd].
  destruct (display_years y) as [ys|] eqn:Ed; [|discriminate].
  destruct (display_years_shape _ _ Ed) as (s & e & ->). cbn [bind for_each].
  destruct (loaded_display_year d f t s He) as (t1 & -> & Hk1 & Ho1 & Hh1).
  cbn [bind].
  destruct (loaded_display_year d f t1 e He) as (t2 & -> & Hk2 & Ho2 & Hh2).
  cbn [bind]. exists t2. split; [reflexivity|].
  assert (Hissue : forall dy ri, In dy [s; e] -> issue_at dy d ri ->
                                 PipelineSpec.issue_of y d ri).
  { intros dy ri Hdy (r & H1 & H2 & H3 & H4 & H5 & H6).
    exists r, [s; e]. rewrite H3. auto 10. }
  split; [auto|]. split.
  - intros ri Hin. destruct (Ho2 ri Hin) as [Hin1|Hnew].
    + destruct (Ho1 ri Hin1) as [Hin0|Hnew]; [tauto|].
      right. apply (Hissue s); [simpl; tauto | exact Hnew].
    + right. apply (Hissue e); [simpl; tauto | exact Hnew].
  - intros r ys z Hr Hne [= <-] [<-|[<-|[]]].
    + destruct (Hh1 r Hr Hne) as (ri & Hin & H). exists ri. auto.
    + apply (Hh2 r Hr Hne).
Qed.

(** an entry of the periods the transform reads from an exported document *)
Local Abbreviation exported_period raw_data :=
  (fun item : string * year_json =>
     exists d f,
       dict_get String.eqb (fst item) raw_data = Some d
       /\ snd item = loaded d f).

Lemma exported_periods (now : string) (raw_data : list (string * Extractor.data))
    (formatted_data : list (string * Extractor.display))
    (e : Extractor.exported) :
  Extractor.export_data_to_json now raw_data formatted_data = Ok e ->
  Forall (exported_period raw_data) (periods (Extractor.json_load e))
  /\ forall y d,
       dict_get String.eqb y raw_data = Some d ->
       exists f, In (y, loaded d f) (periods (Extractor.json_load e)).
Proof.
  intros He. destruct (export_spec _ _ _ _ He) as (_ & Hy & Hm & Hall).
  unfold periods, Extractor.json_load. cbn [financial_data]. split.
  - apply Forall_forall. intros item Hin. apply in_map_iff in Hin.
    destruct Hin as (ky & <- & Hin). rewrite Forall_forall in Hall.
    destruct (Hall ky Hin) as (d & f & Hd & _ & Hs).
    exists d, f. cbn [fst snd]. rewrite Hs. auto.
  - intros y d Hd.
    assert (Hk : In y (map fst (Extractor.ex_financial_data e))).
    { rewrite Hm, Hy. eapply Permutation_in; [symmetry; apply sorted_keys_perm|].
      apply dict_get_in_keys. congruence. }
    apply in_map_iff in Hk. destruct Hk as (ky & <- & Hin).
    rewrite Forall_forall in Hall.
    destruct (Hall ky Hin) as (d' & f & Hd' & _ & Hs).
    assert (d' = d) by congruence. subst d'.
    exists f. apply in_map_iff. exists ky. rewrite Hs. auto.
Qed.

Lemma readable_periods_pass (raw_data : list (string * Extractor.data))
    (items : list (string * year_json)) (t : dataset) :
  Forall (exported_period raw_data) items ->
  (forall y d, dict_get String.eqb y raw_data = Some d ->
               PipelineSpec.readable y d) ->
  exists t',
    for_each (process_period float_str) items t = Ok t'
    /\ (forall ri, In ri (rightIssues t) -> In ri (rightIssues t'))
    /\ (forall ri, In ri (rightIssues t') ->
                   In ri (rightIssues t)
                   \/ exists y d, dict_get String.eqb y raw_data = Some d
                                  /\ PipelineSpec.issue_of y d ri)
    /\ (forall y d f r ys z,
           In (y, loaded d f) items ->
           PipelineSpec.readable y d ->
           Extractor.right_issues d = Some r ->
           Extractor.ratio r <> "N/A" ->
           display_years y = Ok ys -> In z ys ->
           exists ri, In ri (rightIssues t')
                      /\ ri_year ri = z
                      /\ ri_ratio ri = JStr (Extractor.ratio r)).
Proof.
  intros Hall Hread. revert t.
  induction Hall as [|[y yd] items (d & f & Hd & Hs) Hall IH]; intros t.
  - exists t. split; [reflexivity|]. split; [auto|]. split; [auto|].
    intros y d f r ys z [].
  - cbn [fst snd] in Hd, Hs. subst yd. cbn [for_each].
    destruct (loaded_period y d f t (Hread y d Hd))
      as (t1 & Hp1 & Hk1 & Ho1 & Hh1).
    rewrite Hp1. cbn [bind].
    destruct (IH t1) as (t2 & -> & Hk2 & Ho2 & Hh2).
    exists t2. split; [reflexivity|]. split; [auto|]. split.
    + intros ri Hin. destruct (Ho2 ri Hin) as [Hin1|Hnew]; [|tauto].
      destruct (Ho1 ri Hin1) as [Hin0|Hnew]; [tauto|].
      right. exists y, d. auto.
    + intros y' d' f' r ys z [Heq|Hin] Hrd Hr Hne Hys Hz.
      * pose proof (f_equal fst Heq) as Hy1.
        pose proof (f_equal snd Heq) as Hl.
        cbn [fst snd] in Hy1, Hl. subst y'.
        destruct (loaded_period y d' f' t Hrd) as (t1' & Hp' & _ & _ & Hh1').
        rewrite <- Hl in Hp'.
        destruct (Hh1' r ys z Hr Hne Hys Hz) as (ri & Hri & Hri').
        exists ri. split; [|exact Hri'].
        apply Hk2. congruence.
      * apply (Hh2 y' d' f' r ys z Hin Hrd Hr Hne Hys Hz).
Qed.

Lemma transform_rights (cd : consolidated_json) (ds : dataset) :
  transform_consolidated_data float_str cd = Ok ds ->
  exists t, for_each (process_period float_str) (periods cd) empty_dataset = Ok t
            /\ rightIssues ds = rightIssues t.
Proof.
  unfold transform_consolidated_data. fold (periods cd).
  destruct (for_each _ (periods cd) empty_dataset) as [t|]; cbn [bind];
    [|discriminate].
  intros [= <-]. exists t. split; reflexivity.
Qed.

Lemma readable_export_passes (raw_data : list (string * Extractor.data))
    (cd : consolidated_json) :
  Forall (exported_period raw_data) (periods cd) ->
  (forall y d, dict_get String.eqb y raw_data = Some d ->
               PipelineSpec.readable y d) ->
  exists ds, transform_consolidated_data float_str cd = Ok ds.
Proof.
  intros Hall Hread.
  destruct (readable_periods_pass raw_data (periods cd) empty_dataset
              Hall Hread) as (t & Ht & _).
  unfold transform_consolidated_data. fold (periods cd). rewrite Ht.
  cbn [bind]. eauto.
Qed.

Lemma passed_export_is_readable (raw_data : list (string * Extractor.data))
    (cd : consolidated_json) (ds : dataset) :
  transform_consolidated_data float_str cd = Ok ds ->
  (forall y d, dict_get String.eqb y raw_data = Some d ->
               exists f, In (y, loaded d f) (periods cd)) ->
  forall y d, dict_get String.eqb y raw_data = Some d ->
              PipelineSpec.readable y d.
Proof.
  intros Ht Hin y d Hd. destruct (Hin y d Hd) as [f Hf].
  destruct (transform_spec float_str cd ds Ht) as [Hok _].
  rewrite Forall_forall in Hok.
  destruct (Hok _ Hf) as (s & e & fin & Hy & Hb & _). cbn [fst snd] in Hy, Hb.
  split; [rewrite Hy; reflexivity|].
  pose proof (loaded_financials d f) as Hl.
  destruct (Extractor.num d earnings_per_share); congruence.
Qed.

Lemma served_entries (raw_data : list (string * Extractor.data))
    (cd : consolidated_json) (ds : dataset) :
  transform_consolidated_data float_str cd = Ok ds ->
  Forall (exported_period raw_data) (periods cd) ->
  forall item, In item (yearlyData ds) ->
    exists y d ys,
      dict_get String.eqb y raw_data = Some d
      /\ display_years y = Ok ys
      /\ In (year item) ys
      /\ PipelineSpec.figures_of d (y_financials item).
Proof.
  intros Ht Hall item Hitem.
  destruct (transform_spec float_str cd ds Ht) as [_ Hy].
  rewrite Hy in Hitem.
  destruct (first_wins_sorted_facts (candidates cd)) as (_ & _ & Hfirst & _).
  specialize (Hfirst item Hitem). unfold first_with_year in Hfirst.
  apply find_some in Hfirst. destruct Hfirst as [Hc _].
  unfold candidates in Hc. apply in_flat_map in Hc.
  destruct Hc as ([k yd] & Hp & He).
  rewrite Forall_forall in Hall.
  destruct (Hall _ Hp) as (d & f & Hd & Hs). cbn [fst snd] in Hd, Hs. subst yd.
  unfold period_entries in He. cbn [fst snd] in He.
  destruct (display_years k) as [ys|] eqn:Ed; [|contradiction].
  pose proof (loaded_financials d f) as Hl.
  destruct (build_financials (loaded d f)) as [fin|] eqn:Eb; [|contradiction].
  apply in_map_iff in He. destruct He as (z & <- & Hz).
  exists k, d, ys. split; [exact Hd|]. split; [exact Ed|].
  split; [exact Hz|]. cbn [yearly_entry y_financials].
  destruct (Extractor.num d earnings_per_share); [|discriminate].
  destruct Hl as (fin' & Hb' & Hfig). injection Hb' as <-. exact Hfig.
Qed.

Lemma served_years (cd : consolidated_json) (ds : dataset) (y : string)
    (yd : year_json) (ys : list Z) (z : Z) :
  transform_consolidated_data float_str cd = Ok ds ->
  In (y, yd) (periods cd) -> display_years y = Ok ys -> In z ys ->
  In z (map year (yearlyData ds)).
Proof.
  intros Ht Hp Hy Hz.
  destruct (transform_spec float_str cd ds Ht) as [Hok Hyd].
  rewrite Forall_forall in Hok.
  destruct (Hok _ Hp) as (s & e & fin & Hy' & Hb & He). cbn [fst snd] in Hy', Hb.
  rewrite Hyd.
  destruct (first_wins_sorted_facts (candidates cd)) as (_ & _ & _ & Hcov).
  apply (Hcov (yearly_entry fin z)).
  unfold candidates. apply in_flat_map. exists (y, yd). split; [exact Hp|].
  rewrite He. assert (ys = [s; e]) by congruence. subst ys.
  destruct Hz as [<-|[<-|[]]]; simpl; tauto.
Qed.

End Served.

(** The exported document under the consolidation transform.  The
    transform gets through the document of [export_data_to_json] exactly
    when every label gives two display years and every record holds the
    earnings per share.  Then each entry of [yearlyData] holds the seven
    figures of a record, under one of the display years of its label, and
    every display year of every label has an entry. *)
Theorem exported_document_is_loadable (float_str : string -> result Q)
    (now : string) (raw_data : list (string * Extractor.data))
    (formatted_data : list (string * Extractor.display))
    (e : Extractor.exported) :
  Extractor.export_data_to_json now raw_data formatted_data = Ok e ->
  (is_ok (App.transform_consolidated_data float_str (Extractor.json_load e))
   = true
   <-> forall y d, dict_get String.eqb y raw_data = Some d ->
                   PipelineSpec.readable y d)
  /\ forall ds,
       App.transform_consolidated_data float_str (Extractor.json_load e)
       = Ok ds ->
       (forall item,
           In item (App.yearlyData ds) ->
           exists y d ys,
             dict_get String.eqb y raw_data = Some d
             /\ App.display_years y = Ok ys
             /\ In (App.year item) ys
             /\ PipelineSpec.figures_of d (App.y_financials item))
       /\ forall y d ys z,
            dict_get String.eqb y raw_data = Some d ->
            App.display_years y = Ok ys -> In z ys ->
            In z (map App.year (App.yearlyData ds)).
Proof.
  intros He. destruct (exported_periods _ _ _ _ He) as [Hall Hin].
  split; [split|].
  - destruct (App.transform_consolidated_data float_str (Extractor.json_load e))
      as [ds|] eqn:Et; [|discriminate].
    intros _. exact (passed_export_is_readable float_str _ _ _ Et Hin).
  - intros Hread.
    destruct (readable_export_passes float_str _ _ Hall Hread) as [ds ->].
    reflexivity.
  - intros ds Et. split.
    + exact (served_entries float_str _ _ _ Et Hall).
    + intros y d ys z Hd Hy Hz. destruct (Hin y d Hd) as [f Hf].
      exact (served_years float_str _ _ _ _ _ _ Et Hf Hy Hz).
Qed.

Lemma exported_document_is_loadable_witness :
  Extractor.export_data_to_json "2025-06-30T12:00:00"
    (snd PipelineExamples.batch) (fst PipelineExamples.batch)
  = Ok ExportExamples.exported_batch
  /\ (is_ok (App.transform_consolidated_data decimal_float_str
               (Extractor.json_load ExportExamples.exported_batch)) = true
      <-> forall y d,
            dict_get String.eqb y (snd PipelineExamples.batch) = Some d ->
            PipelineSpec.readable y d).
Proof.
  assert (H : Extractor.export_data_to_json "2025-06-30T12:00:00"
                (snd PipelineExamples.batch) (fst PipelineExamples.batch)
              = Ok ExportExamples.exported_batch)
    by (vm_compute; reflexivity).
  split; [exact H|].
  exact (proj1 (exported_document_is_loadable decimal_float_str _ _ _ _ H)).
Defined.

(** The rights issues the dashboard serves for an exported document.  Each
    one is the rights issue of a record whose ratio is not ['N/A'], under a
    display year of its label, with the ratio and the issue price of the
    record; a record with such a ratio has one under both display years.
    When every record holds the placeholder ratio ['N/A'], the dataset has
    no rights issue and the route returns the four sample issues. *)
Theorem rights_issues_of_the_export (float_str : string -> result Q)
    (now : string) (raw_data : list (string * Extractor.data))
    (formatted_data : list (string * Extractor.display))
    (e : Extractor.exported) (ds : App.dataset) :
  Extractor.export_data_to_json now raw_data formatted_data = Ok e ->
  App.transform_consolidated_data float_str (Extractor.json_load e) = Ok ds ->
  (forall ri,
      In ri (App.rightIssues ds) ->
      exists y d, dict_get String.eqb y raw_data = Some d
                  /\ PipelineSpec.issue_of y d ri)
  /\ (forall y d r ys z,
         dict_get String.eqb y raw_data = Some d ->
         Extractor.right_issues d = Some r ->
         Extractor.ratio r <> "N/A" ->
         App.display_years y = Ok ys -> In z ys ->
         exists ri, In ri (App.rightIssues ds)
                    /\ App.ri_year ri = z
                    /\ App.ri_ratio ri = App.JStr (Extractor.ratio r))
  /\ ((forall y d r,
          dict_get String.eqb y raw_data = Some d ->
          Extractor.right_issues d = Some r -> Extractor.ratio r = "N/A") ->
      App.rightIssues ds = []
      /\ Api.get_right_issues ds = App.get_sample_right_issues_data).
Proof.
  intros He Et. destruct (exported_periods _ _ _ _ He) as [Hall Hin].
  pose proof (passed_export_is_readable float_str _ _ _ Et Hin) as Hread.
  destruct (transform_rights float_str _ _ Et) as (t & Ht & Hr).
  destruct (readable_periods_pass float_str raw_data _ App.empty_dataset
              Hall Hread) as (t' & Ht' & _ & Ho & Hh).
  assert (t' = t) by congruence. subst t'. rewrite Hr.
  assert (Horigin : forall ri,
             In ri (App.rightIssues t) ->
             exists y d, dict_get String.eqb y raw_data = Some d
                         /\ PipelineSpec.issue_of y d ri).
  { intros ri Hri. destruct (Ho ri Hri) as [[]|H]. exact H. }
  split; [exact Horigin|]. split.
  - intros y d r ys z Hd Hri Hne Hy Hz. destruct (Hin y d Hd) as [f Hf].
    exact (Hh y d f r ys z Hf (Hread y d Hd) Hri Hne Hy Hz).
  - intros Hna.
    assert (Hnil : App.rightIssues t = []).
    { destruct (App.rightIssues t) as [|ri l] eqn:El; [reflexivity|].
      destruct (Horigin ri (or_introl eq_refl))
        as (y & d & Hd & r & ys & Hri & Hne & _).
      exfalso. apply Hne. exact (Hna y d r Hd Hri). }
    split; [exact Hnil|].
    unfold Api.get_right_issues. rewrite Hr, Hnil. reflexivity.
Qed.

Lemma rights_issues_of_the_export_witness :
  exists ds,
    App.transform_consolidated_data decimal_float_str
      (Extractor.json_load ExportExamples.exported_batch) = Ok ds
    /\ ((forall y d r,
            dict_get String.eqb y (snd PipelineExamples.batch) = Some d ->
            Extractor.right_issues d = Some r -> Extractor.ratio r = "N/A") ->
        App.rightIssues ds = []
        /\ Api.get_right_issues ds = App.get_sample_right_issues_data).
Proof.
  eexists. split; [vm_compute; reflexivity|].
  refine (proj2 (proj2 (rights_issues_of_the_export decimal_float_str
                          "2025-06-30T12:00:00" (snd PipelineExamples.batch)
                          (fst PipelineExamples.batch)
                          ExportExamples.exported_batch _ _ _))).
  - vm_compute. reflexivity.
  - vm_compute. reflexivity.
Defined.
